(** * BNF counter-trend strategy: indicators, signals and simulators

    A shallow embedding of the signal-and-simulation engine of
    [bnf_backtest_strategy.py] and [bnf_realtime_monitor.py].

    Python floats and pandas float64 columns are IEEE binary64 numbers: they are
    modelled by Rocq's primitive floats, so that NaN and infinity behave as
    they do in the program.  Timestamps are day numbers in [Z] (all bars are
    daily, [.days] of a difference is the difference of the day numbers). *)

From Stdlib Require Import String.
From Stdlib Require Import ZArith List Bool Lia Floats Uint63 Sorted.
From Stdlib Require Import Permutation.
Import ListNotations.
Set Warnings "-inexact-float".

Local Open Scope Z_scope.

(** ** Python floats *)

Definition nan : float := PrimFloat.nan.

(** [pd.isna] on a float. *)
Definition isna (x : float) : bool := PrimFloat.is_nan x.

(** [pd.isna] on a value of a boolean column: never missing. *)
Definition isna_bool (b : bool) : bool := false.

(** Truth value of a float ([if x:]): false exactly for [0.0] and [-0.0]. *)
Definition truthy (x : float) : bool := negb (x =? 0)%float.

(** Truth value of an optional float ([None] is false). *)
Definition truthy_opt (x : option float) : bool :=
  match x with Some v => truthy v | None => false end.

(** Python's [min(a, b)]: [b] when [b < a], else [a]. *)
Definition py_min (a b : float) : float := if (b <? a)%float then b else a.

Definition float_of_Z (z : Z) : float :=
  if z <? 0 then (- PrimFloat.of_uint63 (Uint63.of_Z (- z)))%float
  else PrimFloat.of_uint63 (Uint63.of_Z z).
Definition float_of_nat (n : nat) : float := float_of_Z (Z.of_nat n).

(** ** pandas series operations used by the indicator code

    A float64 column is a [list float]; a missing value is NaN.  A boolean
    column is a [list bool]: comparisons against NaN are [false]. *)
Module Pandas.

Fixpoint zipWith {A B C} (f : A -> B -> C) (l1 : list A) (l2 : list B) : list C :=
  match l1, l2 with
  | a :: l1', b :: l2' => f a b :: zipWith f l1' l2'
  | _, _ => []
  end.

(** [s.shift(1)] *)
Definition shift1 (s : list float) : list float :=
  match s with
  | [] => []
  | _ => nan :: removelast s
  end.

(** [s.diff()] *)
Definition diff (s : list float) : list float :=
  zipWith PrimFloat.sub s (shift1 s).

(** [s.where(cond, other)] with [cond] computed from the element. *)
Definition where_ (cond : float -> bool) (other : float) (s : list float) : list float :=
  map (fun x => if cond x then x else other) s.

(** The [w] values ending at position [i] (only read when [w <= i + 1]). *)
Definition window {A} (w i : nat) (s : list A) : list A :=
  firstn w (skipn (i + 1 - w) s).

Definition sum (l : list float) : float := fold_left PrimFloat.add l 0%float.

(** [np.mean] / the mean of a full window. *)
Definition mean (l : list float) : float :=
  (sum l / float_of_nat (length l))%float.

(** Generic [s.rolling(window=w).agg()]: NaN until the window is full
    ([min_periods] defaults to the window size); each window is aggregated
    from its own values. *)
Definition rolling (agg : list float -> float) (w : nat) (s : list float) : list float :=
  map (fun i => if (i + 1 <? w)%nat then nan else agg (window w i s))
      (seq 0 (length s)).

Definition rolling_mean := rolling mean.

Definition fmax (x y : float) : float :=
  if isna x || isna y then nan else if (x <? y)%float then y else x.
Definition fmin (x y : float) : float :=
  if isna x || isna y then nan else if (y <? x)%float then y else x.

Definition maximum (l : list float) : float :=
  match l with [] => nan | x :: r => fold_left fmax r x end.
Definition minimum (l : list float) : float :=
  match l with [] => nan | x :: r => fold_left fmin r x end.

Definition rolling_max := rolling maximum.
Definition rolling_min := rolling minimum.

(** [s.ewm(span=span).mean()] with the defaults [adjust=True],
    [ignore_na=False], [min_periods=0]: the running weighted average,
    seeded from the first observed value. State: (weighted, old_wt). *)
Definition ewm_step (old_wt_factor : float) (st : float * float) (cur : float)
  : float * float :=
  let '(weighted, old_wt) := st in
  if isna weighted then
    if isna cur then (weighted, old_wt) else (cur, old_wt)
  else
    let old_wt := (old_wt * old_wt_factor)%float in
    if isna cur then (weighted, old_wt)
    else
      let weighted' :=
        if (weighted =? cur)%float then weighted
        else ((old_wt * weighted + 1 * cur) / (old_wt + 1))%float in
      (weighted', (old_wt + 1)%float).

Fixpoint ewm_loop (f : float) (st : float * float) (s : list float) : list float :=
  match s with
  | [] => []
  | cur :: r => let st' := ewm_step f st cur in fst st' :: ewm_loop f st' r
  end.

Definition ewm_mean (span : nat) (s : list float) : list float :=
  let com := ((float_of_nat span - 1) / 2)%float in
  let alpha := (1 / (1 + com))%float in
  match s with
  | [] => []
  | x :: r => x :: ewm_loop (1 - alpha)%float (x, 1%float) r
  end.

End Pandas.

(** ** Strategy parameters ([_setup_bnf_parameters]) *)

Record Params := mkParams {
  rsi_period : nat;
  williams_period : nat;
  ema_short : nat;
  ema_long : nat;
  volume_ma_period : nat;
  max_holding_days : Z;
  ma_oversold_threshold : float;
  rsi_oversold : float;
  rsi_overbought : float;
  williams_oversold : float;
  williams_overbought : float;
  volume_threshold : float
}.

Definition _setup_bnf_parameters (strategy_mode : string) : Params :=
  if String.eqb strategy_mode "aggressive" then
    mkParams 14 14 20 25 20 3 0.85 40 60 (-70) (-30) 1.1
  else if String.eqb strategy_mode "balanced" then
    mkParams 14 14 20 25 20 3 0.80 35 65 (-75) (-25) 1.2
  else
    mkParams 14 14 20 25 20 3 0.75 30 70 (-80) (-20) 1.3.

(** ** Bars and annotated frames *)

(** The raw OHLCV frame; [Volume] is [None] when the column is absent. *)
Record Bars := mkBars {
  b_index : list Z;
  b_High : list float;
  b_Low : list float;
  b_Close : list float;
  b_Volume : option (list float)
}.

(** The frame after [calculate_bnf_indicators] added its columns. *)
Record DataFrame := mkDataFrame {
  index : list Z;
  Close : list float;
  RSI : list float;
  Williams_R : list float;
  EMA_20 : list float;
  EMA_25 : list float;
  Volume_MA : list float;
  Volume_Ratio : list float;
  MA25_Ratio : list float;
  MA25_Oversold : list bool;
  RSI_Oversold : list bool;
  RSI_Overbought : list bool;
  Williams_Oversold : list bool;
  Williams_Overbought : list bool;
  BNF_Buy_Signal : list bool;
  BNF_Sell_Signal : list bool
}.

Definition len (data : DataFrame) : nat := length (index data).

(** ** Rows, trades and simulator state (shared record shapes) *)

(** What the simulators read of [data.iloc[i]]. *)
Record Row := mkRow {
  r_date : Z;
  r_Close : float;
  r_RSI : float;
  r_Williams_R : float;
  r_EMA_25 : float;
  r_Volume_Ratio : float;
  r_Buy : bool;
  r_Sell : bool
}.

Definition iloc (data : DataFrame) (i : nat) : Row :=
  {| r_date := nth i (index data) 0;
     r_Close := nth i (Close data) nan;
     r_RSI := nth i (RSI data) nan;
     r_Williams_R := nth i (Williams_R data) nan;
     r_EMA_25 := nth i (EMA_25 data) nan;
     r_Volume_Ratio := nth i (Volume_Ratio data) nan;
     r_Buy := nth i (BNF_Buy_Signal data) false;
     r_Sell := nth i (BNF_Sell_Signal data) false |}.

(** The row read where a frame has none (an empty frame is never settled). *)
Definition no_row : Row := mkRow 0 nan nan nan nan nan false false.

(** [for i in range(len(data))]: the rows in index order. *)
Definition iterrows (data : DataFrame) : list Row :=
  map (iloc data) (seq 0 (len data)).

Inductive Action := BUY | SELL_SIGNAL | SELL_TIME | SELL_FINAL.

Definition Action_eqb (a b : Action) : bool :=
  match a, b with
  | BUY, BUY | SELL_SIGNAL, SELL_SIGNAL | SELL_TIME, SELL_TIME
  | SELL_FINAL, SELL_FINAL => true
  | _, _ => false
  end.

(** The reason strings of the sell records, by case. *)
Inductive Reason :=
| Reason_holding_expired (days_held : Z)
| Reason_rsi_overbought
| Reason_williams_overbought
| Reason_ma25_up_10pct
| Reason_other_sell_signal
| Reason_backtest_end.

(** A record of the single-asset ledger.  The last three keys exist on sell
    records only; [t_entry_price] is the value of the [entry_price] variable. *)
Record Trade := mkTrade {
  t_date : Z;
  t_action : Action;
  t_price : float;
  t_shares : float;
  t_value : float;
  t_reason : option Reason;
  t_entry_price : option float;
  t_profit_pct : option float
}.

Record EquityPoint := mkEquityPoint {
  eq_date : Z;
  eq_portfolio_value : float;
  eq_cash : float;
  eq_stock_value : float;
  eq_position : Z
}.

Record CompletedTrade := mkCompletedTrade {
  c_entry_date : Z;
  c_exit_date : Z;
  c_entry_price : float;
  c_exit_price : float;
  c_profit_pct : float;
  c_holding_days : Z;
  c_exit_reason : Action;
  c_is_winning : bool
}.

(** ** Indicators and signals of the real-time monitor
    ([BNFCounterTrendMonitor.calculate_bnf_indicators]), transcribed from
    [bnf_realtime_monitor.py] on its own. *)
Module BNFCounterTrendMonitor.
Import Pandas.

(** The thresholds fixed in the monitor's constructor. *)
Definition monitor_params : Params :=
  mkParams 14 14 20 25 20 3 0.80 35 65 (-75) (-25) 1.2.

Definition calculate_bnf_indicators (self : Params) (data : Bars) : option DataFrame :=
  let n := length (b_index data) in
  let min_history :=
    Nat.max (Nat.max (rsi_period self) (williams_period self)) (ema_long self) in
  if (n <? min_history)%nat then None
  else
    let Close_ := b_Close data in
    let delta := diff Close_ in
    let ups := where_ (fun d => (0 <? d)%float) 0%float delta in
    let downs := where_ (fun d => (d <? 0)%float) 0%float delta in
    let gain := rolling_mean (rsi_period self) ups in
    let loss := rolling_mean (rsi_period self) (map PrimFloat.opp downs) in
    let RSI_ := map (fun rs => (100 - 100 / (1 + rs))%float)
                    (zipWith PrimFloat.div gain loss) in
    let high_max := rolling_max (williams_period self) (b_High data) in
    let low_min := rolling_min (williams_period self) (b_Low data) in
    let Williams_R_ :=
      zipWith PrimFloat.div
        (zipWith (fun h c => (-100 * (h - c))%float) high_max Close_)
        (zipWith PrimFloat.sub high_max low_min) in
    let EMA_20_ := ewm_mean (ema_short self) Close_ in
    let EMA_25_ := ewm_mean (ema_long self) Close_ in
    let Volume_MA_ :=
      match b_Volume data with
      | Some v => rolling_mean (volume_ma_period self) v
      | None => repeat 1%float n
      end in
    let Volume_Ratio_ :=
      match b_Volume data with
      | Some v => zipWith PrimFloat.div v Volume_MA_
      | None => repeat 1%float n
      end in
    let MA25_Ratio_ := zipWith PrimFloat.div Close_ EMA_25_ in
    let MA25_Oversold_ :=
      map (fun x => (x <=? ma_oversold_threshold self)%float) MA25_Ratio_ in
    let RSI_Oversold_ := map (fun x => (x <=? rsi_oversold self)%float) RSI_ in
    let RSI_Overbought_ := map (fun x => (rsi_overbought self <=? x)%float) RSI_ in
    let Williams_Oversold_ :=
      map (fun x => (x <=? williams_oversold self)%float) Williams_R_ in
    let Williams_Overbought_ :=
      map (fun x => (williams_overbought self <=? x)%float) Williams_R_ in
    let vol_ok := map (fun x => (volume_threshold self <? x)%float) Volume_Ratio_ in
    let rebound := zipWith (fun c p => (p <? c)%float) Close_ (shift1 Close_) in
    let cond1 := zipWith andb RSI_Oversold_ vol_ok in
    let cond2 := zipWith andb Williams_Oversold_ vol_ok in
    let cond3 :=
      zipWith andb (zipWith andb MA25_Oversold_ rebound)
              (map (fun x => (1.1 <? x)%float) Volume_Ratio_) in
    let BNF_Buy_Signal_ := zipWith orb (zipWith orb cond1 cond2) cond3 in
    let BNF_Sell_Signal_ :=
      zipWith orb (zipWith orb RSI_Overbought_ Williams_Overbought_)
              (map (fun x => (1.10 <=? x)%float) MA25_Ratio_) in
    Some {| index := b_index data; Close := Close_; RSI := RSI_;
            Williams_R := Williams_R_; EMA_20 := EMA_20_; EMA_25 := EMA_25_;
            Volume_MA := Volume_MA_; Volume_Ratio := Volume_Ratio_;
            MA25_Ratio := MA25_Ratio_; MA25_Oversold := MA25_Oversold_;
            RSI_Oversold := RSI_Oversold_; RSI_Overbought := RSI_Overbought_;
            Williams_Oversold := Williams_Oversold_;
            Williams_Overbought := Williams_Overbought_;
            BNF_Buy_Signal := BNF_Buy_Signal_;
            BNF_Sell_Signal := BNF_Sell_Signal_ |}.

(** *** Position bookkeeping ([get_position_status], [update_position])

    A point in time ([datetime.now()]) is a number of microseconds on the
    local clock. *)

(** A value of [self.positions]: the keys that are present. *)
Record PositionInfo := mkPositionInfo {
  p_status : option string;
  p_entry_price : option float;
  p_entry_time : option Z;
  p_target_days : option Z
}.

(** [self.positions], in insertion order. *)
Definition Positions := list (string * PositionInfo).

(** [positions.get(symbol)] *)
Definition lookup (symbol : string) (positions : Positions) : option PositionInfo :=
  option_map snd (find (fun kv => String.eqb (fst kv) symbol) positions).

(** [positions[symbol] = info] *)
Fixpoint store (symbol : string) (info : PositionInfo) (positions : Positions)
  : Positions :=
  match positions with
  | [] => [(symbol, info)]
  | (k, v) :: r =>
      if String.eqb k symbol then (k, info) :: r else (k, v) :: store symbol info r
  end.

Definition get_position_status (positions : Positions) (symbol : string) : string :=
  match lookup symbol positions with
  | Some info => match p_status info with Some status => status | None => "none" end
  | None => "none"
  end.

Definition update_position (positions : Positions) (now : Z) (symbol status : string)
    (price : option float) : Positions :=
  let info :=
    match lookup symbol positions with
    | Some info => info
    | None => mkPositionInfo None None None None
    end in
  let info :=
    mkPositionInfo (Some status) (p_entry_price info) (p_entry_time info)
      (p_target_days info) in
  let info :=
    if String.eqb status "holding" && truthy_opt price then
      mkPositionInfo (p_status info) price (Some now) (Some 3)
    else if String.eqb status "none" then
      mkPositionInfo (p_status info) None None None
    else info in
  store symbol info positions.

(** *** Signals of the latest bar ([check_bnf_signals]) *)

(** The parts of the two reason strings, by case; a part carries the number
    its text formats. *)
Inductive BuyReason :=
| Buy_rsi_oversold (rsi : float)
| Buy_williams_oversold (williams_r : float)
| Buy_ma25_rebound (ma25_ratio : float).

Inductive SellReason :=
| Sell_rsi_overbought (rsi : float)
| Sell_williams_overbought (williams_r : float)
| Sell_ma25_up (ma25_ratio : float)
| Sell_three_days_held.

(** The dict the function returns, without [price_change_pct] (a column
    that no signal reads). *)
Record Signals := mkSignals {
  sg_symbol : string;
  sg_price : float;
  sg_rsi : float;
  sg_williams_r : float;
  sg_ema_20 : float;
  sg_ema_25 : float;
  sg_volume_ratio : float;
  sg_ma25_ratio : float;
  sg_ma25_oversold : bool;
  sg_rsi_oversold : bool;
  sg_rsi_overbought : bool;
  sg_williams_oversold : bool;
  sg_williams_overbought : bool;
  sg_buy_signal : bool;
  sg_sell_signal : bool;
  sg_buy_reason : list BuyReason;
  sg_sell_reason : list SellReason;
  sg_timestamp : Z;
  sg_position_status : string
}.

(** [timedelta.days] of a difference of two points in time. *)
Definition days (delta : Z) : Z := delta / 86400000000.

(** [history] is what [get_stock_data] returned; [now] and [now'] are the
    two readings of the clock, in this order.  [None] is the empty dict
    (too little data, or the exception raised on a frame without indicator
    columns). *)
Definition check_bnf_signals (self : Params) (positions : Positions) (symbol : string)
    (history : option Bars) (now now' : Z) : option Signals :=
  match history with
  | None => None
  | Some data =>
      if (length (b_index data) <? 50)%nat then None
      else
        match calculate_bnf_indicators self data with
        | None => None
        | Some data =>
            let latest := (len data - 1)%nat in
            let prev := if (1 <? len data)%nat then (len data - 2)%nat else latest in
            let current_position := get_position_status positions symbol in
            let entry_time :=
              match lookup symbol positions with
              | Some info => p_entry_time info
              | None => None
              end in
            let buy_signal :=
              if String.eqb current_position "none"
              then nth latest (BNF_Buy_Signal data) false
              else false in
            let sell_signal :=
              if String.eqb current_position "none" then false
              else if String.eqb current_position "holding" then
                match entry_time with
                | Some entry_time =>
                    let days_held := days (now - entry_time) in
                    nth latest (BNF_Sell_Signal data) false
                    || (3 <=? days_held)
                    || ((2 <=? days_held) && (60 <=? nth latest (RSI data) nan)%float)
                | None => false
                end
              else false in
            let buy_reason :=
              if buy_signal then
                (if nth latest (RSI_Oversold data) false
                    && (volume_threshold self <? nth latest (Volume_Ratio data) nan)%float
                 then [Buy_rsi_oversold (nth latest (RSI data) nan)] else [])
                ++ (if nth latest (Williams_Oversold data) false
                       && (volume_threshold self
                           <? nth latest (Volume_Ratio data) nan)%float
                    then [Buy_williams_oversold (nth latest (Williams_R data) nan)]
                    else [])
                ++ (if nth latest (MA25_Oversold data) false
                       && (nth prev (Close data) nan <? nth latest (Close data) nan)%float
                    then [Buy_ma25_rebound (nth latest (MA25_Ratio data) nan)] else [])
              else [] in
            let sell_reason :=
              if sell_signal then
                (if nth latest (RSI_Overbought data) false
                 then [Sell_rsi_overbought (nth latest (RSI data) nan)] else [])
                ++ (if nth latest (Williams_Overbought data) false
                    then [Sell_williams_overbought (nth latest (Williams_R data) nan)]
                    else [])
                ++ (if (1.10 <=? nth latest (MA25_Ratio data) nan)%float
                    then [Sell_ma25_up (nth latest (MA25_Ratio data) nan)] else [])
                ++ (match entry_time with
                    | Some entry_time =>
                        if 3 <=? days (now' - entry_time)
                        then [Sell_three_days_held] else []
                    | None => []
                    end)
              else [] in
            Some (mkSignals symbol
                    (nth latest (Close data) nan) (nth latest (RSI data) nan)
                    (nth latest (Williams_R data) nan) (nth latest (EMA_20 data) nan)
                    (nth latest (EMA_25 data) nan) (nth latest (Volume_Ratio data) nan)
                    (nth latest (MA25_Ratio data) nan)
                    (nth latest (MA25_Oversold data) false)
                    (nth latest (RSI_Oversold data) false)
                    (nth latest (RSI_Overbought data) false)
                    (nth latest (Williams_Oversold data) false)
                    (nth latest (Williams_Overbought data) false)
                    buy_signal sell_signal buy_reason sell_reason
                    (nth latest (index data) 0) current_position)
        end
  end.

(** *** Alerts ([should_send_alert], [process_signals]) *)

Definition alert_cooldown : float := 3600.

(** [self.last_alerts]: the time of the last alert granted, by key. *)
Definition Alerts := list (string * float).

Definition last_alert (key : string) (last_alerts : Alerts) : option float :=
  option_map snd (find (fun kv => String.eqb (fst kv) key) last_alerts).

Fixpoint set_alert (key : string) (t : float) (last_alerts : Alerts) : Alerts :=
  match last_alerts with
  | [] => [(key, t)]
  | (k, v) :: r =>
      if String.eqb k key then (k, t) :: r else (k, v) :: set_alert key t r
  end.

(** [current_time] is the reading of [time.time()]. *)
Definition should_send_alert (last_alerts : Alerts) (symbol signal_type : string)
    (current_time : float) : bool * Alerts :=
  let key := (symbol ++ "_" ++ signal_type)%string in
  match last_alert key last_alerts with
  | Some last =>
      if (current_time - last <? alert_cooldown)%float then (false, last_alerts)
      else (true, set_alert key current_time last_alerts)
  | None => (true, set_alert key current_time last_alerts)
  end.

(** The attributes [process_signals] reads and writes. *)
Record Monitor := mkMonitor {
  positions : Positions;
  last_alerts : Alerts;
  total_signals_sent : Z;
  last_signal_time : option Z
}.

(** What one branch of [process_signals] meets outside: the reading of
    [time.time()] in [should_send_alert], whether [send_telegram_alert]
    succeeds, and the readings of [datetime.now()] for [last_signal_time]
    and in [update_position]. *)
Record Outside := mkOutside {
  o_time : float;
  o_sent : bool;
  o_now : Z;
  o_now' : Z
}.

(** [on_buy] and [on_sell] are what the buy and the sell branch meet;
    [None] is the empty dict.  The text of the alert
    ([format_alert_message]) is left out: it changes no state. *)
Definition process_signals (m : Monitor) (signals : option Signals)
    (on_buy on_sell : Outside) : bool * Monitor :=
  match signals with
  | None => (false, m)
  | Some signals =>
      let symbol := sg_symbol signals in
      (* buy *)
      let '(alert_sent, m) :=
        if sg_buy_signal signals then
          let '(granted, alerts) :=
            should_send_alert (last_alerts m) symbol "buy" (o_time on_buy) in
          let m := mkMonitor (positions m) alerts (total_signals_sent m)
                     (last_signal_time m) in
          if granted && o_sent on_buy then
            (true,
             mkMonitor
               (update_position (positions m) (o_now' on_buy) symbol "holding"
                  (Some (sg_price signals)))
               (last_alerts m) (total_signals_sent m + 1) (Some (o_now on_buy)))
          else (false, m)
        else (false, m) in
      (* sell *)
      if sg_sell_signal signals then
        let '(granted, alerts) :=
          should_send_alert (last_alerts m) symbol "sell" (o_time on_sell) in
        let m := mkMonitor (positions m) alerts (total_signals_sent m)
                   (last_signal_time m) in
        if granted && o_sent on_sell then
          (true,
           mkMonitor
             (update_position (positions m) (o_now' on_sell) symbol "none" None)
             (last_alerts m) (total_signals_sent m + 1) (Some (o_now on_sell)))
        else (alert_sent, m)
      else (alert_sent, m)
  end.

(** *** The market calendar ([_is_us_holiday], [_get_next_market_open])

    A [datetime] of the US Eastern wall clock, by its fields.  Comparison
    and arithmetic of datetimes of one time zone are those of the wall
    clock. *)
Record DateTime := mkDateTime {
  dt_year : Z;
  dt_month : Z;
  dt_day : Z;
  dt_hour : Z;
  dt_minute : Z;
  dt_second : Z;
  dt_microsecond : Z
}.

Definition is_leap (year : Z) : bool :=
  (year mod 4 =? 0) && (negb (year mod 100 =? 0) || (year mod 400 =? 0)).

Definition days_in_month (year month : Z) : Z :=
  if month =? 2 then (if is_leap year then 29 else 28)
  else if (month =? 4) || (month =? 6) || (month =? 9) || (month =? 11) then 30
  else 31.

Definition days_before_year (year : Z) : Z :=
  let y := year - 1 in y * 365 + y / 4 - y / 100 + y / 400.

Definition days_before_month (year month : Z) : Z :=
  fold_left Z.add
    (map (days_in_month year) (map Z.of_nat (seq 1 (Z.to_nat (month - 1))))) 0.

(** [d.toordinal()] *)
Definition toordinal (d : DateTime) : Z :=
  days_before_year (dt_year d) + days_before_month (dt_year d) (dt_month d) + dt_day d.

(** [d.weekday()]: Monday is 0. *)
Definition weekday (d : DateTime) : Z := (toordinal d + 6) mod 7.

(** [d.replace(day=...)] and [d.replace(hour=..., minute=..., second=...,
    microsecond=...)] *)
Definition replace_day (d : DateTime) (day : Z) : DateTime :=
  mkDateTime (dt_year d) (dt_month d) day (dt_hour d) (dt_minute d) (dt_second d)
    (dt_microsecond d).

Definition replace_time (d : DateTime) (hour minute second microsecond : Z) : DateTime :=
  mkDateTime (dt_year d) (dt_month d) (dt_day d) hour minute second microsecond.

(** The same time on the next day of the calendar. *)
Definition tomorrow (d : DateTime) : DateTime :=
  if dt_day d <? days_in_month (dt_year d) (dt_month d) then
    mkDateTime (dt_year d) (dt_month d) (dt_day d + 1) (dt_hour d) (dt_minute d)
      (dt_second d) (dt_microsecond d)
  else if dt_month d <? 12 then
    mkDateTime (dt_year d) (dt_month d + 1) 1 (dt_hour d) (dt_minute d)
      (dt_second d) (dt_microsecond d)
  else
    mkDateTime (dt_year d + 1) 1 1 (dt_hour d) (dt_minute d)
      (dt_second d) (dt_microsecond d).

(** [d + timedelta(days=n)]; [None] is the OverflowError past year 9999. *)
Fixpoint add_days (d : DateTime) (n : nat) : option DateTime :=
  match n with
  | O => Some d
  | S n' =>
      let d' := tomorrow d in
      if 9999 <? dt_year d' then None else add_days d' n'
  end.

(** [a < b] *)
Definition key_of (d : DateTime) : list Z :=
  [dt_year d; dt_month d; dt_day d; dt_hour d; dt_minute d; dt_second d;
   dt_microsecond d].

Fixpoint lex_ltb (a b : list Z) : bool :=
  match a, b with
  | x :: a', y :: b' => (x <? y) || ((x =? y) && lex_ltb a' b')
  | _, _ => false
  end.

Definition dt_ltb (a b : DateTime) : bool := lex_ltb (key_of a) (key_of b).

Definition _is_us_holiday (us_date : DateTime) : bool :=
  let month := dt_month us_date in
  let day := dt_day us_date in
  let holidays := [(1, 1); (7, 4); (12, 25)] in
  if existsb (fun h => (fst h =? month) && (snd h =? day)) holidays then true
  else if (month =? 11) && (weekday us_date =? 3) then
    let first_day := replace_day us_date 1 in
    let first_thursday := 1 + (3 - weekday first_day) mod 7 in
    let fourth_thursday := first_thursday + 21 in
    if day =? fourth_thursday then true else false
  else false.

(** The loop [for i in range(7)] over the days from [next_day]. *)
Fixpoint first_open_from (next_day : DateTime) (range : list nat) : option DateTime :=
  match range with
  | [] => None
  | i :: range' =>
      match add_days next_day i with
      | None => None
      | Some check_date =>
          if (weekday check_date <? 5) && negb (_is_us_holiday check_date)
          then Some (replace_time check_date 9 30 0 0)
          else first_open_from next_day range'
      end
  end.

(** [None] is the [None] of the source: returned when the seven days hold
    no opening and when the date arithmetic overflows. *)
Definition _get_next_market_open (current_us_time : DateTime) : option DateTime :=
  let today_open := replace_time current_us_time 9 30 0 0 in
  if dt_ltb current_us_time today_open && (weekday current_us_time <? 5)
     && negb (_is_us_holiday current_us_time)
  then Some today_open
  else
    match add_days current_us_time 1 with
    | None => None
    | Some next_day => first_open_from next_day (seq 0 7)
    end.

End BNFCounterTrendMonitor.
(** ** Indicators and signals of the backtester
    ([BNFCounterTrendBacktest.calculate_bnf_indicators]).

    [None] stands for the early [return data]: the frame comes back without
    any indicator column.  The two momentum columns ([Price_Change_Pct],
    [Price_MA_5]) are read by no signal and no simulator and are left out. *)
Module BNFCounterTrendBacktest.
Import Pandas.

Definition calculate_bnf_indicators (self : Params) (data : Bars) : option DataFrame :=
  if (length (b_index data)
        <? Nat.max (Nat.max (rsi_period self) (williams_period self)) (ema_long self))%nat
  then None
  else
    let close := b_Close data in
    (* RSI *)
    let delta := diff close in
    let gain := rolling_mean (rsi_period self)
                  (where_ (fun d => (0 <? d)%float) 0%float delta) in
    let loss := rolling_mean (rsi_period self)
                  (map PrimFloat.opp (where_ (fun d => (d <? 0)%float) 0%float delta)) in
    let rs := zipWith PrimFloat.div gain loss in
    let rsi := map (fun r => (100 - 100 / (1 + r))%float) rs in
    (* Williams %R *)
    let high_max := rolling_max (williams_period self) (b_High data) in
    let low_min := rolling_min (williams_period self) (b_Low data) in
    let williams_r :=
      zipWith PrimFloat.div
        (zipWith (fun h c => (-100 * (h - c))%float) high_max close)
        (zipWith PrimFloat.sub high_max low_min) in
    (* EMA *)
    let ema_20 := ewm_mean (ema_short self) close in
    let ema_25 := ewm_mean (ema_long self) close in
    (* volume *)
    let volume_ma :=
      match b_Volume data with
      | Some v => rolling_mean (volume_ma_period self) v
      | None => repeat 1%float (length (b_index data))
      end in
    let volume_ratio :=
      match b_Volume data with
      | Some v => zipWith PrimFloat.div v volume_ma
      | None => repeat 1%float (length (b_index data))
      end in
    (* distance from the 25-day average *)
    let ma25_ratio := zipWith PrimFloat.div close ema_25 in
    let ma25_oversold :=
      map (fun x => (x <=? ma_oversold_threshold self)%float) ma25_ratio in
    let rsi_oversold_c := map (fun x => (x <=? rsi_oversold self)%float) rsi in
    let rsi_overbought_c := map (fun x => (rsi_overbought self <=? x)%float) rsi in
    let williams_oversold_c :=
      map (fun x => (x <=? williams_oversold self)%float) williams_r in
    let williams_overbought_c :=
      map (fun x => (williams_overbought self <=? x)%float) williams_r in
    let volume_up := map (fun x => (volume_threshold self <? x)%float) volume_ratio in
    let buy :=
      zipWith orb
        (zipWith orb
           (zipWith andb rsi_oversold_c volume_up)
           (zipWith andb williams_oversold_c volume_up))
        (zipWith andb
           (zipWith andb ma25_oversold
              (zipWith (fun c p => (p <? c)%float) close (shift1 close)))
           (map (fun x => (1.1 <? x)%float) volume_ratio)) in
    let sell :=
      zipWith orb
        (zipWith orb rsi_overbought_c williams_overbought_c)
        (map (fun x => (1.10 <=? x)%float) ma25_ratio) in
    Some (mkDataFrame (b_index data) close rsi williams_r ema_20 ema_25
            volume_ma volume_ratio ma25_ratio ma25_oversold
            rsi_oversold_c rsi_overbought_c williams_oversold_c
            williams_overbought_c buy sell).



(** *** Single-asset simulator ([_execute_bnf_backtest]) *)

(** The local variables of the loop. *)
Record SimState := mkSimState {
  position : Z;
  cash : float;
  shares : float;
  trades : list Trade;
  equity_curve : list EquityPoint;
  entry_date : option Z;
  entry_price : option float
}.

Definition init_state (initial_capital : float) : SimState :=
  mkSimState 0 initial_capital 0%float [] [] None None.

(** [(current_price - entry_price) / entry_price * 100 if entry_price else 0] *)
Definition profit_pct_of (current_price : float) (entry_price : option float) : float :=
  match entry_price with
  | Some e => if truthy e then ((current_price - e) / e * 100)%float else 0%float
  | None => 0%float
  end.

Definition sell_reason (self : Params) (row : Row) : Reason :=
  if (rsi_overbought self <=? r_RSI row)%float then Reason_rsi_overbought
  else if (williams_overbought self <=? r_Williams_R row)%float
       then Reason_williams_overbought
  else if (1.10 <=? r_Close row / r_EMA_25 row)%float then Reason_ma25_up_10pct
  else Reason_other_sell_signal.

(** The test that makes the loop [continue]. *)
Definition skipped (row : Row) : bool :=
  isna (r_Close row) || isna_bool (r_Buy row) || isna_bool (r_Sell row).

Definition days_held_of (st : SimState) (current_date : Z) : Z :=
  match entry_date st with Some e => current_date - e | None => 0 end.

Definition force_exit_of (self : Params) (st : SimState) (current_date : Z) : bool :=
  match entry_date st with
  | Some e =>
      if position st =? 1 then max_holding_days self <=? current_date - e else false
  | None => false
  end.

(** One iteration of the loop body. *)
Definition step (self : Params) (st : SimState) (row : Row) : SimState :=
  let current_price := r_Close row in
  let current_date := r_date row in
  if skipped row then st
  else
    let days_held := days_held_of st current_date in
    let force_exit := force_exit_of self st current_date in
    let st' :=
      if r_Buy row && (position st =? 0) && (0 <? cash st)%float then
        let shares' := (cash st / current_price)%float in
        mkSimState 1 0%float shares'
          (trades st ++ [mkTrade current_date BUY current_price shares' (cash st)
                           None None None])
          (equity_curve st) (Some current_date) (Some current_price)
      else if (position st =? 1) && (r_Sell row || force_exit) then
        let cash' := (shares st * current_price)%float in
        let action := if force_exit then SELL_TIME else SELL_SIGNAL in
        let reason := if force_exit then Reason_holding_expired days_held
                      else sell_reason self row in
        mkSimState 0 cash' 0%float
          (trades st ++ [mkTrade current_date action current_price (shares st) cash'
                           (Some reason) (entry_price st)
                           (Some (profit_pct_of current_price (entry_price st)))])
          (equity_curve st) None None
      else st in
    let portfolio_value := (cash st' + shares st' * current_price)%float in
    mkSimState (position st') (cash st') (shares st') (trades st')
      (equity_curve st' ++
         [mkEquityPoint current_date portfolio_value (cash st')
            (shares st' * current_price)%float (position st')])
      (entry_date st') (entry_price st').

Definition run_loop (self : Params) (initial_capital : float) (rows : list Row) : SimState :=
  fold_left (step self) rows (init_state initial_capital).

(** The settlement after the loop ([if shares > 0]), at [data.iloc[-1]]. *)
Definition settle (st : SimState) (rows : list Row) : list Trade * float :=
  if (0 <? shares st)%float then
    let last_row := last rows no_row in
    let final_price := r_Close last_row in
    let cash' := (shares st * final_price)%float in
    (trades st ++ [mkTrade (r_date last_row) SELL_FINAL final_price (shares st) cash'
                     (Some Reason_backtest_end) (entry_price st)
                     (Some (profit_pct_of final_price (entry_price st)))],
     cash')
  else (trades st, cash st).

(** *** Trade analysis and metrics *)

Definition analyze_step (acc : option Trade * list CompletedTrade) (trade : Trade)
  : option Trade * list CompletedTrade :=
  let '(buy_trade, completed_trades) := acc in
  match t_action trade with
  | BUY => (Some trade, completed_trades)
  | SELL_SIGNAL | SELL_TIME =>
      match buy_trade with
      | Some b =>
          let profit_pct := ((t_price trade - t_price b) / t_price b * 100)%float in
          let holding_days := t_date trade - t_date b in
          (None,
           completed_trades ++
             [mkCompletedTrade (t_date b) (t_date trade) (t_price b) (t_price trade)
                profit_pct holding_days (t_action trade) (0 <? profit_pct)%float])
      | None => acc
      end
  | SELL_FINAL => acc
  end.

Definition _analyze_bnf_trades (trades : list Trade) : list CompletedTrade :=
  snd (fold_left analyze_step trades (None, [])).

Definition drawdown_step (acc : float * float) (value : float) : float * float :=
  let '(peak, max_drawdown) := acc in
  let peak := if (peak <? value)%float then value else peak in
  let drawdown := ((peak - value) / peak * 100)%float in
  (peak, if (max_drawdown <? drawdown)%float then drawdown else max_drawdown).

Definition _calculate_max_drawdown (equity_curve : list EquityPoint) : float :=
  match map eq_portfolio_value equity_curve with
  | [] => 0%float
  | peak :: _ as portfolio_values =>
      snd (fold_left drawdown_step portfolio_values (peak, 0%float))
  end.

(** [np.mean(l) if l else 0] *)
Definition mean_or_0 (l : list float) : float :=
  match l with [] => 0%float | _ => Pandas.mean l end.

Record Metrics := mkMetrics {
  total_return : float;
  win_rate : float;
  total_trades : nat;
  winning_trades : nat;
  avg_profit : float;
  avg_loss : float;
  profit_factor : float;
  avg_holding_days : float;
  max_drawdown : float;
  final_value : float;
  completed_trades : list CompletedTrade
}.

(** [_calculate_bnf_metrics] without [test_period_days], which only parses
    the two date strings of the request. *)
Definition _calculate_bnf_metrics (initial_capital : float) (trades : list Trade)
    (equity_curve : list EquityPoint) (final_cash : float) : Metrics :=
  let total_return := ((final_cash - initial_capital) / initial_capital * 100)%float in
  let completed := _analyze_bnf_trades trades in
  let total_trades := length completed in
  let winning_trades := length (filter c_is_winning completed) in
  let win_rate :=
    if (0 <? total_trades)%nat
    then (float_of_nat winning_trades / float_of_nat total_trades * 100)%float
    else 0%float in
  let profits := map c_profit_pct (filter c_is_winning completed) in
  let losses := map c_profit_pct (filter (fun t => negb (c_is_winning t)) completed) in
  let avg_profit := mean_or_0 profits in
  let avg_loss := mean_or_0 losses in
  let profit_factor :=
    if (avg_loss =? 0)%float then infinity else abs (avg_profit / avg_loss) in
  let holding_periods := map c_holding_days completed in
  let avg_holding_days :=
    match holding_periods with
    | [] => 0%float
    | _ => (float_of_Z (fold_left Z.add holding_periods 0%Z)
            / float_of_nat (length holding_periods))%float
    end in
  mkMetrics total_return win_rate total_trades winning_trades avg_profit avg_loss
    profit_factor avg_holding_days (_calculate_max_drawdown equity_curve)
    final_cash completed.

Record BacktestResult := mkBacktestResult {
  res_trades : list Trade;
  res_equity_curve : list EquityPoint;
  res_final_cash : float;
  res_metrics : Metrics
}.

Definition _execute_bnf_backtest (self : Params) (initial_capital : float)
    (data : DataFrame) : BacktestResult :=
  let rows := iterrows data in
  let st := run_loop self initial_capital rows in
  let '(trades, cash) := settle st rows in
  mkBacktestResult trades (equity_curve st) cash
    (_calculate_bnf_metrics initial_capital trades (equity_curve st) cash).

(** *** Portfolio simulator ([_execute_bnf_portfolio_backtest]) *)

Record SignalInfo := mkSignalInfo {
  s_symbol : string;
  s_price : float;
  s_buy_signal : bool;
  s_sell_signal : bool;
  s_rsi : float;
  s_williams_r : float;
  s_volume_ratio : float
}.

Record Holding := mkHolding {
  h_shares : float;
  h_entry_date : Z;
  h_entry_price : float
}.

(** The [holdings] dict, in insertion order (the order [items()] yields). *)
Definition Holdings := list (string * Holding).

(** A record of the portfolio ledger; [days_held] exists on sells only. *)
Record PTrade := mkPTrade {
  pt_date : Z;
  pt_symbol : string;
  pt_action : Action;
  pt_price : float;
  pt_shares : float;
  pt_value : float;
  pt_days_held : option Z
}.

Record Snapshot := mkSnapshot {
  sn_date : Z;
  sn_total_value : float;
  sn_cash : float;
  sn_stock_value : float;
  sn_positions : nat;
  sn_daily_trades : nat
}.

(** [symbol in holdings] *)
Definition held (symbol : string) (holdings : Holdings) : bool :=
  existsb (fun kv => String.eqb (fst kv) symbol) holdings.

(** [del holdings[symbol]] *)
Definition dict_del (symbol : string) (holdings : Holdings) : Holdings :=
  filter (fun kv => negb (String.eqb (fst kv) symbol)) holdings.

(** [holdings[symbol] = h]: overwrite in place, or append a new key. *)
Fixpoint dict_set (symbol : string) (h : Holding) (holdings : Holdings) : Holdings :=
  match holdings with
  | [] => [(symbol, h)]
  | (k, v) :: r =>
      if String.eqb k symbol then (k, h) :: r else (k, v) :: dict_set symbol h r
  end.

(** [next((s['price'] for s in daily_signals if s['symbol'] == symbol), None)] *)
Definition price_of (daily_signals : list SignalInfo) (symbol : string) : option float :=
  option_map s_price (find (fun s => String.eqb (s_symbol s) symbol) daily_signals).

(** [l[:k]] for a Python integer [k]. *)
Definition py_slice_to {A} (k : Z) (l : list A) : list A :=
  if k <? 0 then firstn (length l - Z.to_nat (- k)) l else firstn (Z.to_nat k) l.

(** [list.sort(key=rsi)]: the sort is stable and compares keys with [<]
    only; on keys that [<] orders totally every stable sort returns this
    list. *)
Fixpoint insert_by_rsi (x : SignalInfo) (l : list SignalInfo) : list SignalInfo :=
  match l with
  | [] => [x]
  | y :: r => if (s_rsi y <? s_rsi x)%float then y :: insert_by_rsi x r
              else x :: y :: r
  end.

Definition sort_by_rsi (l : list SignalInfo) : list SignalInfo :=
  fold_right insert_by_rsi [] l.

(** The loop variables that survive from one date to the next. *)
Record PState := mkPState {
  total_cash : float;
  holdings : Holdings;
  portfolio_history : list Snapshot;
  all_trades : list PTrade
}.

(** Step 1: the signals of one date.  [stock_data] lists the frames in the
    order of [valid_stocks] (the caller fills both together, and the keys of
    a dict are distinct). *)
Fixpoint index_of (date : Z) (idx : list Z) : option nat :=
  match idx with
  | [] => None
  | d :: r => if d =? date then Some O else option_map S (index_of date r)
  end.

Definition signal_at (date : Z) (sd : string * DataFrame) : option SignalInfo :=
  match index_of date (index (snd sd)) with
  | None => None
  | Some i =>
      let row := iloc (snd sd) i in
      Some (mkSignalInfo (fst sd) (r_Close row) (r_Buy row) (r_Sell row)
              (r_RSI row) (r_Williams_R row) (r_Volume_Ratio row))
  end.

Definition collect_signals (stock_data : list (string * DataFrame)) (date : Z)
  : list SignalInfo :=
  flat_map (fun sd => match signal_at date sd with Some s => [s] | None => [] end)
           stock_data.

(** Step 2: the forced time exits.  Accumulator: cash, ledger, symbols to
    remove. *)
Definition sweep_step (self : Params) (date : Z) (daily_signals : list SignalInfo)
    (acc : float * list PTrade * list string) (kv : string * Holding)
  : float * list PTrade * list string :=
  let '(cash, ledger, symbols_to_remove) := acc in
  let '(symbol, holding_info) := kv in
  let days_held := date - h_entry_date holding_info in
  if max_holding_days self <=? days_held then
    match price_of daily_signals symbol with
    | Some current_price =>
        if truthy current_price then
          let sell_value := (h_shares holding_info * current_price)%float in
          ((cash + sell_value)%float,
           ledger ++ [mkPTrade date symbol SELL_TIME current_price
                        (h_shares holding_info) sell_value (Some days_held)],
           symbols_to_remove ++ [symbol])
        else acc
    | None => acc
    end
  else acc.

Definition remove_all (symbols : list string) (holdings : Holdings) : Holdings :=
  fold_left (fun h symbol => dict_del symbol h) symbols holdings.

Definition get (symbol : string) (holdings : Holdings) : option Holding :=
  option_map snd (find (fun kv => String.eqb (fst kv) symbol) holdings).

(** Step 3: the signal exits, over the signals of the date. *)
Definition sell_step (date : Z) (holdings : Holdings)
    (acc : float * list PTrade * list string) (signal : SignalInfo)
  : float * list PTrade * list string :=
  let '(cash, ledger, symbols_to_remove) := acc in
  match get (s_symbol signal) holdings with
  | None => acc
  | Some h =>
      if s_sell_signal signal then
        let sell_value := (h_shares h * s_price signal)%float in
        ((cash + sell_value)%float,
         ledger ++ [mkPTrade date (s_symbol signal) SELL_SIGNAL (s_price signal)
                      (h_shares h) sell_value (Some (date - h_entry_date h))],
         symbols_to_remove ++ [s_symbol signal])
      else acc
  end.

(** Step 4: the admissions, over the slice of the sorted candidates. *)
Fixpoint buy_loop (max_positions : Z) (date : Z) (candidates : list SignalInfo)
    (cash : float) (holdings : Holdings) (ledger : list PTrade)
  : float * Holdings * list PTrade :=
  match candidates with
  | [] => (cash, holdings, ledger)
  | signal :: rest =>
      if (cash <? 1000)%float then (cash, holdings, ledger)
      else
        let investment_ratio := py_min 0.2 (1.0 / float_of_Z max_positions) in
        let investment_amount := (cash * investment_ratio)%float in
        if (1000 <=? investment_amount)%float then
          let shares := (investment_amount / s_price signal)%float in
          buy_loop max_positions date rest (cash - investment_amount)%float
            (dict_set (s_symbol signal) (mkHolding shares date (s_price signal))
               holdings)
            (ledger ++ [mkPTrade date (s_symbol signal) BUY (s_price signal)
                          shares investment_amount None])
        else buy_loop max_positions date rest cash holdings ledger
  end.

Definition buy_candidates_of (daily_signals : list SignalInfo) (holdings : Holdings)
  : list SignalInfo :=
  sort_by_rsi
    (filter (fun s => s_buy_signal s && negb (held (s_symbol s) holdings))
            daily_signals).

(** Step 5: the value of the open positions at the prices of the date. *)
Definition stock_value_of (daily_signals : list SignalInfo) (holdings : Holdings)
  : float :=
  fold_left
    (fun total kv =>
       match price_of daily_signals (fst kv) with
       | Some current_price => (total + h_shares (snd kv) * current_price)%float
       | None => total
       end)
    holdings 0%float.

(** The body of the loop over [all_dates], for the signals of the date. *)
Definition day_step (self : Params) (max_positions : Z)
    (daily_signals : list SignalInfo) (date : Z) (st : PState) : PState :=
  (* 2. forced time exits *)
  let '(cash2, ledger2, out2) :=
    fold_left (sweep_step self date daily_signals) (holdings st)
              (total_cash st, all_trades st, []) in
  let holdings2 := remove_all out2 (holdings st) in
  (* 3. signal exits *)
  let '(cash3, ledger3, out3) :=
    fold_left (sell_step date holdings2) daily_signals (cash2, ledger2, []) in
  let holdings3 := remove_all out3 holdings2 in
  (* 4. admissions *)
  let buy_candidates := buy_candidates_of daily_signals holdings3 in
  let current_positions := Z.of_nat (length holdings3) in
  let available_slots := max_positions - current_positions in
  let '(cash4, holdings4, ledger4) :=
    buy_loop max_positions date (py_slice_to available_slots buy_candidates)
          cash3 holdings3 ledger3 in
  (* 5. snapshot *)
  let total_stock_value := stock_value_of daily_signals holdings4 in
  mkPState cash4 holdings4
    (portfolio_history st ++
       [mkSnapshot date (cash4 + total_stock_value)%float cash4 total_stock_value
          (length holdings4)
          (length (filter (fun t => pt_date t =? date) ledger4))])
    ledger4.

(** [sorted(set(...))]: the dates in ascending order, each once. *)
Fixpoint insert_date (d : Z) (l : list Z) : list Z :=
  match l with
  | [] => [d]
  | x :: r => if d <? x then d :: x :: r
              else if d =? x then x :: r
              else x :: insert_date d r
  end.

Definition sorted_set (l : list Z) : list Z := fold_right insert_date [] l.

Definition mem_date (d : Z) (l : list Z) : bool := existsb (Z.eqb d) l.

(** [all_dates] as the function computes it, before its guard
    [if not all_dates]: the dates common to all frames, ascending.  [None]
    is the [TypeError] of [sorted(list(None))]: without a frame the loop
    over [valid_stocks] leaves [all_dates] at [None]. *)
Definition common_dates (stock_data : list (string * DataFrame)) : option (list Z) :=
  match stock_data with
  | [] => None
  | first :: rest =>
      Some (sorted_set
              (fold_left
                 (fun acc sd => filter (fun d => mem_date d (index (snd sd))) acc)
                 rest (index (snd first))))
  end.

(** The dates the loop runs over: the common dates, and none where the
    call raises. *)
Definition all_dates_of (stock_data : list (string * DataFrame)) : list Z :=
  match common_dates stock_data with
  | Some all_dates => all_dates
  | None => []
  end.

Definition run_days (self : Params) (max_positions : Z)
    (stock_data : list (string * DataFrame)) (dates : list Z) (st : PState) : PState :=
  fold_left (fun st date =>
               day_step self max_positions (collect_signals stock_data date) date st)
            dates st.

(** The last loop: credit every open position at the close of the final date. *)
Definition final_price_of (stock_data : list (string * DataFrame)) (symbol : string)
    (final_date : Z) : option float :=
  match find (fun sd => String.eqb (fst sd) symbol) stock_data with
  | Some sd => option_map (fun i => r_Close (iloc (snd sd) i))
                          (index_of final_date (index (snd sd)))
  | None => None
  end.

Definition settle_portfolio (stock_data : list (string * DataFrame)) (final_date : Z)
    (cash : float) (holdings : Holdings) : float :=
  fold_left
    (fun cash kv =>
       match final_price_of stock_data (fst kv) final_date with
       | Some final_price => (cash + h_shares (snd kv) * final_price)%float
       | None => cash
       end)
    holdings cash.

Record PortfolioResult := mkPortfolioResult {
  pr_initial_capital : float;
  pr_final_value : float;
  pr_total_profit : float;
  pr_total_return : float;
  pr_portfolio_history : list Snapshot;
  pr_all_trades : list PTrade;
  pr_final_holdings : Holdings;
  pr_max_positions : Z;
  pr_max_holding_days : Z
}.

(** The simulator with the position limit as a parameter.  [None] is no
    result: the empty dict returned when the frames have no common date,
    and also the call without frames, which raises (see [common_dates]) and
    which [run_bnf_portfolio_backtest] never makes.  The statistics of
    [_calculate_bnf_portfolio_stats] are derived from the fields kept
    here. *)
Definition portfolio_backtest_with (max_positions : Z) (self : Params)
    (initial_capital : float) (stock_data : list (string * DataFrame))
  : option PortfolioResult :=
  let all_dates := all_dates_of stock_data in
  match all_dates with
  | [] => None
  | _ =>
      let st := run_days self max_positions stock_data all_dates
                  (mkPState initial_capital [] [] []) in
      let final_date := last all_dates 0 in
      let cash := settle_portfolio stock_data final_date (total_cash st) (holdings st) in
      Some (mkPortfolioResult initial_capital cash (cash - initial_capital)%float
              ((cash - initial_capital) / initial_capital * 100)%float
              (portfolio_history st) (all_trades st) (holdings st)
              max_positions (max_holding_days self))
  end.

(** The limit the source fixes. *)
Definition max_positions : Z := 10.

Definition _execute_bnf_portfolio_backtest :=
  portfolio_backtest_with max_positions.

(** *** Portfolio statistics ([_calculate_bnf_portfolio_stats])

    The statistics that are counts and comparisons: the maximum drawdown of
    the total values, the trade counts by action and the largest number of
    open positions.  The numpy reductions (volatility, Sharpe ratio, the
    averages) are left out; the third argument, [final_value], is not
    read. *)
Record PortfolioStats := mkPortfolioStats {
  ps_max_drawdown : float;
  ps_total_trade_count : nat;
  ps_buy_trades : nat;
  ps_sell_signal_trades : nat;
  ps_sell_time_trades : nat;
  ps_max_positions_held : nat
}.

Definition count_action (a : Action) (all_trades : list PTrade) : nat :=
  length (filter (fun t => Action_eqb (pt_action t) a) all_trades).

(** [None] is the empty dict returned for an empty history. *)
Definition _calculate_bnf_portfolio_stats (portfolio_history : list Snapshot)
    (all_trades : list PTrade) : option PortfolioStats :=
  match map sn_total_value portfolio_history with
  | [] => None
  | peak :: _ as values =>
      Some (mkPortfolioStats
              (snd (fold_left drawdown_step values (peak, 0%float)))
              (length all_trades)
              (count_action BUY all_trades)
              (count_action SELL_SIGNAL all_trades)
              (count_action SELL_TIME all_trades)
              (fold_right Nat.max O (map sn_positions portfolio_history)))
  end.

(** *** The entry points, after the download

    What [stock.history(...)] returns is an input: [Some bars] is the frame
    of the download, [None] an exception it raised. *)

Definition top50_stocks : list string :=
  ["AAPL"; "MSFT"; "GOOGL"; "AMZN"; "NVDA"; "META"; "TSLA"; "BRK-B"; "AVGO";
   "LLY";
   "JPM"; "UNH"; "XOM"; "V"; "PG"; "JNJ"; "MA"; "HD"; "CVX"; "MRK";
   "ABBV"; "KO"; "ADBE"; "PEP"; "COST"; "WMT"; "BAC"; "CRM"; "TMO"; "NFLX";
   "ACN"; "LIN"; "MCD"; "ABT"; "CSCO"; "AMD"; "PM"; "TXN"; "DHR"; "DIS";
   "INTC"; "VZ"; "WFC"; "COP"; "BMY"; "NOW"; "CAT"; "NEE"; "UPS"; "RTX"]%string.

(** [data['Close'].isna().sum() > len(data) * 0.1] *)
Definition poor_quality (data : Bars) : bool :=
  (float_of_nat (length (b_index data)) * 0.1
   <? float_of_nat (length (filter isna (b_Close data))))%float.

(** [s.isna().all()] *)
Definition all_na (s : list float) : bool := forallb isna s.

(** [run_single_backtest]; [None] is its [None].  [close_mean] is pandas'
    [Series.mean] (the mean of the values that are not NaN), whose rounding
    depends on the summation pandas is built with.  The function catches
    every exception: the [KeyError] of [data['RSI']] on a frame returned
    without indicator columns, and the [ZeroDivisionError] of the total
    return of a run with a capital of zero (such a run never buys, so that
    the division is one of Python numbers). *)
Definition run_single_backtest (close_mean : list float -> float) (self : Params)
    (initial_capital : float) (history : option Bars)
  : option (BacktestResult * DataFrame) :=
  match history with
  | None => None
  | Some data =>
      if (length (b_index data) =? 0)%nat then None
      else if (length (b_index data) <? ema_long self)%nat then None
      else if poor_quality data then None
      else
        let avg_price := close_mean (b_Close data) in
        if (avg_price <? 1)%float || (10000 <? avg_price)%float then None
        else
          match calculate_bnf_indicators self data with
          | None => None
          | Some data =>
              if all_na (RSI data) || all_na (Williams_R data) then None
              else if truthy initial_capital
              then Some (_execute_bnf_backtest self initial_capital data, data)
              else None
          end
  end.

(** One pass of the download loop of [run_bnf_portfolio_backtest]:
    the frame is accepted, the loop is left by [break], or an exception is
    raised. *)
Variant Attempt := Accepted (data : DataFrame) | Dropped | Raised.

Definition attempt (self : Params) (history : option Bars) : Attempt :=
  match history with
  | None => Raised
  | Some data =>
      if (length (b_index data) =? 0)%nat
         || (length (b_index data) <? ema_long self)%nat then Dropped
      else if poor_quality data then Dropped
      else
        match calculate_bnf_indicators self data with
        | None => Raised
        | Some data => if all_na (RSI data) then Dropped else Accepted data
        end
  end.

(** The loop state: [stock_data] with [valid_stocks] as its keys (the
    symbols of the watch list are distinct: setting a key appends), and
    [failed_stocks]. *)
Definition download_step (self : Params) (history : string -> nat -> option Bars)
    (acc : list (string * DataFrame) * list string) (symbol : string)
  : list (string * DataFrame) * list string :=
  let '(stock_data, failed_stocks) := acc in
  (* while retry_count < max_retries (= 2) and not success *)
  match attempt self (history symbol 0%nat) with
  | Accepted data => (stock_data ++ [(symbol, data)], failed_stocks)
  | Dropped => (stock_data, failed_stocks)
  | Raised =>
      match attempt self (history symbol 1%nat) with
      | Accepted data => (stock_data ++ [(symbol, data)], failed_stocks)
      | Dropped => (stock_data, failed_stocks)
      | Raised =>
          (* appended in the handler, and again after the loop *)
          (stock_data, failed_stocks ++ [symbol] ++ [symbol])
      end
  end.

Record PortfolioRun := mkPortfolioRun {
  run_result : PortfolioResult;
  run_stats : option PortfolioStats;
  run_valid_stocks : list string;
  run_failed_stocks : list string;
  run_success_rate : float
}.

Definition download_loop (self : Params) (history : string -> nat -> option Bars)
    (stocks_to_test : list string) : list (string * DataFrame) * list string :=
  fold_left (download_step self history) stocks_to_test ([], []).

(** What a call of [run_bnf_portfolio_backtest] comes to: the result dict,
    the empty dict, or the [ZeroDivisionError] of the total return of a run
    with a capital of zero, which nothing catches. *)
Variant PortfolioOutcome :=
| Completed (run : PortfolioRun)
| Nothing
| ZeroDivision.

Definition run_bnf_portfolio_backtest (self : Params) (initial_capital : float)
    (history : string -> nat -> option Bars) (max_stocks : Z) : PortfolioOutcome :=
  let stocks_to_test := py_slice_to max_stocks top50_stocks in
  let '(stock_data, failed_stocks) := download_loop self history stocks_to_test in
  match stock_data with
  | [] => Nothing
  | _ =>
      match _execute_bnf_portfolio_backtest self initial_capital stock_data with
      | None => Nothing
      | Some result =>
          if truthy initial_capital then
            Completed
              (mkPortfolioRun result
                 (_calculate_bnf_portfolio_stats (pr_portfolio_history result)
                    (pr_all_trades result))
                 (map fst stock_data) failed_stocks
                 (float_of_nat (length stock_data)
                  / float_of_nat (length stocks_to_test) * 100)%float)
          else ZeroDivision
      end
  end.

End BNFCounterTrendBacktest.

(** * Statement vocabulary and sample series *)

(** The buy rule as the specification words it: the OR of three triggers,
    the third with its own fixed volume bar of 1.1. *)
Definition buy_rule (self : Params)
    (rsi williams_r ma_ratio close prev_close volume_ratio : float) : bool :=
  ((rsi <=? rsi_oversold self)%float && (volume_threshold self <? volume_ratio)%float)
  || ((williams_r <=? williams_oversold self)%float
      && (volume_threshold self <? volume_ratio)%float)
  || ((ma_ratio <=? ma_oversold_threshold self)%float && (prev_close <? close)%float
      && (1.1 <? volume_ratio)%float).

(** The two rolling means the RSI is computed from. *)
Definition gain_column (period : nat) (close : list float) : list float :=
  Pandas.rolling_mean period
    (Pandas.where_ (fun d => (0 <? d)%float) 0%float (Pandas.diff close)).

Definition loss_column (period : nat) (close : list float) : list float :=
  Pandas.rolling_mean period
    (map PrimFloat.opp
       (Pandas.where_ (fun d => (d <? 0)%float) 0%float (Pandas.diff close))).

Definition empty_frame : DataFrame :=
  mkDataFrame [] [] [] [] [] [] [] [] [] [] [] [] [] [] [] [].

Definition frame_of (o : option DataFrame) : DataFrame :=
  match o with Some df => df | None => empty_frame end.

Definition balanced : Params := _setup_bnf_parameters "balanced".

(** Twenty-five daily bars on the days [day 0 .. day 24], with the given
    closes and volumes, highs [up] above and lows [down] below the close. *)
Definition bars25_on (day : nat -> Z) (close volume : nat -> float)
    (up down : float) : Bars :=
  let rows := seq 0 25 in
  mkBars (map day rows)
         (map (fun i => (close i + up)%float) rows)
         (map (fun i => (close i - down)%float) rows)
         (map close rows) (Some (map volume rows)).

Definition bars25 := bars25_on Z.of_nat.

Definition spike_at (days : list nat) (i : nat) : float :=
  if existsb (Nat.eqb i) days then 2000%float else 1000%float.

Definition declining (i : nat) : float := (100 - float_of_nat i)%float.

Definition indicators (data : Bars) : DataFrame :=
  frame_of (BNFCounterTrendBacktest.calculate_bnf_indicators balanced data).

(** A steady decline (100, 99, 98, ...) with one volume spike on day 19. *)
Definition decline_bars : Bars := bars25 declining (spike_at [19%nat]) 1 1.
Definition decline_frame : DataFrame := indicators decline_bars.

(** A flat close at 100 inside a daily range of 99..104, volume spike on
    day 19. *)
Definition flat_bars : Bars := bars25 (fun _ => 100%float) (spike_at [19%nat]) 4 1.
Definition flat_frame : DataFrame := indicators flat_bars.

(** A steady rise (100, 101, 102, ...). *)
Definition rise_bars : Bars :=
  bars25 (fun i => (100 + float_of_nat i)%float) (spike_at []) 1 1.
Definition rise_frame : DataFrame := indicators rise_bars.

(** The decline on a five-day trading week: row 19 is a Thursday (day 27),
    row 20 the Friday (day 28), row 21 the Monday after (day 31). *)
Definition trading_day (i : nat) : Z := Z.of_nat i + 2 * ((Z.of_nat i + 4) / 5).
Definition week_bars : Bars :=
  bars25_on trading_day declining (spike_at [19%nat]) 1 1.
Definition week_frame : DataFrame := indicators week_bars.


(** The decline with volume spikes three days apart, on days 19 and 22. *)
Definition respike_bars : Bars := bars25 declining (spike_at [19%nat; 22%nat]) 1 1.
Definition respike_frame : DataFrame := indicators respike_bars.

(** [data['Close'].mean()]: the mean of the values that are not NaN. *)
Definition series_mean (s : list float) : float :=
  Pandas.mean (filter (fun x => negb (isna x)) s).

(** A close that stalls at 100 up to day 20 and rises by one a day from
    then on, inside a daily range of 99..104 around the stall, with a volume
    spike on day 19: the RSI is NaN up to day 20 and 100 afterwards. *)
Definition stall (i : nat) : float :=
  if (i <=? 20)%nat then 100%float else (100 + float_of_nat (i - 20))%float.
Definition stall_bars : Bars := bars25 stall (spike_at [19%nat]) 4 1.
Definition stall_frame : DataFrame := indicators stall_bars.



(** * Facts about binary64 comparisons and special values *)

Section FloatFacts.

Lemma Prim2SF_nan : Prim2SF nan = S754_nan.
Proof. reflexivity. Qed.

Lemma isna_Prim2SF (x : float) : isna x = true -> Prim2SF x = S754_nan.
Proof.
  unfold isna, Prim2SF. intros ->. reflexivity.
Qed.

Lemma isna_eq (x : float) : isna x = true -> x = nan.
Proof.
  intros H. apply Prim2SF_inj. rewrite (isna_Prim2SF _ H). reflexivity.
Qed.

Lemma SFcompare_nan_r (x : spec_float) : SFcompare x S754_nan = None.
Proof. destruct x; reflexivity. Qed.

Lemma ltb_nan_r (x : float) : (x <? nan)%float = false.
Proof.
  rewrite FloatAxioms.ltb_spec, Prim2SF_nan. unfold SFltb. now rewrite SFcompare_nan_r.
Qed.

Lemma ltb_nan_l (x : float) : (nan <? x)%float = false.
Proof. rewrite FloatAxioms.ltb_spec, Prim2SF_nan. reflexivity. Qed.

Lemma leb_nan_r (x : float) : (x <=? nan)%float = false.
Proof.
  rewrite FloatAxioms.leb_spec, Prim2SF_nan. unfold SFleb. now rewrite SFcompare_nan_r.
Qed.

Lemma leb_nan_l (x : float) : (nan <=? x)%float = false.
Proof. rewrite FloatAxioms.leb_spec, Prim2SF_nan. reflexivity. Qed.

Lemma div_nan_r (x : float) : (x / nan)%float = nan.
Proof.
  apply Prim2SF_inj. rewrite FloatAxioms.div_spec, Prim2SF_nan.
  unfold SF64div, SFdiv. destruct (Prim2SF x); reflexivity.
Qed.

Lemma div_nan_l (x : float) : (nan / x)%float = nan.
Proof.
  apply Prim2SF_inj. rewrite FloatAxioms.div_spec, Prim2SF_nan. reflexivity.
Qed.

Lemma add_nan_r (x : float) : (x + nan)%float = nan.
Proof.
  apply Prim2SF_inj. rewrite FloatAxioms.add_spec, Prim2SF_nan.
  unfold SF64add, SFadd. destruct (Prim2SF x); reflexivity.
Qed.

Lemma sub_nan_r (x : float) : (x - nan)%float = nan.
Proof.
  apply Prim2SF_inj. rewrite FloatAxioms.sub_spec, Prim2SF_nan.
  unfold SF64sub, SFsub. destruct (Prim2SF x); reflexivity.
Qed.

(** A float above zero is a positive finite number or plus infinity. *)
Lemma pos_cases (g : float) :
  (0 <? g)%float = true ->
  (exists m e, Prim2SF g = S754_finite false m e) \/ Prim2SF g = S754_infinity false.
Proof.
  rewrite FloatAxioms.ltb_spec. change (Prim2SF 0) with (S754_zero false).
  unfold SFltb, SFcompare.
  destruct (Prim2SF g) as [s | s | | s m e]; try discriminate.
  - destruct s; [discriminate | now right].
  - destruct s; [discriminate | left; eauto].
Qed.

(** A float equal to zero is one of the two zeros. *)
Lemma zero_cases (l : float) :
  (l =? 0)%float = true -> exists s, Prim2SF l = S754_zero s.
Proof.
  rewrite FloatAxioms.eqb_spec. change (Prim2SF 0) with (S754_zero false).
  unfold SFeqb, SFcompare.
  destruct (Prim2SF l) as [s | s | | s m e]; try discriminate; eauto.
  - destruct s; discriminate.
  - destruct s; discriminate.
Qed.

(** Positive over zero is an infinity of the zero's sign. *)
Lemma pos_div_zero (g l : float) (s : bool) :
  (0 <? g)%float = true -> Prim2SF l = S754_zero s ->
  Prim2SF (g / l) = S754_infinity s.
Proof.
  intros Hg Hl. rewrite FloatAxioms.div_spec, Hl. unfold SF64div, SFdiv.
  destruct (pos_cases g Hg) as [(m & e & ->) | ->]; reflexivity.
Qed.

Lemma zero_div_zero (g l : float) :
  (g =? 0)%float = true -> (l =? 0)%float = true -> (g / l)%float = nan.
Proof.
  intros Hg Hl. apply Prim2SF_inj. rewrite FloatAxioms.div_spec.
  destruct (zero_cases g Hg) as [s ->], (zero_cases l Hl) as [s' ->].
  reflexivity.
Qed.

End FloatFacts.

(** * Columns, row by row *)

Section Columns.
Import Pandas.

Lemma length_zipWith {A B C} (f : A -> B -> C) l1 l2 :
  length (zipWith f l1 l2) = Nat.min (length l1) (length l2).
Proof.
  revert l2; induction l1 as [|a l1 IH]; intros [|b l2]; simpl; auto.
Qed.

Lemma nth_zipWith {A B C} (f : A -> B -> C) l1 l2 i d d1 d2 :
  (i < length (zipWith f l1 l2))%nat ->
  nth i (zipWith f l1 l2) d = f (nth i l1 d1) (nth i l2 d2).
Proof.
  revert l2 i; induction l1 as [|a l1 IH]; intros [|b l2] i; simpl;
    try (intros H; exfalso; lia).
  destruct i; auto. intros H. apply IH. lia.
Qed.

Lemma nth_map_any {A B} (f : A -> B) l i d d' :
  (i < length l)%nat -> nth i (map f l) d = f (nth i l d').
Proof.
  intros H. rewrite (nth_indep _ d (f d')) by now rewrite length_map.
  apply map_nth.
Qed.

Lemma nth_map_seq {A} (f : nat -> A) n i d :
  (i < n)%nat -> nth i (map f (seq 0 n)) d = f i.
Proof.
  intros H. rewrite (nth_map_any f _ i d O) by now rewrite length_seq.
  now rewrite seq_nth.
Qed.

Lemma length_shift1 s : length (shift1 s) = length s.
Proof.
  destruct s as [|x r]; [reflexivity|].
  unfold shift1. cbn [length]. rewrite removelast_firstn_len.
  rewrite length_firstn. cbn [length]. lia.
Qed.

Lemma nth_shift1 s i :
  (i < length s)%nat ->
  nth i (shift1 s) nan = match i with O => nan | S j => nth j s nan end.
Proof.
  destruct s as [|x r]; [simpl; lia|]. intros Hi.
  unfold shift1. destruct i as [|j]; [reflexivity|]. cbn [nth].
  rewrite removelast_firstn_len, nth_firstn. cbn [length Nat.pred] in *.
  destruct (Nat.ltb_spec j (length r)); [reflexivity | lia].
Qed.

Lemma length_diff s : length (diff s) = length s.
Proof. unfold diff. rewrite length_zipWith, length_shift1. lia. Qed.

Lemma length_where c o s : length (where_ c o s) = length s.
Proof. apply length_map. Qed.

Lemma length_rolling agg w s : length (rolling agg w s) = length s.
Proof. unfold rolling. now rewrite length_map, length_seq. Qed.

Lemma nth_rolling agg w s i d :
  (i < length s)%nat ->
  nth i (rolling agg w s) d = if (i + 1 <? w)%nat then nan else agg (window w i s).
Proof. intros H. unfold rolling. now rewrite nth_map_seq. Qed.

Lemma window_map {A B} (f : A -> B) w i s :
  window w i (map f s) = map f (window w i s).
Proof. unfold window. now rewrite skipn_map, firstn_map. Qed.

Lemma length_window {A} w i (s : list A) :
  (w <= i + 1)%nat -> (i < length s)%nat -> length (window w i s) = w.
Proof.
  intros H1 H2. unfold window. rewrite length_firstn, length_skipn. lia.
Qed.

(** The [k]-th value of the window ending at [i] is the value at
    [i + 1 - w + k]. *)
Lemma nth_window {A} w i (s : list A) k d :
  (k < w)%nat -> nth k (window w i s) d = nth (i + 1 - w + k) s d.
Proof.
  intros H. unfold window. rewrite nth_firstn.
  destruct (Nat.ltb_spec k w); [|lia]. now rewrite nth_skipn.
Qed.

Lemma sum_neg_zeros n : sum (repeat (-0)%float n) = 0%float.
Proof.
  unfold sum. induction n as [|n IH]; [reflexivity|]. simpl.
  change (0 + -0)%float with 0%float. exact IH.
Qed.

(** A list whose every element is [x] is [repeat x]. *)
Lemma all_same_repeat {A} (x : A) l :
  (forall k, (k < length l)%nat -> nth k l x = x) -> l = repeat x (length l).
Proof.
  induction l as [|a l IH]; intros H; [reflexivity|]. simpl.
  f_equal.
  - exact (H O ltac:(simpl; lia)).
  - apply IH. intros k Hk. apply (H (S k)). simpl; lia.
Qed.

End Columns.

(** * The indicator functions *)

Section Indicators.
Import Pandas.

Lemma monitor_same self data :
  BNFCounterTrendMonitor.calculate_bnf_indicators self data
  = BNFCounterTrendBacktest.calculate_bnf_indicators self data.
Proof. reflexivity. Qed.

Lemma buy_column_rule self data df i :
  BNFCounterTrendBacktest.calculate_bnf_indicators self data = Some df ->
  (i < length (BNF_Buy_Signal df))%nat ->
  nth i (BNF_Buy_Signal df) false
  = buy_rule self (nth i (RSI df) nan) (nth i (Williams_R df) nan)
      (nth i (MA25_Ratio df) nan) (nth i (Close df) nan)
      (match i with O => nan | S j => nth j (Close df) nan end)
      (nth i (Volume_Ratio df) nan)
  /\ nth i (MA25_Ratio df) nan
     = (nth i (Close df) nan / nth i (EMA_25 df) nan)%float.
Proof.
  unfold BNFCounterTrendBacktest.calculate_bnf_indicators.
  destruct (_ <? _)%nat; [discriminate|].
  intros [= <-].
  cbn [BNF_Buy_Signal RSI Williams_R MA25_Ratio Close Volume_Ratio EMA_25].
  intros Hi. unfold buy_rule.
  set (close := b_Close data) in *.
  set (rsi := map _ (zipWith PrimFloat.div _ _)) in *.
  set (wr := zipWith PrimFloat.div (zipWith _ _ _) _) in *.
  set (vr := match b_Volume data with Some v => zipWith _ _ _ | None => _ end) in *.
  set (ma := zipWith PrimFloat.div close _) in *.
  rewrite (nth_zipWith orb _ _ i false false false) by exact Hi.
  rewrite length_zipWith in Hi.
  rewrite (nth_zipWith orb _ _ i false false false) by lia.
  rewrite !length_zipWith, !length_map in Hi.
  rewrite !(nth_zipWith andb _ _ i false false false)
    by (rewrite ?length_zipWith, ?length_map; lia).
  rewrite !(nth_map_any _ _ i false nan) by lia.
  rewrite (nth_zipWith _ close (shift1 close) i false nan nan)
    by (rewrite ?length_zipWith, ?length_map; lia).
  rewrite length_shift1 in Hi.
  rewrite (nth_shift1 close i) by lia.
  split; [reflexivity|].
  subst ma. rewrite (nth_zipWith _ _ _ i nan nan nan) by lia. reflexivity.
Qed.

(** C7: on every row the buy flag of both indicator functions is the OR
    of the three triggers (RSI oversold with volume above the configured
    threshold; Williams %R oversold with volume above the configured
    threshold; MA-ratio oversold with a close above yesterday's and volume
    ratio above the constant 1.1), the MA-ratio being close / long EMA. *)
Theorem buy_signal_is_or_of_three_triggers self data df i :
  BNFCounterTrendBacktest.calculate_bnf_indicators self data = Some df
  \/ BNFCounterTrendMonitor.calculate_bnf_indicators self data = Some df ->
  (i < length (BNF_Buy_Signal df))%nat ->
  nth i (BNF_Buy_Signal df) false
  = buy_rule self (nth i (RSI df) nan) (nth i (Williams_R df) nan)
      (nth i (MA25_Ratio df) nan) (nth i (Close df) nan)
      (match i with O => nan | S j => nth j (Close df) nan end)
      (nth i (Volume_Ratio df) nan)
  /\ nth i (MA25_Ratio df) nan
     = (nth i (Close df) nan / nth i (EMA_25 df) nan)%float.
Proof.
  intros [H | H] Hi; [| rewrite monitor_same in H];
    exact (buy_column_rule self data df i H Hi).
Qed.

Lemma buy_signal_rule_on_decline :
  (BNFCounterTrendBacktest.calculate_bnf_indicators balanced decline_bars
     = Some decline_frame
   \/ BNFCounterTrendMonitor.calculate_bnf_indicators balanced decline_bars
      = Some decline_frame)
  /\ (19 < length (BNF_Buy_Signal decline_frame))%nat
  /\ nth 19 (BNF_Buy_Signal decline_frame) false
     = buy_rule balanced (nth 19 (RSI decline_frame) nan)
         (nth 19 (Williams_R decline_frame) nan)
         (nth 19 (MA25_Ratio decline_frame) nan)
         (nth 19 (Close decline_frame) nan)
         (nth 18 (Close decline_frame) nan)
         (nth 19 (Volume_Ratio decline_frame) nan).
Proof.
  assert (H1 : BNFCounterTrendBacktest.calculate_bnf_indicators balanced decline_bars
               = Some decline_frame) by (vm_compute; reflexivity).
  assert (H2 : (19 < length (BNF_Buy_Signal decline_frame))%nat)
    by (vm_compute; lia).
  split; [left; exact H1 | split; [exact H2 |]].
  exact (proj1 (buy_signal_is_or_of_three_triggers balanced decline_bars
                  decline_frame 19 (or_introl H1) H2)).
Defined.

(** C9: the indicator function of the monitor and the one of the
    backtester return the same frame (every indicator column and both
    signal flags) on every bar series under the same parameters. *)
Theorem indicator_computations_agree (self : Params) (data : Bars) :
  BNFCounterTrendMonitor.calculate_bnf_indicators self data
  = BNFCounterTrendBacktest.calculate_bnf_indicators self data.
Proof.
  unfold BNFCounterTrendMonitor.calculate_bnf_indicators,
    BNFCounterTrendBacktest.calculate_bnf_indicators.
  destruct (_ <? _)%nat; reflexivity.
Qed.

(** *** RSI on a window without losses *)

Lemma loss_zero_without_negative_delta close i :
  (13 <= i < length close)%nat ->
  (forall j, (i - 13 <= j <= i)%nat ->
             (nth j (diff close) nan <? 0)%float = false) ->
  nth i (loss_column 14 close) nan = 0%float.
Proof.
  intros Hi Hd. unfold loss_column, rolling_mean.
  rewrite nth_rolling by (rewrite length_map, length_where, length_diff; lia).
  destruct (Nat.ltb_spec (i + 1) 14); [lia|].
  rewrite window_map. unfold where_ at 1. rewrite window_map.
  set (win := window 14 i (diff close)).
  assert (Hlen : length win = 14%nat)
    by (apply length_window; [lia | rewrite length_diff; lia]).
  assert (Hall : map PrimFloat.opp
                   (map (fun x => if (x <? 0)%float then x else 0%float) win)
                 = repeat (-0)%float 14).
  { rewrite (all_same_repeat (-0)%float
               (map PrimFloat.opp
                  (map (fun x => if (x <? 0)%float then x else 0%float) win))).
    - now rewrite !length_map, Hlen.
    - intros k Hk. rewrite !length_map in Hk.
      rewrite (nth_map_any PrimFloat.opp _ k _ nan) by now rewrite length_map.
      rewrite (nth_map_any _ win k _ nan) by lia.
      subst win. rewrite nth_window by lia.
      rewrite Hd by lia. reflexivity. }
  rewrite Hall. unfold mean. rewrite sum_neg_zeros. reflexivity.
Qed.

Lemma rsi_formula_no_loss (g l : float) :
  (l =? 0)%float = true ->
  ((0 <? g)%float = true -> (100 - 100 / (1 + g / l))%float = 100%float)
  /\ ((g =? 0)%float = true -> isna (100 - 100 / (1 + g / l))%float = true).
Proof.
  intros Hl. split; intros Hg.
  - destruct (zero_cases l Hl) as [s Hs].
    pose proof (pos_div_zero g l s Hg Hs) as Hq.
    destruct s.
    + replace (g / l)%float with neg_infinity
        by (apply Prim2SF_inj; now rewrite Hq).
      reflexivity.
    + replace (g / l)%float with infinity
        by (apply Prim2SF_inj; now rewrite Hq).
      reflexivity.
  - rewrite (zero_div_zero g l Hg Hl). reflexivity.
Qed.

Lemma length_gain_column p close : length (gain_column p close) = length close.
Proof.
  unfold gain_column, rolling_mean.
  now rewrite length_rolling, length_where, length_diff.
Qed.

Lemma length_loss_column p close : length (loss_column p close) = length close.
Proof.
  unfold loss_column, rolling_mean.
  now rewrite length_rolling, length_map, length_where, length_diff.
Qed.

Lemma nth_rsi_column self data df i :
  BNFCounterTrendBacktest.calculate_bnf_indicators self data = Some df ->
  (i < length (b_Close data))%nat ->
  nth i (RSI df) nan
  = (100 - 100 / (1 + nth i (gain_column (rsi_period self) (b_Close data)) nan
                       / nth i (loss_column (rsi_period self) (b_Close data)) nan))%float.
Proof.
  unfold BNFCounterTrendBacktest.calculate_bnf_indicators.
  destruct (_ <? _)%nat; [discriminate|].
  intros [= <-] Hi. cbn [RSI].
  fold (gain_column (rsi_period self) (b_Close data)).
  fold (loss_column (rsi_period self) (b_Close data)).
  rewrite (nth_map_any _ _ i nan nan)
    by (rewrite length_zipWith, length_gain_column, length_loss_column; lia).
  rewrite (nth_zipWith _ _ _ i nan nan nan)
    by (rewrite length_zipWith, length_gain_column, length_loss_column; lia).
  reflexivity.
Qed.

(** C8 (amended): with the 14-day RSI period of every preset, on a bar
    whose trailing window holds no negative close-to-close delta the
    average loss is zero, and the RSI is 100 when the average gain is
    positive, NaN when the average gain is zero as well. *)
Theorem rsi_without_losses self data df i :
  BNFCounterTrendBacktest.calculate_bnf_indicators self data = Some df ->
  rsi_period self = 14%nat ->
  (13 <= i < length (b_Close data))%nat ->
  (forall j, (i - 13 <= j <= i)%nat ->
             (nth j (diff (b_Close data)) nan <? 0)%float = false) ->
  nth i (loss_column 14 (b_Close data)) nan = 0%float
  /\ ((0 <? nth i (gain_column 14 (b_Close data)) nan)%float = true ->
      nth i (RSI df) nan = 100%float)
  /\ ((nth i (gain_column 14 (b_Close data)) nan =? 0)%float = true ->
      isna (nth i (RSI df) nan) = true).
Proof.
  intros Hdf Hp Hi Hd.
  split; [exact (loss_zero_without_negative_delta _ i Hi Hd)|].
  rewrite (nth_rsi_column self data df i Hdf) by lia.
  rewrite Hp, (loss_zero_without_negative_delta _ i Hi Hd).
  apply rsi_formula_no_loss. reflexivity.
Qed.

End Indicators.

(** * The single-asset simulator *)

Section SingleAsset.
Import Pandas.
Import BNFCounterTrendBacktest.

(** ** Trade analysis *)






(** ** One iteration of the single-asset loop, case by case *)

Variant step_case (self : Params) (st : SimState) (row : Row) (st' : SimState) : Prop :=
| case_skip :
    skipped row = true -> st' = st -> step_case self st row st'
| case_buy :
    skipped row = false -> r_Buy row = true -> position st = 0 ->
    position st' = 1 ->
    entry_date st' = Some (r_date row) ->
    trades st' = trades st
                 ++ [mkTrade (r_date row) BUY (r_Close row)
                       (cash st / r_Close row)%float (cash st) None None None] ->
    shares st' = (cash st / r_Close row)%float ->
    cash st' = 0%float ->
    step_case self st row st'
| case_sell e t :
    skipped row = false -> position st = 1 -> entry_date st = Some e ->
    position st' = 0 -> entry_date st' = None ->
    shares st' = 0%float ->
    cash st' = (shares st * r_Close row)%float ->
    trades st' = trades st ++ [t] ->
    t_date t = r_date row ->
    t_action t = (if max_holding_days self <=? r_date row - e
                  then SELL_TIME else SELL_SIGNAL) ->
    step_case self st row st'
| case_sell_undated t :
    skipped row = false -> position st = 1 -> entry_date st = None ->
    position st' = 0 -> entry_date st' = None ->
    shares st' = 0%float ->
    trades st' = trades st ++ [t] ->
    t_date t = r_date row -> t_action t = SELL_SIGNAL ->
    step_case self st row st'
| case_hold :
    skipped row = false ->
    position st' = position st -> entry_date st' = entry_date st ->
    trades st' = trades st -> shares st' = shares st -> cash st' = cash st ->
    entry_price st' = entry_price st ->
    (r_Buy row && (position st =? 0) && (0 <? cash st)%float = false) ->
    (position st = 1 -> forall e, entry_date st = Some e ->
                                  r_date row - e < max_holding_days self) ->
    step_case self st row st'.

Lemma step_cases self st row : step_case self st row (step self st row).
Proof.
  unfold step. destruct (skipped row) eqn:Hs; [now apply case_skip|].
  destruct (r_Buy row && (position st =? 0) && (0 <? cash st)%float) eqn:Hb.
  - apply andb_prop in Hb as [Hb _]. apply andb_prop in Hb as [Hbuy Hp].
    apply Z.eqb_eq in Hp. now apply case_buy.
  - destruct ((position st =? 1) && (r_Sell row || force_exit_of self st (r_date row)))
      eqn:Hsell.
    + apply andb_prop in Hsell as [Hp _]. apply Z.eqb_eq in Hp.
      destruct (entry_date st) as [e|] eqn:He.
      * eapply case_sell with (e := e);
          first [ eassumption | reflexivity
                | cbn; unfold force_exit_of; rewrite He, Hp; reflexivity ].
      * eapply case_sell_undated;
          first [ eassumption | reflexivity
                | cbn; unfold force_exit_of; rewrite He; reflexivity ].
    + apply case_hold; auto.
      intros Hp e He. unfold force_exit_of in Hsell. rewrite He, Hp in Hsell.
      cbn in Hsell. apply orb_false_elim in Hsell as [_ Hf].
      apply Z.leb_gt in Hf. exact Hf.
Qed.

(** ** Settlement and the shape of the ledger *)




(** ** Holding days of the completed pairs *)

Fixpoint gaps_from (g last : Z) (rows : list Row) : bool :=
  match rows with
  | [] => true
  | r :: rs =>
      if skipped r then gaps_from g last rs
      else (last <=? r_date r) && (r_date r - last <=? g) && gaps_from g (r_date r) rs
  end.

(** The rows that are not skipped are in date order, consecutive ones at
    most [g] days apart. *)
Fixpoint gaps_ok (g : Z) (rows : list Row) : bool :=
  match rows with
  | [] => true
  | r :: rs => if skipped r then gaps_ok g rs else gaps_from g (r_date r) rs
  end.

Definition holding_bound (self : Params) (g : Z) : Z :=
  Z.max (max_holding_days self - 1) 0 + g.

Definition pair_inv (self : Params) (g : Z) (st : SimState) (last : Z) : Prop :=
  let a := fold_left analyze_step (trades st) (None, []) in
  Forall (fun c => 0 <= c_holding_days c <= holding_bound self g) (snd a)
  /\ (position st = 1 ->
      exists e b, entry_date st = Some e /\ fst a = Some b /\ t_date b = e
                  /\ e <= last /\ last - e <= Z.max (max_holding_days self - 1) 0).

Lemma pair_inv_step self g st last row :
  0 <= g ->
  pair_inv self g st last -> skipped row = false ->
  last <= r_date row -> r_date row - last <= g ->
  pair_inv self g (step self st row) (r_date row).
Proof.
  intros Hg [Hc Hp] Hs Hle Hgap. unfold pair_inv.
  destruct (step_cases self st row) as
    [Hs' _ | _ _ _ Hp' He' Htr _ _ | e t _ Hp1 He Hp0 _ _ _ Htr Hd Ha
     | t _ Hp1 He _ _ _ Htr _ _ | _ Hp' He' Htr _ _ _ _ Hheld].
  - congruence.
  - rewrite Htr, fold_left_app. cbn [fold_left].
    destruct (fold_left analyze_step (trades st) (None, [])) as [b cs].
    cbn [analyze_step t_action snd fst] in *. split; [exact Hc|].
    intros _. eexists _, _.
    split; [exact He'|]. split; [reflexivity|]. split; [reflexivity|].
    split; lia.
  - destruct (Hp Hp1) as (e0 & b & He0 & Hb & Hdb & Hel & Hlast).
    assert (e0 = e) by congruence. subst e0.
    rewrite Htr, fold_left_app. cbn [fold_left].
    destruct (fold_left analyze_step (trades st) (None, [])) as [b0 cs].
    cbn [fst snd] in *. subst b0.
    assert (Hact : t_action t = SELL_TIME \/ t_action t = SELL_SIGNAL)
      by (rewrite Ha; destruct (_ <=? _); auto).
    unfold analyze_step.
    split.
    + destruct Hact as [-> | ->]; cbn [snd]; apply Forall_app; (split; [exact Hc|]);
        (constructor; [|constructor]); cbn [c_holding_days];
        unfold holding_bound; lia.
    + intros Hq. rewrite Hp0 in Hq. discriminate.
  - destruct (Hp Hp1) as (e0 & b & He0 & _). congruence.
  - rewrite Htr. split; [exact Hc|]. rewrite Hp', He'. intros H1.
    destruct (Hp H1) as (e & b & He & Hb & Hdb & Hel & Hlast).
    exists e, b. repeat split; auto; [lia|].
    specialize (Hheld H1 e He). lia.
Qed.

Lemma pair_inv_fold self g rows : forall st last,
  0 <= g ->
  pair_inv self g st last -> gaps_from g last rows = true ->
  exists last', pair_inv self g (fold_left (step self) rows st) last'.
Proof.
  induction rows as [|r rs IH]; intros st last Hg Hinv Hgaps; [now exists last|].
  cbn [fold_left]. cbn [gaps_from] in Hgaps.
  destruct (skipped r) eqn:Hs.
  - assert (step self st r = st) as -> by (unfold step; now rewrite Hs).
    now apply (IH st last).
  - apply andb_prop in Hgaps as [H12 H3]. apply andb_prop in H12 as [H1 H2].
    apply Z.leb_le in H1, H2.
    apply (IH _ (r_date r)); auto.
    now apply (pair_inv_step self g st last).
Qed.

Lemma pair_inv_run self g c rows :
  0 <= g -> gaps_ok g rows = true ->
  exists last, pair_inv self g (run_loop self c rows) last.
Proof.
  intros Hg. unfold run_loop.
  assert (H0 : forall last, pair_inv self g (init_state c) last).
  { intros last. split; [constructor | cbn; discriminate]. }
  induction rows as [|r rs IH]; intros Hgaps; [exists 0; apply H0|].
  cbn [gaps_ok] in Hgaps. destruct (skipped r) eqn:Hs.
  - cbn [fold_left].
    assert (step self (init_state c) r = init_state c) as ->
      by (unfold step; now rewrite Hs).
    now apply IH.
  - apply (pair_inv_fold self g (r :: rs) (init_state c) (r_date r)); auto.
    cbn [gaps_from]. rewrite Hs, Hgaps.
    replace (r_date r <=? r_date r) with true by (symmetry; apply Z.leb_le; lia).
    replace (r_date r - r_date r <=? g) with true by (symmetry; apply Z.leb_le; lia).
    reflexivity.
Qed.

Lemma analyze_settle st rows :
  _analyze_bnf_trades (fst (settle st rows)) = _analyze_bnf_trades (trades st).
Proof.
  unfold settle. destruct (0 <? shares st)%float; [|reflexivity].
  cbn [fst]. unfold _analyze_bnf_trades. rewrite fold_left_app. cbn [fold_left].
  unfold analyze_step at 1.
  now destruct (fold_left analyze_step (trades st) (None, [])).
Qed.

Lemma completed_of_run self c data :
  completed_trades (res_metrics (_execute_bnf_backtest self c data))
  = _analyze_bnf_trades (trades (run_loop self c (iterrows data))).
Proof.
  unfold _execute_bnf_backtest.
  rewrite <- (analyze_settle (run_loop self c (iterrows data)) (iterrows data)).
  destruct (settle _ _) as [ts cash]. reflexivity.
Qed.

Lemma holding_days_single self c data g :
  0 <= g -> gaps_ok g (iterrows data) = true ->
  Forall (fun ct => 0 <= c_holding_days ct <= holding_bound self g)
         (completed_trades (res_metrics (_execute_bnf_backtest self c data))).
Proof.
  intros Hg Hgaps. rewrite completed_of_run.
  destruct (pair_inv_run self g c (iterrows data) Hg Hgaps) as [last [H _]].
  exact H.
Qed.

Lemma forced_exit_step self st row e :
  skipped row = false -> position st = 1 -> entry_date st = Some e ->
  max_holding_days self <= r_date row - e ->
  position (step self st row) = 0
  /\ exists t, trades (step self st row) = trades st ++ [t]
               /\ t_action t = SELL_TIME /\ t_date t = r_date row.
Proof.
  intros Hs Hp He Hmax.
  destruct (step_cases self st row) as
    [Hs' _ | _ _ Hp0 _ _ _ _ _ | e' t _ _ He' Hp' _ _ _ Htr Hd Ha
     | t _ _ He' _ _ _ _ _ _ | _ _ _ _ _ _ _ _ Hheld].
  - congruence.
  - congruence.
  - assert (e' = e) by congruence. subst e'. split; [exact Hp'|].
    exists t. repeat split; auto. rewrite Ha.
    destruct (Z.leb_spec (max_holding_days self) (r_date row - e)); [reflexivity|lia].
  - congruence.
  - specialize (Hheld Hp e He). lia.
Qed.

(** ** Rows the simulator skips, and rows before the volume average exists *)

Lemma skipped_is_nan_close row : skipped row = isna (r_Close row).
Proof. unfold skipped, isna_bool. now rewrite !orb_false_r. Qed.

Lemma step_skipped self st row : isna (r_Close row) = true -> step self st row = st.
Proof. intros H. unfold step. now rewrite skipped_is_nan_close, H. Qed.

Lemma buy_rule_nan_volume self rsi wr ma c p :
  buy_rule self rsi wr ma c p nan = false.
Proof.
  unfold buy_rule. rewrite !ltb_nan_r, !andb_false_r. reflexivity.
Qed.

Lemma volume_ratio_before_window self data v df i :
  calculate_bnf_indicators self data = Some df ->
  b_Volume data = Some v ->
  (i + 1 < volume_ma_period self)%nat ->
  nth i (Volume_Ratio df) nan = nan.
Proof.
  unfold calculate_bnf_indicators.
  destruct (_ <? _)%nat; [discriminate|].
  intros [= <-] Hv Hi. cbn [Volume_Ratio]. rewrite Hv.
  destruct (Nat.lt_ge_cases i (length v)) as [Hlt | Hge].
  - rewrite (nth_zipWith _ _ _ i nan nan nan)
      by (unfold rolling_mean; rewrite length_zipWith, length_rolling; lia).
    unfold rolling_mean. rewrite nth_rolling by lia.
    destruct (Nat.ltb_spec (i + 1) (volume_ma_period self)); [|lia].
    apply div_nan_r.
  - apply nth_overflow.
    unfold rolling_mean. rewrite length_zipWith, length_rolling. lia.
Qed.

Lemma no_buy_flag_before_volume_window self data v df i :
  calculate_bnf_indicators self data = Some df ->
  b_Volume data = Some v ->
  (i + 1 < volume_ma_period self)%nat ->
  r_Buy (iloc df i) = false.
Proof.
  intros Hdf Hv Hi. cbn [iloc r_Buy].
  destruct (Nat.lt_ge_cases i (length (BNF_Buy_Signal df))) as [Hlt | Hge].
  - rewrite (proj1 (buy_column_rule self data df i Hdf Hlt)).
    rewrite (volume_ratio_before_window self data v df i Hdf Hv Hi).
    apply buy_rule_nan_volume.
  - now apply nth_overflow.
Qed.

(** What a row without a buy flag leaves alone while no position is open. *)
Definition untouched (c : float) (st : SimState) : Prop :=
  position st = 0 /\ cash st = c /\ shares st = 0%float /\ trades st = [].

Lemma step_flat_without_buy self c st row :
  untouched c st -> r_Buy row = false -> untouched c (step self st row).
Proof.
  intros (Hp & Hc & Hs & Ht) Hb.
  destruct (step_cases self st row) as
    [_ -> | _ Hbuy _ _ _ _ _ _ | e t _ Hp1 _ _ _ _ _ _ _ _
     | t _ Hp1 _ _ _ _ _ _ _ | _ Hp' _ Htr Hsh Hca _ _ _].
  - now repeat split.
  - congruence.
  - congruence.
  - congruence.
  - unfold untouched. now rewrite Hp', Hca, Hsh, Htr.
Qed.

Lemma Forall_firstn_map_seq {A} (P : A -> Prop) (f : nat -> A) n : forall a k,
  (forall i, (a <= i < a + k)%nat -> P (f i)) ->
  Forall P (firstn k (map f (seq a n))).
Proof.
  induction n as [|n IH]; intros a k H; [rewrite firstn_nil; constructor|].
  destruct k as [|k]; [constructor|]. cbn [seq map firstn].
  constructor; [apply H; lia|]. apply IH. intros i Hi. apply H. lia.
Qed.

Lemma untouched_fold self c rows : forall st,
  untouched c st -> Forall (fun r => r_Buy r = false) rows ->
  untouched c (fold_left (step self) rows st).
Proof.
  induction rows as [|r rs IH]; intros st Hst Hrows; [exact Hst|].
  inversion Hrows; subst. cbn [fold_left]. apply IH; auto.
  now apply step_flat_without_buy.
Qed.

Lemma run_before_volume_window self c data v df k :
  calculate_bnf_indicators self data = Some df ->
  b_Volume data = Some v ->
  (k < volume_ma_period self)%nat ->
  untouched c (fold_left (step self) (firstn k (iterrows df)) (init_state c)).
Proof.
  intros Hdf Hv Hk. apply untouched_fold; [now repeat split|].
  unfold iterrows. apply Forall_firstn_map_seq. intros i Hi.
  apply (no_buy_flag_before_volume_window self data v df i Hdf Hv). lia.
Qed.

End SingleAsset.

(** * The portfolio simulator *)

Section Portfolio.
Import Pandas.
Import BNFCounterTrendBacktest.

(** ** The three stages of one portfolio date, in closed form *)

Definition price_or_nan (daily_signals : list SignalInfo) (symbol : string) : float :=
  match price_of daily_signals symbol with Some p => p | None => nan end.

(** The holdings the sweep liquidates: expired, with a price that is truthy. *)
Definition expires (self : Params) (date : Z) (daily_signals : list SignalInfo)
    (kv : string * Holding) : bool :=
  (max_holding_days self <=? date - h_entry_date (snd kv))
  && truthy_opt (price_of daily_signals (fst kv)).

Definition time_trade (date : Z) (daily_signals : list SignalInfo)
    (kv : string * Holding) : PTrade :=
  let p := price_or_nan daily_signals (fst kv) in
  mkPTrade date (fst kv) SELL_TIME p (h_shares (snd kv)) (h_shares (snd kv) * p)%float
    (Some (date - h_entry_date (snd kv))).

Lemma sweep_step_eq self date sigs cash ledger out kv :
  sweep_step self date sigs (cash, ledger, out) kv
  = if expires self date sigs kv
    then ((cash + pt_value (time_trade date sigs kv))%float,
          ledger ++ [time_trade date sigs kv], out ++ [fst kv])
    else (cash, ledger, out).
Proof.
  destruct kv as [sym h].
  unfold sweep_step, expires, time_trade, price_or_nan. cbn [fst snd pt_value].
  destruct (max_holding_days self <=? date - h_entry_date h); cbn [andb];
    [|reflexivity].
  destruct (price_of sigs sym) as [p|]; cbn [truthy_opt]; [|reflexivity].
  now destruct (truthy p).
Qed.

Lemma sweep_fold self date sigs l : forall cash ledger out,
  fold_left (sweep_step self date sigs) l (cash, ledger, out)
  = (fold_left (fun c kv => (c + pt_value (time_trade date sigs kv))%float)
               (filter (expires self date sigs) l) cash,
     ledger ++ map (time_trade date sigs) (filter (expires self date sigs) l),
     out ++ map fst (filter (expires self date sigs) l)).
Proof.
  induction l as [|kv l IH]; intros cash ledger out.
  - cbn. now rewrite !app_nil_r.
  - cbn [fold_left filter]. rewrite sweep_step_eq.
    destruct (expires self date sigs kv); [|apply IH].
    rewrite IH. cbn [fold_left map]. now rewrite <- !app_assoc.
Qed.

Definition sells (holdings : Holdings) (s : SignalInfo) : bool :=
  match get (s_symbol s) holdings with
  | Some _ => s_sell_signal s
  | None => false
  end.

Definition signal_trade (date : Z) (holdings : Holdings) (s : SignalInfo) : PTrade :=
  match get (s_symbol s) holdings with
  | Some h =>
      mkPTrade date (s_symbol s) SELL_SIGNAL (s_price s) (h_shares h)
        (h_shares h * s_price s)%float (Some (date - h_entry_date h))
  | None => mkPTrade date (s_symbol s) SELL_SIGNAL (s_price s) nan nan None
  end.

Lemma sell_step_eq date holdings cash ledger out s :
  sell_step date holdings (cash, ledger, out) s
  = if sells holdings s
    then ((cash + pt_value (signal_trade date holdings s))%float,
          ledger ++ [signal_trade date holdings s], out ++ [s_symbol s])
    else (cash, ledger, out).
Proof.
  unfold sell_step, sells, signal_trade.
  destruct (get (s_symbol s) holdings); [|reflexivity].
  now destruct (s_sell_signal s).
Qed.

Lemma sell_fold date holdings sigs : forall cash ledger out,
  fold_left (sell_step date holdings) sigs (cash, ledger, out)
  = (fold_left (fun c s => (c + pt_value (signal_trade date holdings s))%float)
               (filter (sells holdings) sigs) cash,
     ledger ++ map (signal_trade date holdings) (filter (sells holdings) sigs),
     out ++ map s_symbol (filter (sells holdings) sigs)).
Proof.
  induction sigs as [|s sigs IH]; intros cash ledger out.
  - cbn. now rewrite !app_nil_r.
  - cbn [fold_left filter]. rewrite sell_step_eq.
    destruct (sells holdings s); [|apply IH].
    rewrite IH. cbn [fold_left map]. now rewrite <- !app_assoc.
Qed.

(** ** The holdings dict *)

Lemma in_dict_del sym hs kv :
  In kv (dict_del sym hs) <-> In kv hs /\ fst kv <> sym.
Proof.
  unfold dict_del. rewrite filter_In. split; intros [H1 H2]; split; auto.
  - intros He. rewrite He, String.eqb_refl in H2. discriminate.
  - apply negb_true_iff. now apply String.eqb_neq.
Qed.

Lemma in_remove_all out : forall hs kv,
  In kv (remove_all out hs) <-> In kv hs /\ ~ In (fst kv) out.
Proof.
  unfold remove_all.
  induction out as [|s out IH]; intros hs kv; cbn [fold_left].
  - cbn. tauto.
  - rewrite IH, in_dict_del. cbn [In]. intuition congruence.
Qed.

Lemma length_dict_del sym hs : (length (dict_del sym hs) <= length hs)%nat.
Proof. apply filter_length_le. Qed.

Lemma length_remove_all out : forall hs,
  (length (remove_all out hs) <= length hs)%nat.
Proof.
  unfold remove_all. induction out as [|s out IH]; intros hs; cbn [fold_left]; [lia|].
  etransitivity; [apply IH | apply length_dict_del].
Qed.

Lemma get_in sym hs h : get sym hs = Some h -> In (sym, h) hs.
Proof.
  unfold get. destruct (find _ hs) as [[k v]|] eqn:Hf; [|discriminate].
  intros [= <-]. apply find_some in Hf as [Hin Heq]. cbn in Heq.
  apply String.eqb_eq in Heq. now subst.
Qed.

Lemma held_in sym hs : held sym hs = true <-> exists h, In (sym, h) hs.
Proof.
  unfold held. rewrite existsb_exists. split.
  - intros [[k v] [Hin Heq]]. cbn in Heq. apply String.eqb_eq in Heq. subst. eauto.
  - intros [h Hin]. exists (sym, h). split; auto. cbn. apply String.eqb_refl.
Qed.

Lemma in_dict_set sym h hs k v :
  In (k, v) (dict_set sym h hs) -> In (k, v) hs \/ v = h.
Proof.
  induction hs as [|[k0 v0] hs IH]; cbn [dict_set].
  - intros [[= <- <-] | []]. now right.
  - destruct (String.eqb k0 sym).
    + intros [[= <- <-] | Hin]; [now right | left; now right].
    + intros [Heq | Hin]; [left; now left|].
      destruct (IH Hin); [left; now right | now right].
Qed.

Lemma length_dict_set sym h hs : (length (dict_set sym h hs) <= S (length hs))%nat.
Proof.
  induction hs as [|[k0 v0] hs IH]; cbn [dict_set length]; [lia|].
  destruct (String.eqb k0 sym); cbn [length]; lia.
Qed.

(** ** The admissions *)

Lemma buy_loop_shape mp date cands : forall cash hs ledger cash' hs' ledger',
  buy_loop mp date cands cash hs ledger = (cash', hs', ledger') ->
  (exists B, ledger' = ledger ++ B
             /\ Forall (fun t => pt_action t = BUY /\ pt_date t = date
                                 /\ pt_days_held t = None
                                 /\ In (pt_symbol t) (map s_symbol cands)) B)
  /\ (forall k v, In (k, v) hs' -> In (k, v) hs \/ h_entry_date v = date)
  /\ (length hs' <= length hs + length cands)%nat.
Proof.
  induction cands as [|s cands IH]; intros cash hs ledger cash' hs' ledger' H;
    cbn [buy_loop] in H.
  - injection H as <- <- <-. split; [exists []; split; [now rewrite app_nil_r | constructor]|].
    split; [auto | lia].
  - destruct (cash <? 1000)%float.
    { injection H as <- <- <-.
      split; [exists []; split; [now rewrite app_nil_r | constructor]|].
      split; [auto | cbn [length]; lia]. }
    destruct (1000 <=? _)%float.
    + apply IH in H as ((B & -> & HB) & Hin & Hlen).
      split; [|split].
      * eexists (_ :: B). split; [now rewrite <- app_assoc|].
        constructor; [cbn; auto 6|].
        eapply Forall_impl; [|exact HB]. cbn. intros t (?&?&?&?). auto 6.
      * intros k v Hk. destruct (Hin k v Hk) as [Hd | Hd]; [|now right].
        apply in_dict_set in Hd as [Hd | ->]; [now left | now right].
      * pose proof (length_dict_set (s_symbol s)
                      (mkHolding (cash * py_min 0.2 (1.0 / float_of_Z mp) / s_price s)%float
                         date (s_price s)) hs).
        cbn [length]. lia.
    + apply IH in H as ((B & -> & HB) & Hin & Hlen).
      split; [|split].
      * exists B. split; [reflexivity|].
        eapply Forall_impl; [|exact HB]. cbn. intros t (?&?&?&?). auto 6.
      * exact Hin.
      * cbn [length]. lia.
Qed.

(** ** One date, stage by stage *)

Definition after_sweep (self : Params) (date : Z) (sigs : list SignalInfo)
    (hs : Holdings) : Holdings :=
  remove_all (map fst (filter (expires self date sigs) hs)) hs.

Definition after_sells (sigs : list SignalInfo) (hs : Holdings) : Holdings :=
  remove_all (map s_symbol (filter (sells hs) sigs)) hs.

Definition time_exits self date sigs (st : PState) : list PTrade :=
  map (time_trade date sigs) (filter (expires self date sigs) (holdings st)).

Definition signal_exits self date sigs (st : PState) : list PTrade :=
  let h2 := after_sweep self date sigs (holdings st) in
  map (signal_trade date h2) (filter (sells h2) sigs).

Definition slice_of (mp : Z) (sigs : list SignalInfo) (h3 : Holdings) : list SignalInfo :=
  py_slice_to (mp - Z.of_nat (length h3)) (buy_candidates_of sigs h3).

Definition cash_after_exits self date sigs (st : PState) : float :=
  let h2 := after_sweep self date sigs (holdings st) in
  fold_left (fun c s => (c + pt_value (signal_trade date h2 s))%float)
    (filter (sells h2) sigs)
    (fold_left (fun c kv => (c + pt_value (time_trade date sigs kv))%float)
       (filter (expires self date sigs) (holdings st)) (total_cash st)).

Lemma day_step_stages self mp sigs date st :
  let h3 := after_sells sigs (after_sweep self date sigs (holdings st)) in
  let r := buy_loop mp date (slice_of mp sigs h3)
             (cash_after_exits self date sigs st) h3
             (all_trades st ++ time_exits self date sigs st
                ++ signal_exits self date sigs st) in
  total_cash (day_step self mp sigs date st) = fst (fst r)
  /\ holdings (day_step self mp sigs date st) = snd (fst r)
  /\ all_trades (day_step self mp sigs date st) = snd r
  /\ exists snap,
      portfolio_history (day_step self mp sigs date st)
      = portfolio_history st ++ [snap]
      /\ sn_date snap = date
      /\ sn_positions snap = length (snd (fst r)).
Proof.
  cbv zeta. unfold day_step. rewrite sweep_fold. cbn [app].
  fold (after_sweep self date sigs (holdings st)).
  rewrite sell_fold. cbn [app].
  fold (after_sells sigs (after_sweep self date sigs (holdings st))).
  unfold time_exits, signal_exits, slice_of, cash_after_exits. cbv zeta.
  rewrite <- app_assoc.
  destruct (buy_loop _ _ _ _ _ _) as [[cash4 h4] l4].
  cbn [total_cash holdings all_trades portfolio_history fst snd].
  repeat split. eexists. repeat split.
Qed.

Lemma in_insert_by_rsi x y l : In x (insert_by_rsi y l) <-> x = y \/ In x l.
Proof.
  induction l as [|z l IH]; cbn [insert_by_rsi In]; [intuition|].
  destruct (s_rsi z <? s_rsi y)%float; cbn [In]; rewrite ?IH; intuition.
Qed.

Lemma in_sort_by_rsi x l : In x (sort_by_rsi l) <-> In x l.
Proof.
  unfold sort_by_rsi. induction l as [|y l IH]; cbn [fold_right In]; [tauto|].
  rewrite in_insert_by_rsi, IH. intuition.
Qed.

Lemma insert_by_rsi_perm x l : Permutation (insert_by_rsi x l) (x :: l).
Proof.
  induction l as [|y l IH]; cbn [insert_by_rsi]; [reflexivity|].
  destruct (s_rsi y <? s_rsi x)%float; [|reflexivity].
  rewrite IH. apply perm_swap.
Qed.

Lemma sort_by_rsi_perm l : Permutation (sort_by_rsi l) l.
Proof.
  unfold sort_by_rsi. induction l as [|x l IH]; cbn [fold_right]; [reflexivity|].
  rewrite insert_by_rsi_perm. now constructor.
Qed.

Lemma in_firstn {A} n : forall (l : list A) x, In x (firstn n l) -> In x l.
Proof.
  induction n as [|n IH]; intros l x H; [cbn in H; contradiction|].
  destruct l as [|a l]; cbn in H; [contradiction|].
  destruct H as [H | H]; [now left | right; now apply IH].
Qed.

Lemma in_py_slice_to {A} k (l : list A) x : In x (py_slice_to k l) -> In x l.
Proof. unfold py_slice_to. destruct (k <? 0); apply in_firstn. Qed.

Lemma length_py_slice_to {A} k (l : list A) :
  0 <= k -> Z.of_nat (length (py_slice_to k l)) <= k.
Proof.
  intros Hk. unfold py_slice_to.
  destruct (Z.ltb_spec k 0); [lia|]. rewrite length_firstn. lia.
Qed.

Lemma in_candidates s sigs hs :
  In s (buy_candidates_of sigs hs) <->
  In s sigs /\ s_buy_signal s = true /\ held (s_symbol s) hs = false.
Proof.
  unfold buy_candidates_of. rewrite in_sort_by_rsi, filter_In, andb_true_iff,
    negb_true_iff. tauto.
Qed.


Lemma ledger_of_day self mp sigs date st :
  exists B,
    all_trades (day_step self mp sigs date st)
    = all_trades st ++ time_exits self date sigs st
        ++ signal_exits self date sigs st ++ B
    /\ Forall (fun t => pt_action t = BUY /\ pt_date t = date
                        /\ pt_days_held t = None
                        /\ exists s, In s sigs /\ s_symbol s = pt_symbol t
                                     /\ s_buy_signal s = true
                                     /\ held (s_symbol s)
                                          (after_sells sigs
                                             (after_sweep self date sigs (holdings st)))
                                        = false) B.
Proof.
  destruct (day_step_stages self mp sigs date st) as (_ & _ & Hl & _).
  cbv zeta in Hl. rewrite Hl.
  destruct (buy_loop _ _ _ _ _ _) as [[c4 h4] l4] eqn:Hb. cbn [snd].
  apply buy_loop_shape in Hb as ((B & -> & HB) & _).
  exists B. split; [now rewrite <- !app_assoc|].
  eapply Forall_impl; [|exact HB]. cbn. intros t (Ha & Hd & Hn & Hin).
  repeat split; auto.
  apply in_map_iff in Hin as (s & Hs & Hin).
  apply in_py_slice_to, in_candidates in Hin as (H1 & H2 & H3).
  exists s. auto.
Qed.

(** ** The position limit *)

Lemma positions_of_day self mp sigs date st :
  Z.of_nat (length (holdings st)) <= mp ->
  Z.of_nat (length (holdings (day_step self mp sigs date st))) <= mp.
Proof.
  intros H.
  destruct (day_step_stages self mp sigs date st) as (_ & Hh & _).
  cbv zeta in Hh. rewrite Hh.
  destruct (buy_loop _ _ _ _ _ _) as [[c4 h4] l4] eqn:Hb. cbn [fst snd].
  apply buy_loop_shape in Hb as (_ & _ & Hlen).
  set (h3 := after_sells sigs (after_sweep self date sigs (holdings st))) in *.
  assert (H3 : (length h3 <= length (holdings st))%nat).
  { unfold h3, after_sells, after_sweep.
    etransitivity; apply length_remove_all. }
  pose proof (length_py_slice_to (mp - Z.of_nat (length h3))
                (buy_candidates_of sigs h3) ltac:(lia)) as Hs.
  unfold slice_of in Hlen. lia.
Qed.

(** ** The run over all dates *)

Definition limit_inv (mp : Z) (st : PState) : Prop :=
  Z.of_nat (length (holdings st)) <= mp
  /\ Forall (fun s => Z.of_nat (sn_positions s) <= mp) (portfolio_history st).

Lemma limit_inv_day self mp sigs date st :
  limit_inv mp st -> limit_inv mp (day_step self mp sigs date st).
Proof.
  intros [Hh Hs].
  pose proof (positions_of_day self mp sigs date st Hh) as Hh'.
  split; [exact Hh'|].
  destruct (day_step_stages self mp sigs date st) as (_ & Hhold & _ & snap & -> & _ & Hn).
  cbv zeta in Hhold, Hn.
  apply Forall_app; split; [exact Hs|]. constructor; [|constructor].
  rewrite Hn, <- Hhold. exact Hh'.
Qed.

Lemma limit_inv_run self mp sd dates : forall st,
  limit_inv mp st -> limit_inv mp (run_days self mp sd dates st).
Proof.
  unfold run_days. induction dates as [|d ds IH]; intros st H; [exact H|].
  cbn [fold_left]. apply IH. now apply limit_inv_day.
Qed.

Lemma result_of_run mp self c sd res :
  portfolio_backtest_with mp self c sd = Some res ->
  let st := run_days self mp sd (all_dates_of sd) (mkPState c [] [] []) in
  pr_portfolio_history res = portfolio_history st
  /\ pr_all_trades res = all_trades st
  /\ pr_final_holdings res = holdings st
  /\ pr_final_value res
     = settle_portfolio sd (last (all_dates_of sd) 0) (total_cash st) (holdings st).
Proof.
  unfold portfolio_backtest_with.
  destruct (all_dates_of sd) as [|d ds] eqn:Hd; [discriminate|].
  intros [= <-]. cbn. auto.
Qed.

Lemma positions_within_limit mp self c sd res :
  0 <= mp ->
  portfolio_backtest_with mp self c sd = Some res ->
  Forall (fun s => Z.of_nat (sn_positions s) <= mp) (pr_portfolio_history res)
  /\ Z.of_nat (length (pr_final_holdings res)) <= mp.
Proof.
  intros Hmp Hres. apply result_of_run in Hres as (-> & _ & -> & _).
  destruct (limit_inv_run self mp sd (all_dates_of sd) (mkPState c [] [] [])) as [H1 H2].
  - split; [cbn; lia | constructor].
  - auto.
Qed.

(** ** Holding days in the portfolio *)

Fixpoint date_gaps_from (g last : Z) (dates : list Z) : bool :=
  match dates with
  | [] => true
  | d :: ds => (last <=? d) && (d - last <=? g) && date_gaps_from g d ds
  end.

(** The dates are in order, consecutive ones at most [g] days apart. *)
Definition date_gaps_ok (g : Z) (dates : list Z) : bool :=
  match dates with
  | [] => true
  | d :: ds => date_gaps_from g d ds
  end.

(** Every symbol of [syms] has a price that is truthy among the signals, and
    the signals are of these symbols only. *)
Definition covers (syms : list string) (sigs : list SignalInfo) : Prop :=
  (forall sym, In sym syms -> truthy_opt (price_of sigs sym) = true)
  /\ (forall s, In s sigs -> In (s_symbol s) syms).

Definition days_ok (self : Params) (g : Z) (t : PTrade) : Prop :=
  forall d, pt_days_held t = Some d -> 0 <= d <= holding_bound self g.

Definition hold_inv (self : Params) (g : Z) (syms : list string) (st : PState)
    (last : Z) : Prop :=
  (forall k h, In (k, h) (holdings st) ->
               In k syms /\ h_entry_date h <= last
               /\ last - h_entry_date h <= Z.max (max_holding_days self - 1) 0)
  /\ Forall (days_ok self g) (all_trades st).

Lemma in_dict_set_key sym h hs k v :
  In (k, v) (dict_set sym h hs) -> In (k, v) hs \/ (v = h /\ k = sym).
Proof.
  induction hs as [|[k0 v0] hs IH]; cbn [dict_set].
  - intros [[= <- <-] | []]. now right.
  - destruct (String.eqb k0 sym) eqn:He.
    + apply String.eqb_eq in He. subst k0.
      intros [[= <- <-] | Hin]; [now right | left; now right].
    + intros [Heq | Hin]; [left; now left|].
      destruct (IH Hin) as [? | ?]; [left; now right | now right].
Qed.

Lemma buy_loop_holdings mp date cands : forall cash hs ledger cash' hs' ledger',
  buy_loop mp date cands cash hs ledger = (cash', hs', ledger') ->
  forall k v, In (k, v) hs' ->
              In (k, v) hs
              \/ (h_entry_date v = date /\ In k (map s_symbol cands)).
Proof.
  induction cands as [|s cands IH]; intros cash hs ledger cash' hs' ledger' H k v Hin;
    cbn [buy_loop] in H.
  - injection H as <- <- <-. now left.
  - destruct (cash <? 1000)%float; [injection H as <- <- <-; now left|].
    destruct (1000 <=? _)%float.
    + destruct (IH _ _ _ _ _ _ H k v Hin) as [Hd | [Hd Hk]].
      * apply in_dict_set_key in Hd as [Hd | [-> ->]]; [now left|].
        right. split; [reflexivity | now left].
      * right. split; [exact Hd | now right].
    + destruct (IH _ _ _ _ _ _ H k v Hin) as [Hd | [Hd Hk]]; [now left|].
      right. split; [exact Hd | now right].
Qed.

Lemma hold_inv_day self mp g syms sigs date st last :
  0 <= g -> covers syms sigs ->
  hold_inv self g syms st last -> last <= date -> date - last <= g ->
  hold_inv self g syms (day_step self mp sigs date st) date.
Proof.
  intros Hg [Hcov Hsyms] [Hh Ht] Hle Hgap.
  destruct (day_step_stages self mp sigs date st) as (_ & Hhold & _).
  destruct (ledger_of_day self mp sigs date st) as (B & Hl & HB).
  cbv zeta in Hhold.
  split.
  - rewrite Hhold.
    destruct (buy_loop _ _ _ _ _ _) as [[c4 h4] l4] eqn:Hb. cbn [fst snd].
    intros k h Hin.
    destruct (buy_loop_holdings _ _ _ _ _ _ _ _ _ Hb k h Hin) as [Hold | [Hd Hk]].
    + unfold after_sells, after_sweep in Hold.
      apply in_remove_all in Hold as [Hold _].
      apply in_remove_all in Hold as [Hold Hout]. cbn [fst] in Hout.
      destruct (Hh k h Hold) as (Hk & He & Hlast).
      split; [exact Hk|]. split; [lia|].
      destruct (Z.leb_spec (max_holding_days self) (date - h_entry_date h)) as [Hexp|Hno];
        [|lia].
      exfalso. apply Hout. apply in_map_iff. exists (k, h). split; [reflexivity|].
      apply filter_In. split; [exact Hold|]. unfold expires. cbn [fst snd].
      apply andb_true_iff. split; [now apply Z.leb_le | now apply Hcov].
    + split; [|lia].
      apply in_map_iff in Hk as (s & <- & Hs).
      apply in_py_slice_to, in_candidates in Hs as (Hs & _). now apply Hsyms.
  - rewrite Hl. repeat (apply Forall_app; split).
    + exact Ht.
    + unfold time_exits. apply Forall_map, Forall_forall. intros [k h] Hin.
      apply filter_In in Hin as [Hin _]. destruct (Hh k h Hin) as (_ & He & Hlast).
      intros d. cbn. intros [= <-]. unfold holding_bound. lia.
    + unfold signal_exits. cbv zeta. apply Forall_map, Forall_forall. intros s Hin.
      apply filter_In in Hin as [_ Hin]. unfold sells in Hin. unfold signal_trade.
      destruct (get (s_symbol s) _) as [h|] eqn:Hget; [|discriminate].
      apply get_in in Hget. unfold after_sweep in Hget.
      apply in_remove_all in Hget as [Hget _].
      destruct (Hh _ h Hget) as (_ & He & Hlast).
      intros d. cbn. intros [= <-]. unfold holding_bound. lia.
    + eapply Forall_impl; [|exact HB]. cbn. intros t (_ & _ & Hn & _) d Hd.
      congruence.
Qed.

Lemma hold_inv_run self mp g syms sd dates : forall st last,
  0 <= g ->
  (forall d, In d dates -> covers syms (collect_signals sd d)) ->
  hold_inv self g syms st last -> date_gaps_from g last dates = true ->
  exists last', hold_inv self g syms (run_days self mp sd dates st) last'.
Proof.
  unfold run_days.
  induction dates as [|d ds IH]; intros st last Hg Hcov Hinv Hgaps; [now exists last|].
  cbn [fold_left]. cbn [date_gaps_from] in Hgaps.
  apply andb_prop in Hgaps as [H12 H3]. apply andb_prop in H12 as [H1 H2].
  apply Z.leb_le in H1, H2.
  apply (IH _ d); auto.
  - intros d' Hd'. apply Hcov. now right.
  - apply (hold_inv_day self mp g syms _ d st last); auto. apply Hcov. now left.
Qed.

(** ** The calendar and the signals of a date *)

Lemma in_insert_date x d l : In x (insert_date d l) <-> x = d \/ In x l.
Proof.
  induction l as [|y l IH]; cbn [insert_date In]; [intuition|].
  destruct (d <? y); [cbn [In]; intuition|].
  destruct (Z.eqb_spec d y); cbn [In]; [subst; intuition | rewrite IH; intuition].
Qed.

Lemma in_sorted_set x l : In x (sorted_set l) <-> In x l.
Proof.
  unfold sorted_set. induction l as [|y l IH]; cbn [fold_right In]; [tauto|].
  rewrite in_insert_date, IH. intuition.
Qed.

Lemma mem_date_in d l : mem_date d l = true <-> In d l.
Proof.
  unfold mem_date. rewrite existsb_exists. split.
  - intros (x & Hx & He). apply Z.eqb_eq in He. now subst.
  - intros H. exists d. split; [exact H | apply Z.eqb_refl].
Qed.

Lemma in_common_dates (rest : list (string * DataFrame)) : forall init d,
  In d (fold_left (fun acc sd => filter (fun x => mem_date x (index (snd sd))) acc)
                  rest init) ->
  In d init /\ forall sd, In sd rest -> In d (index (snd sd)).
Proof.
  induction rest as [|sd rest IH]; intros init d H; cbn [fold_left] in H.
  - split; [exact H | intros ? []].
  - apply IH in H as [H1 H2]. apply filter_In in H1 as [H1 Hm].
    split; [exact H1|]. intros sd' [<- | Hin]; [now apply mem_date_in | now apply H2].
Qed.

Lemma in_all_dates sd d :
  In d (all_dates_of sd) -> forall x, In x sd -> In d (index (snd x)).
Proof.
  unfold all_dates_of, common_dates. destruct sd as [|first rest]; [intros []|].
  intros H. apply in_sorted_set, in_common_dates in H as [H1 H2].
  intros x [<- | Hx]; auto.
Qed.

Lemma index_of_in d l : In d l -> exists i, index_of d l = Some i.
Proof.
  induction l as [|x l IH]; [intros []|]. intros H. cbn [index_of].
  destruct (Z.eqb_spec x d); [now exists O|].
  destruct H as [H | H]; [contradiction|].
  destruct (IH H) as [i ->]. now exists (S i).
Qed.

Lemma nth_Forall {A} (P : A -> Prop) l i d : Forall P l -> P d -> P (nth i l d).
Proof.
  intros Hl Hd. destruct (Nat.lt_ge_cases i (length l)) as [H | H].
  - rewrite Forall_forall in Hl. now apply Hl, nth_In.
  - now rewrite nth_overflow.
Qed.

Lemma in_collect_signals sd d s :
  In s (collect_signals sd d) <-> exists x, In x sd /\ signal_at d x = Some s.
Proof.
  unfold collect_signals. rewrite in_flat_map. split; intros (x & Hx & H); exists x;
    (split; [exact Hx|]); destruct (signal_at d x) as [s'|].
  - destruct H as [-> | []]. reflexivity.
  - destruct H.
  - injection H as ->. now left.
  - discriminate.
Qed.

Lemma signal_at_symbol d x s : signal_at d x = Some s -> s_symbol s = fst x.
Proof.
  unfold signal_at. destruct (index_of _ _); [|discriminate]. now intros [= <-].
Qed.

Lemma signal_at_price d x s :
  signal_at d x = Some s -> Forall (fun p => truthy p = true) (Close (snd x)) ->
  truthy (s_price s) = true.
Proof.
  unfold signal_at. destruct (index_of _ _) as [i|]; [|discriminate].
  intros [= <-] H. cbn [s_price iloc r_Close]. now apply nth_Forall.
Qed.

Lemma covers_collect sd d :
  (forall x, In x sd -> Forall (fun p => truthy p = true) (Close (snd x))) ->
  In d (all_dates_of sd) ->
  covers (map fst sd) (collect_signals sd d).
Proof.
  intros Hp Hd. split.
  - intros sym Hsym. apply in_map_iff in Hsym as (x & <- & Hx).
    destruct (index_of_in d (index (snd x)) (in_all_dates sd d Hd x Hx)) as [i Hi].
    unfold price_of.
    destruct (find _ (collect_signals sd d)) as [s|] eqn:Hf.
    + apply find_some in Hf as [Hin _]. apply in_collect_signals in Hin as (y & Hy & Hs).
      cbn [option_map truthy_opt]. exact (signal_at_price d y s Hs (Hp y Hy)).
    + exfalso.
      assert (Hs : exists s, signal_at d x = Some s)
        by (unfold signal_at; rewrite Hi; eauto).
      destruct Hs as [s Hs].
      pose proof (find_none _ _ Hf s
                    (proj2 (in_collect_signals sd d s) (ex_intro _ x (conj Hx Hs)))) as Hn.
      cbn in Hn. rewrite (signal_at_symbol d x s Hs), String.eqb_refl in Hn.
      discriminate.
  - intros s Hs. apply in_collect_signals in Hs as (x & Hx & Hs).
    rewrite (signal_at_symbol d x s Hs). now apply in_map.
Qed.

Lemma holding_days_portfolio self mp c sd res g :
  0 <= g ->
  date_gaps_ok g (all_dates_of sd) = true ->
  (forall x, In x sd -> Forall (fun p => truthy p = true) (Close (snd x))) ->
  portfolio_backtest_with mp self c sd = Some res ->
  Forall (days_ok self g) (pr_all_trades res).
Proof.
  intros Hg Hgaps Hp Hres. apply result_of_run in Hres as (_ & -> & _).
  destruct (all_dates_of sd) as [|d ds] eqn:Hd; [constructor|].
  destruct (hold_inv_run self mp g (map fst sd) sd (d :: ds) (mkPState c [] [] []) d)
    as (last & _ & H); auto.
  - intros d' Hd'. apply covers_collect; auto. now rewrite Hd.
  - split; [intros k h [] | constructor].
  - cbn [date_gaps_from]. cbn [date_gaps_ok] in Hgaps. rewrite Hgaps.
    replace (d <=? d) with true by (symmetry; apply Z.leb_le; lia).
    replace (d - d <=? g) with true by (symmetry; apply Z.leb_le; lia).
    reflexivity.
Qed.

Lemma forced_exit_portfolio self mp sigs date st k h :
  In (k, h) (holdings st) ->
  max_holding_days self <= date - h_entry_date h ->
  truthy_opt (price_of sigs k) = true ->
  In (time_trade date sigs (k, h)) (all_trades (day_step self mp sigs date st))
  /\ ~ In (k, h) (after_sweep self date sigs (holdings st)).
Proof.
  intros Hin Hexp Hp.
  assert (Hf : In (k, h) (filter (expires self date sigs) (holdings st))).
  { apply filter_In. split; [exact Hin|]. unfold expires. cbn [fst snd].
    apply andb_true_iff. split; [now apply Z.leb_le | exact Hp]. }
  split.
  - destruct (ledger_of_day self mp sigs date st) as (B & -> & _).
    apply in_or_app. right. apply in_or_app. left.
    unfold time_exits. now apply in_map.
  - unfold after_sweep. intros H. apply in_remove_all in H as [_ H]. apply H.
    cbn [fst]. apply in_map_iff. now exists (k, h).
Qed.

(** ** The order of binary64 numbers *)

(** A key whose lexicographic order is the order of the numbers. *)
Definition sf_key (x : spec_float) : Z * Z * Z :=
  match x with
  | S754_infinity true => (-2, 0, 0)
  | S754_finite true m e => (-1, - e, Zneg m)
  | S754_zero _ => (0, 0, 0)
  | S754_nan => (0, 0, 0)
  | S754_finite false m e => (1, e, Zpos m)
  | S754_infinity false => (2, 0, 0)
  end.

Definition lex_cmp (a b : Z * Z * Z) : comparison :=
  let '(a1, a2, a3) := a in
  let '(b1, b2, b3) := b in
  match a1 ?= b1 with
  | Eq => match a2 ?= b2 with Eq => a3 ?= b3 | c => c end
  | c => c
  end.

Lemma SFcompare_key x y :
  x <> S754_nan -> y <> S754_nan ->
  SFcompare x y = Some (lex_cmp (sf_key x) (sf_key y)).
Proof.
  intros Hx Hy.
  destruct x as [sx | sx | | sx mx ex]; try congruence;
    destruct y as [sy | sy | | sy my ey]; try congruence;
    try (destruct sx); try (destruct sy); try reflexivity.
  cbn [SFcompare sf_key lex_cmp]. cbn [Z.compare].
  rewrite Z.compare_opp, (Z.compare_antisym ex ey).
  destruct (ex ?= ey); reflexivity.
Qed.

Lemma lex_cmp_trans a b c :
  lex_cmp a b <> Gt -> lex_cmp b c <> Gt -> lex_cmp a c <> Gt.
Proof.
  destruct a as [[a1 a2] a3], b as [[b1 b2] b3], c as [[c1 c2] c3].
  unfold lex_cmp.
  destruct (Z.compare_spec a1 b1); try congruence;
    destruct (Z.compare_spec b1 c1); try congruence;
    destruct (Z.compare_spec a1 c1); try congruence; try lia;
    destruct (Z.compare_spec a2 b2); try congruence;
    destruct (Z.compare_spec b2 c2); try congruence;
    destruct (Z.compare_spec a2 c2); try congruence; try lia;
    destruct (Z.compare_spec a3 b3); try congruence;
    destruct (Z.compare_spec b3 c3); try congruence;
    destruct (Z.compare_spec a3 c3); try congruence; lia.
Qed.


Lemma not_nan_spec x : isna x = false -> Prim2SF x <> S754_nan.
Proof.
  intros H Hn. assert (x = nan) by (apply Prim2SF_inj; now rewrite Hn).
  subst. discriminate.
Qed.

Lemma leb_not_nan x y : (x <=? y)%float = true -> isna x = false /\ isna y = false.
Proof.
  intros H. split.
  - destruct (isna x) eqn:Hx; [|reflexivity].
    rewrite (isna_eq x Hx), leb_nan_l in H. discriminate.
  - destruct (isna y) eqn:Hy; [|reflexivity].
    rewrite (isna_eq y Hy), leb_nan_r in H. discriminate.
Qed.

Lemma leb_key x y :
  isna x = false -> isna y = false ->
  (x <=? y)%float = negb (match lex_cmp (sf_key (Prim2SF x)) (sf_key (Prim2SF y)) with
                          | Gt => true | _ => false end).
Proof.
  intros Hx Hy. rewrite FloatAxioms.leb_spec. unfold SFleb.
  rewrite SFcompare_key by now apply not_nan_spec.
  now destruct (lex_cmp _ _).
Qed.

Lemma ltb_key x y :
  isna x = false -> isna y = false ->
  (x <? y)%float = match lex_cmp (sf_key (Prim2SF x)) (sf_key (Prim2SF y)) with
                   | Lt => true | _ => false end.
Proof.
  intros Hx Hy. rewrite FloatAxioms.ltb_spec. unfold SFltb.
  rewrite SFcompare_key by now apply not_nan_spec.
  now destruct (lex_cmp _ _).
Qed.

Lemma leb_trans x y z :
  (x <=? y)%float = true -> (y <=? z)%float = true -> (x <=? z)%float = true.
Proof.
  intros Hxy Hyz.
  destruct (leb_not_nan _ _ Hxy) as [Hx Hy], (leb_not_nan _ _ Hyz) as [_ Hz].
  rewrite leb_key in * by assumption.
  pose proof (lex_cmp_trans (sf_key (Prim2SF x)) (sf_key (Prim2SF y))
                (sf_key (Prim2SF z))) as Ht.
  destruct (lex_cmp (sf_key (Prim2SF x)) (sf_key (Prim2SF y))); try discriminate;
    destruct (lex_cmp (sf_key (Prim2SF y)) (sf_key (Prim2SF z))); try discriminate;
    destruct (lex_cmp (sf_key (Prim2SF x)) (sf_key (Prim2SF z))); try reflexivity;
    exfalso; apply Ht; congruence.
Qed.


Lemma ltb_leb x y : (x <? y)%float = true -> (x <=? y)%float = true.
Proof.
  intros H.
  assert (Hx : isna x = false).
  { destruct (isna x) eqn:E; [|reflexivity].
    rewrite (isna_eq x E), ltb_nan_l in H. discriminate. }
  assert (Hy : isna y = false).
  { destruct (isna y) eqn:E; [|reflexivity].
    rewrite (isna_eq y E), ltb_nan_r in H. discriminate. }
  rewrite ltb_key in H by assumption. rewrite leb_key by assumption.
  now destruct (lex_cmp _ _).
Qed.

(** ** Priority order of the candidates *)






(** ** Sizing and stopping of the admissions *)


Definition investment_ratio (mp : Z) : float := py_min 0.2 (1.0 / float_of_Z mp).
















End Portfolio.

(** * Holding days, settlement, skipped rows and the position limit *)

Section Claims.
Import Pandas.
Import BNFCounterTrendBacktest.

Definition no_result : PortfolioResult :=
  mkPortfolioResult nan nan nan nan [] [] [] 0 0.

Definition result_of (o : option PortfolioResult) : PortfolioResult :=
  match o with Some r => r | None => no_result end.

(** One-symbol portfolios over the sample frames. *)
Definition week_portfolio : list (string * DataFrame) := [("AAPL"%string, week_frame)].
Definition week_result : PortfolioResult :=
  result_of (_execute_bnf_portfolio_backtest balanced 10000 week_portfolio).
Definition respike_portfolio : list (string * DataFrame) :=
  [("AAPL"%string, respike_frame)].
Definition respike_result : PortfolioResult :=
  result_of (_execute_bnf_portfolio_backtest balanced 20000 respike_portfolio).

Lemma holding_bound_consecutive self :
  1 <= max_holding_days self -> holding_bound self 1 = max_holding_days self.
Proof. unfold holding_bound. lia. Qed.

(** C1 (amended): holding days are never negative, and reaching
    [maxHoldingDays] on a processed date forces the exit (tagged as a time
    exit) whatever the signals; but the exit happens on the first processed
    date at or past the bound, so with consecutive processed dates up to [g]
    days apart the holding days of every completed pair, single-asset or
    portfolio, are at most [max (maxHoldingDays - 1) 0 + g], which is
    [maxHoldingDays] only for dates one day apart. *)
Theorem holding_days_bounded_by_calendar_gap self c data mp sd res g :
  0 <= g ->
  gaps_ok g (iterrows data) = true ->
  date_gaps_ok g (all_dates_of sd) = true ->
  (forall x, In x sd -> Forall (fun p => truthy p = true) (Close (snd x))) ->
  portfolio_backtest_with mp self c sd = Some res ->
  Forall (fun ct => 0 <= c_holding_days ct <= holding_bound self g)
         (completed_trades (res_metrics (_execute_bnf_backtest self c data)))
  /\ Forall (days_ok self g) (pr_all_trades res)
  /\ (1 <= max_holding_days self -> holding_bound self 1 = max_holding_days self)
  /\ (forall st row e,
        skipped row = false -> position st = 1 -> entry_date st = Some e ->
        max_holding_days self <= r_date row - e ->
        position (step self st row) = 0
        /\ exists t, trades (step self st row) = trades st ++ [t]
                     /\ t_action t = SELL_TIME /\ t_date t = r_date row)
  /\ (forall sigs date st k h,
        In (k, h) (holdings st) ->
        max_holding_days self <= date - h_entry_date h ->
        truthy_opt (price_of sigs k) = true ->
        In (time_trade date sigs (k, h)) (all_trades (day_step self mp sigs date st))
        /\ ~ In (k, h) (after_sweep self date sigs (holdings st))).
Proof.
  intros Hg Hrows Hdates Hprices Hres.
  split; [now apply holding_days_single|].
  split; [now apply (holding_days_portfolio self mp c sd res g)|].
  split; [apply holding_bound_consecutive|].
  split.
  - intros st row e. apply forced_exit_step.
  - intros sigs date st k h. apply forced_exit_portfolio.
Qed.

Lemma truthy_closes (sd : list (string * DataFrame)) :
  forallb (fun x => forallb truthy (Close (snd x))) sd = true ->
  forall x, In x sd -> Forall (fun p => truthy p = true) (Close (snd x)).
Proof.
  intros H x Hx. rewrite forallb_forall in H. specialize (H x Hx).
  apply Forall_forall. now apply forallb_forall.
Qed.

Lemma holding_days_on_trading_week :
  0 <= 3
  /\ gaps_ok 3 (iterrows week_frame) = true
  /\ date_gaps_ok 3 (all_dates_of week_portfolio) = true
  /\ portfolio_backtest_with 10 balanced 10000 week_portfolio = Some week_result
  /\ Forall (fun ct => 0 <= c_holding_days ct <= holding_bound balanced 3)
            (completed_trades
               (res_metrics (_execute_bnf_backtest balanced 10000 week_frame)))
  /\ Forall (days_ok balanced 3) (pr_all_trades week_result).
Proof.
  assert (H0 : 0 <= 3) by lia.
  assert (H1 : gaps_ok 3 (iterrows week_frame) = true) by (vm_compute; reflexivity).
  assert (H2 : date_gaps_ok 3 (all_dates_of week_portfolio) = true)
    by (vm_compute; reflexivity).
  assert (H3 : portfolio_backtest_with 10 balanced 10000 week_portfolio
               = Some week_result) by (vm_compute; reflexivity).
  assert (H4 : forall x, In x week_portfolio ->
                         Forall (fun p => truthy p = true) (Close (snd x)))
    by (apply truthy_closes; vm_compute; reflexivity).
  pose proof (holding_days_bounded_by_calendar_gap balanced 10000 week_frame 10
                week_portfolio week_result 3 H0 H1 H2 H4 H3) as (Ha & Hb & _).
  repeat split; assumption.
Defined.

Lemma holding_days_exceed_maximum :
  BNFCounterTrendBacktest.calculate_bnf_indicators balanced week_bars = Some week_frame
  /\ max_holding_days balanced = 3
  /\ map (fun ct => (c_entry_date ct, c_exit_date ct, c_holding_days ct, c_exit_reason ct))
         (completed_trades
            (res_metrics (_execute_bnf_backtest balanced 10000 week_frame)))
     = [(27, 31, 4, SELL_TIME)]
  /\ ~ Forall (fun ct => 0 <= c_holding_days ct <= max_holding_days balanced)
         (completed_trades
            (res_metrics (_execute_bnf_backtest balanced 10000 week_frame))).
Proof.
  assert (H : map (fun ct => (c_entry_date ct, c_exit_date ct, c_holding_days ct,
                              c_exit_reason ct))
                (completed_trades
                   (res_metrics (_execute_bnf_backtest balanced 10000 week_frame)))
              = [(27, 31, 4, SELL_TIME)]) by (vm_compute; reflexivity).
  split; [vm_compute; reflexivity|]. split; [reflexivity|]. split; [exact H|].
  intros HF.
  destruct (completed_trades _) as [|ct [|? ?]]; try discriminate.
  injection H as _ _ Hd _. inversion HF as [|? ? Hct _]; subst.
  rewrite Hd in Hct. change (max_holding_days balanced) with 3 in Hct. lia.
Qed.

(** C3 (amended): the simulator skips a row exactly when its close is NaN,
    and a skipped row changes nothing.  Rows before the volume average has a
    full window (the first [volume_ma_period - 1] rows) carry no buy flag,
    so over them the position stays flat with the cash, the shares and the
    ledger as they were.  Every other row is evaluated by its flags, also
    before the longest period is reached and also when an indicator is NaN:
    a flat state with cash buys on every row with a close and a buy flag;
    the buy flag is the buy rule of the row's values, and in the rule a NaN
    compares false, so that with a NaN RSI the other two triggers decide. *)
Theorem rows_without_state_change self c data v df k :
  calculate_bnf_indicators self data = Some df ->
  b_Volume data = Some v ->
  (k < volume_ma_period self)%nat ->
  (forall row, skipped row = isna (r_Close row))
  /\ (forall st row, isna (r_Close row) = true -> step self st row = st)
  /\ (forall i, (i < k)%nat -> r_Buy (iloc df i) = false)
  /\ untouched c (fold_left (step self) (firstn k (iterrows df)) (init_state c))
  /\ (forall st row,
        isna (r_Close row) = false -> r_Buy row = true ->
        position st = 0 -> (0 <? cash st)%float = true ->
        position (step self st row) = 1
        /\ cash (step self st row) = 0%float
        /\ shares (step self st row) = (cash st / r_Close row)%float
        /\ trades (step self st row)
           = trades st ++ [mkTrade (r_date row) BUY (r_Close row)
                             (cash st / r_Close row)%float (cash st) None None None])
  /\ (forall i, (i < length (BNF_Buy_Signal df))%nat ->
        r_Buy (iloc df i)
        = buy_rule self (r_RSI (iloc df i)) (r_Williams_R (iloc df i))
            (nth i (MA25_Ratio df) nan) (r_Close (iloc df i))
            (match i with O => nan | S j => r_Close (iloc df j) end)
            (r_Volume_Ratio (iloc df i)))
  /\ (forall williams_r ma_ratio close prev_close volume_ratio,
        buy_rule self nan williams_r ma_ratio close prev_close volume_ratio
        = ((williams_r <=? williams_oversold self)%float
           && (volume_threshold self <? volume_ratio)%float)
          || ((ma_ratio <=? ma_oversold_threshold self)%float
              && (prev_close <? close)%float && (1.1 <? volume_ratio)%float)).
Proof.
  intros Hdf Hv Hk.
  split; [exact skipped_is_nan_close|].
  split; [intros st row; apply step_skipped|].
  split; [|split; [|split; [|split]]].
  - intros i Hi. apply (no_buy_flag_before_volume_window self data v df i Hdf Hv). lia.
  - now apply (run_before_volume_window self c data v df k).
  - intros st row Hclose Hbuy Hpos Hcash.
    unfold step. rewrite skipped_is_nan_close, Hclose, Hbuy, Hpos, Hcash.
    cbn. auto.
  - intros i Hi. exact (proj1 (buy_column_rule self data df i Hdf Hi)).
  - intros w m cl p vr. unfold buy_rule. now rewrite leb_nan_l.
Qed.

Lemma no_trade_before_volume_window_on_decline :
  calculate_bnf_indicators balanced decline_bars = Some decline_frame
  /\ b_Volume decline_bars = Some (map (spike_at [19%nat]) (seq 0 25))
  /\ (19 < volume_ma_period balanced)%nat
  /\ untouched 10000
       (fold_left (step balanced) (firstn 19 (iterrows decline_frame))
          (init_state 10000)).
Proof.
  assert (H0 : calculate_bnf_indicators balanced decline_bars = Some decline_frame)
    by (vm_compute; reflexivity).
  assert (H1 : b_Volume decline_bars = Some (map (spike_at [19%nat]) (seq 0 25)))
    by reflexivity.
  assert (H2 : (19 < volume_ma_period balanced)%nat) by (vm_compute; lia).
  split; [exact H0|]. split; [exact H1|]. split; [exact H2|].
  exact (proj1 (proj2 (proj2 (proj2
           (rows_without_state_change balanced 10000 decline_bars _ decline_frame 19
              H0 H1 H2))))).
Defined.

(** A frame that [run_single_backtest] passes on to the simulator (its RSI
    is a number on the last four rows), and that buys on row 19, where the
    RSI is NaN and the longest period is not yet reached. *)
Lemma buy_on_row_with_undefined_rsi :
  calculate_bnf_indicators balanced stall_bars = Some stall_frame
  /\ run_single_backtest series_mean balanced 10000 (Some stall_bars)
     = Some (_execute_bnf_backtest balanced 10000 stall_frame, stall_frame)
  /\ map (fun t => (t_date t, t_action t))
       (res_trades (_execute_bnf_backtest balanced 10000 stall_frame))
     = [(19, BUY); (21, SELL_SIGNAL)]
  /\ isna (r_RSI (iloc stall_frame 19)) = true
  /\ (19 + 1 < Nat.max (Nat.max (rsi_period balanced) (williams_period balanced))
                 (ema_long balanced))%nat
  /\ skipped (iloc stall_frame 19) = false
  /\ (let before := fold_left (step balanced) (firstn 19 (iterrows stall_frame))
                      (init_state 10000) in
      let after := step balanced before (iloc stall_frame 19) in
      position before = 0 /\ position after = 1
      /\ map t_action (trades before) = []
      /\ map t_action (trades after) = [BUY]
      /\ cash before = 10000%float /\ cash after = 0%float
      /\ after <> before).
Proof.
  split; [vm_compute; reflexivity|]. split; [vm_compute; reflexivity|].
  split; [vm_compute; reflexivity|]. split; [vm_compute; reflexivity|].
  split; [vm_compute; lia|]. split; [vm_compute; reflexivity|].
  cbv zeta.
  assert (Hb : position (fold_left (step balanced) (firstn 19 (iterrows stall_frame))
                           (init_state 10000)) = 0) by (vm_compute; reflexivity).
  assert (Ha : position (step balanced
                           (fold_left (step balanced) (firstn 19 (iterrows stall_frame))
                              (init_state 10000)) (iloc stall_frame 19)) = 1)
    by (vm_compute; reflexivity).
  split; [exact Hb|]. split; [exact Ha|].
  split; [vm_compute; reflexivity|]. split; [vm_compute; reflexivity|].
  split; [vm_compute; reflexivity|]. split; [vm_compute; reflexivity|].
  intros He. rewrite He, Hb in Ha. discriminate Ha.
Qed.


(** C5: in portfolio mode the open-position count of every snapshot, and
    the holdings after every date, stay within [maxPositions] (10 in the
    source): the admissions of a date never raise the count above it. *)
Theorem open_positions_within_limit mp self c sd res :
  0 <= mp ->
  portfolio_backtest_with mp self c sd = Some res ->
  Forall (fun s => Z.of_nat (sn_positions s) <= mp) (pr_portfolio_history res)
  /\ Z.of_nat (length (pr_final_holdings res)) <= mp
  /\ (forall sigs date st,
        Z.of_nat (length (holdings st)) <= mp ->
        Z.of_nat (length (holdings (day_step self mp sigs date st))) <= mp).
Proof.
  intros Hmp Hres.
  destruct (positions_within_limit mp self c sd res Hmp Hres) as [H1 H2].
  split; [exact H1|]. split; [exact H2|].
  intros sigs date st. apply positions_of_day.
Qed.

Lemma open_positions_on_trading_week :
  0 <= max_positions
  /\ _execute_bnf_portfolio_backtest balanced 10000 week_portfolio = Some week_result
  /\ Forall (fun s => Z.of_nat (sn_positions s) <= 10) (pr_portfolio_history week_result)
  /\ Z.of_nat (length (pr_final_holdings week_result)) <= 10.
Proof.
  assert (H0 : 0 <= max_positions) by (unfold max_positions; lia).
  assert (H1 : _execute_bnf_portfolio_backtest balanced 10000 week_portfolio
               = Some week_result) by (vm_compute; reflexivity).
  pose proof (open_positions_within_limit max_positions balanced 10000 week_portfolio
                week_result H0 H1) as (Ha & Hb & _).
  repeat split; assumption.
Defined.






Lemma forall_in_range (P : nat -> bool) a n :
  forallb P (seq a n) = true -> forall j, (a <= j < a + n)%nat -> P j = true.
Proof.
  intros H j Hj. rewrite forallb_forall in H. apply H. apply in_seq. lia.
Qed.

Lemma rsi_on_rising_closes :
  calculate_bnf_indicators balanced rise_bars = Some rise_frame
  /\ rsi_period balanced = 14%nat
  /\ (13 <= 19 < length (b_Close rise_bars))%nat
  /\ (0 <? nth 19 (gain_column 14 (b_Close rise_bars)) nan)%float = true
  /\ nth 19 (RSI rise_frame) nan = 100%float.
Proof.
  assert (H0 : calculate_bnf_indicators balanced rise_bars = Some rise_frame)
    by (vm_compute; reflexivity).
  assert (H1 : rsi_period balanced = 14%nat) by reflexivity.
  assert (H2 : (13 <= 19 < length (b_Close rise_bars))%nat) by (vm_compute; lia).
  assert (H3 : forall j, (19 - 13 <= j <= 19)%nat ->
                         (nth j (diff (b_Close rise_bars)) nan <? 0)%float = false).
  { intros j Hj. apply negb_true_iff.
    apply (forall_in_range
             (fun j => negb (nth j (diff (b_Close rise_bars)) nan <? 0)%float) 6 14);
      [vm_compute; reflexivity | lia]. }
  assert (H4 : (0 <? nth 19 (gain_column 14 (b_Close rise_bars)) nan)%float = true)
    by (vm_compute; reflexivity).
  split; [exact H0|]. split; [exact H1|]. split; [exact H2|]. split; [exact H4|].
  exact (proj1 (proj2 (rsi_without_losses balanced rise_bars rise_frame 19
                         H0 H1 H2 H3)) H4).
Defined.

Lemma rsi_flat_window_is_nan :
  calculate_bnf_indicators balanced flat_bars = Some flat_frame
  /\ forallb (fun d => negb (d <? 0)%float)
       (window 14 19 (diff (b_Close flat_bars))) = true
  /\ nth 19 (loss_column 14 (b_Close flat_bars)) nan = 0%float
  /\ isna (nth 19 (RSI flat_frame) nan) = true
  /\ nth 19 (RSI flat_frame) nan <> 100%float.
Proof.
  assert (H : isna (nth 19 (RSI flat_frame) nan) = true) by (vm_compute; reflexivity).
  split; [vm_compute; reflexivity|]. split; [vm_compute; reflexivity|].
  split; [vm_compute; reflexivity|]. split; [exact H|].
  intros He. rewrite He in H. vm_compute in H. discriminate H.
Qed.


End Claims.

(** * Further sample series *)

(** Daily bars on the days [0 .. n - 1]. *)
Definition bars_of (n : nat) (close volume : nat -> float) (up down : float) : Bars :=
  let rows := seq 0 n in
  mkBars (map Z.of_nat rows)
         (map (fun i => (close i + up)%float) rows)
         (map (fun i => (close i - down)%float) rows)
         (map close rows) (Some (map volume rows)).

(** Sixty bars of a steady decline (200, 199, 198, ...) with volume spikes
    on day 45 and on the last day. *)
Definition slide (i : nat) : float := (200 - float_of_nat i)%float.
Definition slide_bars : Bars := bars_of 60 slide (spike_at [45%nat; 59%nat]) 1 1.
Definition slide_frame : DataFrame := indicators slide_bars.

(** Fifty-one bars rising by one a day, with four more on the odd days. *)
Definition zigzag (i : nat) : float :=
  (100 + float_of_nat i + (if Nat.odd i then 4 else 0))%float.
Definition zigzag_bars : Bars := bars_of 51 zigzag (fun _ => 1000%float) 2 1.

(** * Further properties of the indicator columns *)

(** The sell rule: the OR of the three overbought conditions. *)
Definition sell_rule (self : Params) (rsi williams_r ma_ratio : float) : bool :=
  (rsi_overbought self <=? rsi)%float
  || (williams_overbought self <=? williams_r)%float
  || (1.10 <=? ma_ratio)%float.

Section IndicatorColumns.
Import Pandas.

(** ** The sell flag *)

Lemma sell_column_rule self data df i :
  BNFCounterTrendBacktest.calculate_bnf_indicators self data = Some df ->
  (i < length (BNF_Sell_Signal df))%nat ->
  nth i (BNF_Sell_Signal df) false
  = sell_rule self (nth i (RSI df) nan) (nth i (Williams_R df) nan)
      (nth i (MA25_Ratio df) nan).
Proof.
  unfold BNFCounterTrendBacktest.calculate_bnf_indicators.
  destruct (_ <? _)%nat; [discriminate|].
  intros [= <-].
  cbn [BNF_Sell_Signal RSI Williams_R MA25_Ratio].
  intros Hi. unfold sell_rule.
  set (rsi := map _ (zipWith PrimFloat.div _ _)) in *.
  set (wr := zipWith PrimFloat.div (zipWith _ _ _) _) in *.
  set (ma := zipWith PrimFloat.div (b_Close data) _) in *.
  rewrite (nth_zipWith orb _ _ i false false false) by exact Hi.
  rewrite length_zipWith in Hi.
  rewrite (nth_zipWith orb _ _ i false false false) by lia.
  rewrite !length_zipWith, !length_map in Hi.
  rewrite !(nth_map_any _ _ i false nan) by lia.
  reflexivity.
Qed.

(** ** Warm-up of the rolling indicators *)

Lemma sub_nan_l (x : float) : (nan - x)%float = nan.
Proof.
  apply Prim2SF_inj. rewrite FloatAxioms.sub_spec, Prim2SF_nan. reflexivity.
Qed.

Lemma nth_rolling_warm_up agg w s i :
  (i + 1 < w)%nat -> nth i (rolling agg w s) nan = nan.
Proof.
  intros Hi. destruct (Nat.lt_ge_cases i (length s)) as [Hlt | Hge].
  - rewrite nth_rolling by exact Hlt.
    now destruct (Nat.ltb_spec (i + 1) w); [|lia].
  - apply nth_overflow. now rewrite length_rolling.
Qed.

Lemma nth_zipWith_default {A B C} (f : A -> B -> C) l1 l2 i d d1 d2 :
  f d1 d2 = d -> nth i (zipWith f l1 l2) d = f (nth i l1 d1) (nth i l2 d2)
                 \/ nth i (zipWith f l1 l2) d = d.
Proof.
  intros Hd. destruct (Nat.lt_ge_cases i (length (zipWith f l1 l2))) as [Hlt | Hge].
  - left. now apply nth_zipWith.
  - right. now apply nth_overflow.
Qed.

Lemma nth_map_default {A B} (f : A -> B) l i d d' :
  f d' = d -> nth i (map f l) d = f (nth i l d').
Proof. intros <-. apply map_nth. Qed.

Lemma rsi_warm_up self data df i :
  BNFCounterTrendBacktest.calculate_bnf_indicators self data = Some df ->
  (i + 1 < rsi_period self)%nat ->
  nth i (RSI df) nan = nan.
Proof.
  unfold BNFCounterTrendBacktest.calculate_bnf_indicators.
  destruct (_ <? _)%nat; [discriminate|].
  intros [= <-] Hi. cbn [RSI].
  rewrite (nth_map_default _ _ i nan nan) by reflexivity.
  match goal with |- context [nth i (zipWith PrimFloat.div ?g ?l) nan] =>
    destruct (nth_zipWith_default PrimFloat.div g l i nan nan nan (div_nan_l nan))
      as [-> | ->]
  end; [|reflexivity].
  unfold rolling_mean. rewrite nth_rolling_warm_up by exact Hi.
  rewrite div_nan_l. reflexivity.
Qed.

Lemma williams_warm_up self data df i :
  BNFCounterTrendBacktest.calculate_bnf_indicators self data = Some df ->
  (i + 1 < williams_period self)%nat ->
  nth i (Williams_R df) nan = nan.
Proof.
  unfold BNFCounterTrendBacktest.calculate_bnf_indicators.
  destruct (_ <? _)%nat; [discriminate|].
  intros [= <-] Hi. cbn [Williams_R].
  match goal with |- context [nth i (zipWith PrimFloat.div ?g ?l) nan] =>
    destruct (nth_zipWith_default PrimFloat.div g l i nan nan nan (div_nan_l nan))
      as [-> | ->]
  end; [|reflexivity].
  match goal with |- context [nth i (zipWith PrimFloat.sub ?g ?l) nan] =>
    destruct (nth_zipWith_default PrimFloat.sub g l i nan nan nan (sub_nan_l nan))
      as [-> | ->]
  end; [|apply div_nan_r].
  unfold rolling_max. rewrite nth_rolling_warm_up by exact Hi.
  rewrite sub_nan_l. apply div_nan_r.
Qed.

Lemma flag_of_nan (f : float -> bool) c i :
  f nan = false -> nth i c nan = nan -> nth i (map f c) false = false.
Proof.
  intros Hf Hc. rewrite (nth_map_default f c i false nan) by exact Hf.
  now rewrite Hc.
Qed.

(** X2: the rolling indicators have a warm-up and the EMAs have none.  On
    the rows before a full RSI window ([rsi_period - 1] rows) the RSI is NaN
    and neither RSI flag is set; on the rows before a full Williams window
    the Williams %R is NaN and neither Williams flag is set; the two EMAs
    start at the first close. *)
Theorem indicator_warm_up self data df i :
  BNFCounterTrendBacktest.calculate_bnf_indicators self data = Some df ->
  ((i + 1 < rsi_period self)%nat ->
   isna (nth i (RSI df) nan) = true
   /\ nth i (RSI_Oversold df) false = false
   /\ nth i (RSI_Overbought df) false = false)
  /\ ((i + 1 < williams_period self)%nat ->
      isna (nth i (Williams_R df) nan) = true
      /\ nth i (Williams_Oversold df) false = false
      /\ nth i (Williams_Overbought df) false = false)
  /\ nth 0 (EMA_20 df) nan = nth 0 (b_Close data) nan
  /\ nth 0 (EMA_25 df) nan = nth 0 (b_Close data) nan.
Proof.
  intros Hdf.
  pose proof (rsi_warm_up self data df i Hdf) as Hr.
  pose proof (williams_warm_up self data df i Hdf) as Hw.
  revert Hdf Hr Hw.
  unfold BNFCounterTrendBacktest.calculate_bnf_indicators.
  destruct (_ <? _)%nat; [discriminate|].
  intros [= <-].
  cbn [RSI Williams_R RSI_Oversold RSI_Overbought Williams_Oversold
       Williams_Overbought EMA_20 EMA_25].
  intros Hr Hw. split; [|split; [|split]].
  - intros Hi. specialize (Hr Hi). rewrite Hr. split; [reflexivity|].
    split; apply flag_of_nan; auto using leb_nan_l, leb_nan_r.
  - intros Hi. specialize (Hw Hi). rewrite Hw. split; [reflexivity|].
    split; apply flag_of_nan; auto using leb_nan_l, leb_nan_r.
  - unfold ewm_mean. now destruct (b_Close data).
  - unfold ewm_mean. now destruct (b_Close data).
Qed.

Lemma indicator_warm_up_on_decline :
  BNFCounterTrendBacktest.calculate_bnf_indicators balanced decline_bars
  = Some decline_frame
  /\ (12 + 1 < rsi_period balanced)%nat
  /\ isna (nth 12 (RSI decline_frame) nan) = true
  /\ nth 0 (EMA_25 decline_frame) nan = nth 0 (b_Close decline_bars) nan.
Proof.
  assert (H1 : BNFCounterTrendBacktest.calculate_bnf_indicators balanced decline_bars
               = Some decline_frame) by (vm_compute; reflexivity).
  assert (H2 : (12 + 1 < rsi_period balanced)%nat) by (vm_compute; lia).
  split; [exact H1 | split; [exact H2 |]].
  destruct (indicator_warm_up balanced decline_bars decline_frame 12 H1)
    as (Hr & _ & _ & He).
  split; [exact (proj1 (Hr H2)) | exact He].
Defined.

(** ** A constant close *)

Lemma sub_self_spec (c : float) :
  Prim2SF (c - c) = S754_zero false \/ Prim2SF (c - c) = S754_nan.
Proof.
  rewrite FloatAxioms.sub_spec. unfold SF64sub, SFsub.
  destruct (Prim2SF c) as [s | s | | s m e]; auto.
  - destruct s; auto.
  - destruct s; auto.
  - left. rewrite Z.sub_diag. reflexivity.
Qed.

Lemma sub_self_not_pos (c : float) : (0 <? c - c)%float = false.
Proof.
  rewrite FloatAxioms.ltb_spec. destruct (sub_self_spec c) as [-> | ->]; reflexivity.
Qed.

Lemma sub_self_not_neg (c : float) : (c - c <? 0)%float = false.
Proof.
  rewrite FloatAxioms.ltb_spec. destruct (sub_self_spec c) as [-> | ->]; reflexivity.
Qed.

Lemma in_zipWith {A B C} (f : A -> B -> C) l1 : forall l2 z,
  In z (zipWith f l1 l2) -> exists x y, In x l1 /\ In y l2 /\ z = f x y.
Proof.
  induction l1 as [|a l1 IH]; intros [|b l2] z H; cbn in H; try contradiction.
  destruct H as [<- | H].
  - exists a, b. cbn. auto.
  - destruct (IH l2 z H) as (x & y & Hx & Hy & ->). exists x, y. cbn. auto.
Qed.

Lemma in_shift1 s x : In x (shift1 s) -> x = nan \/ In x s.
Proof.
  destruct s as [|a r]; [intros []|]. unfold shift1. intros [<- | H]; [now left|].
  right. rewrite removelast_firstn_len in H. eapply in_firstn. exact H.
Qed.

Lemma diff_constant c n d :
  In d (diff (repeat c n)) -> (0 <? d)%float = false /\ (d <? 0)%float = false.
Proof.
  unfold diff. intros H. apply in_zipWith in H as (x & y & Hx & Hy & ->).
  apply repeat_spec in Hx. subst x.
  apply in_shift1 in Hy as [-> | Hy].
  - rewrite sub_nan_r. now rewrite ltb_nan_r, ltb_nan_l.
  - apply repeat_spec in Hy. subst y. split; [apply sub_self_not_pos | apply sub_self_not_neg].
Qed.

Lemma map_constant {A B} (f : A -> B) l y :
  (forall x, In x l -> f x = y) -> map f l = repeat y (length l).
Proof.
  induction l as [|a l IH]; intros H; [reflexivity|]. cbn [map length repeat].
  f_equal; [apply H; now left | apply IH; intros x Hx; apply H; now right].
Qed.

Lemma in_skipn {A} n : forall (l : list A) x, In x (skipn n l) -> In x l.
Proof.
  induction n as [|n IH]; intros l x H; [exact H|].
  destruct l as [|a l]; [exact H|]. right. now apply IH.
Qed.

Lemma window_repeat {A} (x : A) w i n :
  exists m, window w i (repeat x n) = repeat x m.
Proof.
  exists (length (window w i (repeat x n))).
  rewrite <- (map_id (window w i (repeat x n))) at 1.
  apply map_constant. intros y Hy. unfold window in Hy.
  apply in_firstn, in_skipn in Hy.
  now apply repeat_spec in Hy.
Qed.

Lemma sum_zeros n : sum (repeat 0%float n) = 0%float.
Proof.
  unfold sum. induction n as [|n IH]; [reflexivity|]. simpl.
  change (0 + 0)%float with 0%float. exact IH.
Qed.

(** Zero over anything is a zero or NaN, and such a quotient over itself
    is NaN. *)
Lemma zero_quotient_self (k : float) : ((0 / k) / (0 / k))%float = nan.
Proof.
  apply Prim2SF_inj. rewrite FloatAxioms.div_spec.
  assert (H : (exists s, Prim2SF (0 / k) = S754_zero s) \/ Prim2SF (0 / k) = S754_nan).
  { rewrite FloatAxioms.div_spec. change (Prim2SF 0) with (S754_zero false).
    unfold SF64div, SFdiv. destruct (Prim2SF k); eauto. }
  destruct H as [[s ->] | ->]; reflexivity.
Qed.

Lemma rs_constant p c n i :
  (nth i (gain_column p (repeat c n)) nan / nth i (loss_column p (repeat c n)) nan)%float
  = nan.
Proof.
  destruct (Nat.lt_ge_cases i n) as [Hlt | Hge].
  2:{ rewrite (nth_overflow (gain_column _ _))
        by (rewrite length_gain_column, repeat_length; lia).
      apply div_nan_l. }
  unfold gain_column, loss_column, rolling_mean.
  rewrite !nth_rolling
    by (rewrite ?length_map, length_where, length_diff, repeat_length; lia).
  destruct (i + 1 <? p)%nat; [apply div_nan_l|].
  unfold where_.
  rewrite (map_constant _ (diff (repeat c n)) 0%float)
    by (intros d Hd; now rewrite (proj1 (diff_constant c n d Hd))).
  rewrite (map_constant (fun x => if (x <? 0)%float then x else 0%float)
             (diff (repeat c n)) 0%float)
    by (intros d Hd; now rewrite (proj2 (diff_constant c n d Hd))).
  rewrite (map_constant PrimFloat.opp (repeat 0%float _) (-0)%float)
    by (intros x Hx; apply repeat_spec in Hx; now subst x).
  rewrite repeat_length.
  set (m := length (diff (repeat c n))).
  destruct (window_repeat 0%float p i m) as [k Hk].
  assert (Hk' : window p i (repeat (-0)%float m) = repeat (-0)%float k).
  { pose proof (f_equal (map PrimFloat.opp) Hk) as H.
    rewrite <- window_map in H.
    rewrite (map_constant PrimFloat.opp (repeat 0%float m) (-0)%float) in H
      by (intros x Hx; apply repeat_spec in Hx; now subst x).
    rewrite (map_constant PrimFloat.opp (repeat 0%float k) (-0)%float) in H
      by (intros x Hx; apply repeat_spec in Hx; now subst x).
    now rewrite !repeat_length in H. }
  rewrite Hk, Hk'. unfold mean. rewrite sum_zeros, sum_neg_zeros, !repeat_length.
  apply zero_quotient_self.
Qed.

(** On a series whose close never changes the RSI is NaN on every row
    (average gain and average loss are both zero), whatever the close, the
    length and the RSI period. *)
Lemma rsi_nan_on_constant_close self data df c n :
  BNFCounterTrendBacktest.calculate_bnf_indicators self data = Some df ->
  b_Close data = repeat c n ->
  forallb isna (RSI df) = true
  /\ forall i, isna (nth i (RSI df) nan) = true
               /\ nth i (RSI_Oversold df) false = false
               /\ nth i (RSI_Overbought df) false = false.
Proof.
  intros Hdf Hc.
  assert (Hall : forall i, nth i (RSI df) nan = nan).
  { intros i. destruct (Nat.lt_ge_cases i (length (b_Close data))) as [Hlt | Hge].
    - rewrite (nth_rsi_column self data df i Hdf Hlt), Hc, rs_constant. reflexivity.
    - apply nth_overflow. revert Hdf.
      unfold BNFCounterTrendBacktest.calculate_bnf_indicators.
      destruct (_ <? _)%nat; [discriminate|]. intros [= <-]. cbn [RSI].
      fold (gain_column (rsi_period self) (b_Close data)).
      fold (loss_column (rsi_period self) (b_Close data)).
      rewrite length_map, length_zipWith, length_gain_column, length_loss_column. lia. }
  split.
  - apply forallb_forall. intros x Hx.
    destruct (In_nth _ _ nan Hx) as (i & _ & <-). now rewrite Hall.
  - intros i. rewrite Hall. split; [reflexivity|].
    revert Hdf Hall. unfold BNFCounterTrendBacktest.calculate_bnf_indicators.
    destruct (_ <? _)%nat; [discriminate|]. intros [= <-].
    cbn [RSI RSI_Oversold RSI_Overbought]. intros Hall.
    split; apply flag_of_nan; auto using leb_nan_l, leb_nan_r.
Qed.

(** ** The EMA of a constant series *)

Lemma eqb_refl_number (x : float) : isna x = false -> (x =? x)%float = true.
Proof.
  intros H. rewrite FloatAxioms.eqb_spec. unfold SFeqb.
  rewrite SFcompare_key by now apply not_nan_spec.
  destruct (sf_key (Prim2SF x)) as [[a b] c]. unfold lex_cmp.
  now rewrite !Z.compare_refl.
Qed.

Lemma ewm_loop_constant f c n : forall w,
  ewm_loop f (c, w) (repeat c n) = repeat c n.
Proof.
  induction n as [|n IH]; intros w; [reflexivity|]. cbn [repeat ewm_loop].
  unfold ewm_step. destruct (isna c) eqn:Hc.
  - cbn [fst]. now rewrite IH.
  - rewrite (eqb_refl_number c Hc). cbn [fst]. now rewrite IH.
Qed.

(** X3: the exponential average of a constant series is that constant on
    every row, exactly (no rounding drift), for every span; both EMA
    columns of a series with a constant close equal the close. *)
Theorem ema_of_constant_close self data df c n :
  BNFCounterTrendBacktest.calculate_bnf_indicators self data = Some df ->
  b_Close data = repeat c n ->
  EMA_20 df = repeat c n /\ EMA_25 df = repeat c n
  /\ forall span, ewm_mean span (repeat c n) = repeat c n.
Proof.
  assert (He : forall span, ewm_mean span (repeat c n) = repeat c n).
  { intros span. unfold ewm_mean. destruct n as [|n]; [reflexivity|].
    cbn [repeat]. now rewrite ewm_loop_constant. }
  unfold BNFCounterTrendBacktest.calculate_bnf_indicators.
  destruct (_ <? _)%nat; [discriminate|].
  intros [= <-] Hc. cbn [EMA_20 EMA_25]. rewrite Hc. auto.
Qed.

Lemma ema_of_flat_bars :
  BNFCounterTrendBacktest.calculate_bnf_indicators balanced flat_bars = Some flat_frame
  /\ b_Close flat_bars = repeat 100%float 25
  /\ EMA_25 flat_frame = repeat 100%float 25.
Proof.
  assert (H1 : BNFCounterTrendBacktest.calculate_bnf_indicators balanced flat_bars
               = Some flat_frame) by (vm_compute; reflexivity).
  assert (H2 : b_Close flat_bars = repeat 100%float 25) by (vm_compute; reflexivity).
  split; [exact H1 | split; [exact H2 |]].
  exact (proj1 (proj2 (ema_of_constant_close balanced flat_bars flat_frame
                         100%float 25 H1 H2))).
Defined.

End IndicatorColumns.

(** * Further properties of the single-asset simulator

    The theorems on the result of a run take a capital that is not zero:
    with a capital of zero a run never buys, and its total return is then a
    division of Python numbers by zero, which raises instead of returning
    the result. *)

Section SingleAssetLedger.
Import Pandas.
Import BNFCounterTrendBacktest.

(** ** One equity point per processed row *)

Definition processed (rows : list Row) : list Row :=
  filter (fun r => negb (skipped r)) rows.

Lemma equity_of_step self st row :
  skipped row = false ->
  exists p,
    equity_curve (step self st row) = equity_curve st ++ [p]
    /\ eq_date p = r_date row
    /\ eq_position p = position (step self st row)
    /\ eq_cash p = cash (step self st row)
    /\ eq_stock_value p = (shares (step self st row) * r_Close row)%float
    /\ eq_portfolio_value p = (eq_cash p + eq_stock_value p)%float.
Proof.
  intros Hs. unfold step. rewrite Hs.
  destruct (r_Buy row && (position st =? 0) && (0 <? cash st)%float);
    [|destruct ((position st =? 1) && (r_Sell row || force_exit_of self st (r_date row)))];
    cbn; eexists; repeat split.
Qed.

Lemma equity_dates_fold self rows : forall st,
  map eq_date (equity_curve (fold_left (step self) rows st))
  = map eq_date (equity_curve st) ++ map r_date (processed rows).
Proof.
  induction rows as [|r rs IH]; intros st; cbn [fold_left processed filter].
  - now rewrite app_nil_r.
  - rewrite IH. fold (processed rs). destruct (skipped r) eqn:Hs; cbn [negb].
    + unfold step. now rewrite Hs.
    + destruct (equity_of_step self st r Hs) as (p & -> & Hd & _).
      rewrite map_app. cbn [map]. rewrite Hd, <- app_assoc. reflexivity.
Qed.

(** X4: in the result of a single-asset run (the capital not being zero)
    the equity curve has exactly one point for every row the loop does not
    skip, in row order and dated like the row; rows with a NaN close leave
    no point. *)
Theorem equity_point_per_processed_row self c data :
  truthy c = true ->
  map eq_date (res_equity_curve (_execute_bnf_backtest self c data))
  = map r_date (processed (iterrows data)).
Proof.
  intros _. unfold _execute_bnf_backtest. destruct (settle _ _) as [ts cash] eqn:Hs.
  cbn [res_equity_curve]. unfold run_loop.
  now rewrite equity_dates_fold.
Qed.

Lemma equity_points_on_slide :
  truthy 10000 = true
  /\ map eq_date (res_equity_curve (_execute_bnf_backtest balanced 10000 slide_frame))
     = map r_date (processed (iterrows slide_frame)).
Proof.
  assert (H : truthy 10000 = true) by reflexivity.
  split; [exact H|].
  exact (equity_point_per_processed_row balanced 10000 slide_frame H).
Defined.

(** ** All in or all out *)

Definition exposure_inv (st : SimState) : Prop :=
  (position st = 0 /\ shares st = 0%float /\ entry_date st = None)
  \/ (position st = 1 /\ cash st = 0%float /\ exists e, entry_date st = Some e).

Definition point_ok (p : EquityPoint) : Prop :=
  eq_position p = 0 \/ (eq_position p = 1 /\ eq_cash p = 0%float).

Lemma exposure_inv_step self st row :
  exposure_inv st -> exposure_inv (step self st row).
Proof.
  intros H.
  destruct (step_cases self st row) as
    [_ -> | _ _ _ Hp' He' _ _ Hc' | e t _ _ _ Hp' He' Hsh' _ _ _ _
     | t _ _ _ Hp' He' Hsh' _ _ _ | _ Hp' He' _ Hsh' Hc' _ _ _].
  - exact H.
  - right. eauto.
  - left. auto.
  - left. auto.
  - unfold exposure_inv. rewrite Hp', He', Hsh', Hc'. exact H.
Qed.

Lemma exposure_fold self rows : forall st,
  exposure_inv st -> Forall point_ok (equity_curve st) ->
  exposure_inv (fold_left (step self) rows st)
  /\ Forall point_ok (equity_curve (fold_left (step self) rows st)).
Proof.
  induction rows as [|r rs IH]; intros st Hi Hp; [now split|].
  cbn [fold_left]. apply IH; [now apply exposure_inv_step|].
  destruct (skipped r) eqn:Hs.
  - unfold step. now rewrite Hs.
  - destruct (equity_of_step self st r Hs) as (p & -> & _ & Hpos & Hcash & _).
    apply Forall_app. split; [exact Hp|]. constructor; [|constructor].
    unfold point_ok. rewrite Hpos, Hcash.
    destruct (exposure_inv_step self st r Hi) as [(H0 & _) | (H1 & Hc & _)]; auto.
Qed.

(** X5: a single-asset run (the capital not being zero) is always all in
    or all out: the position flag is 0 or 1; while it is 0 no shares are
    held, and while it is 1 the cash is 0 (a buy spends the whole balance).
    This holds of the state the loop ends in and of every point of the
    equity curve. *)
Theorem all_in_or_all_out self c data :
  truthy c = true ->
  let st := run_loop self c (iterrows data) in
  ((position st = 0 /\ shares st = 0%float)
   \/ (position st = 1 /\ cash st = 0%float))
  /\ Forall (fun p => eq_position p = 0
                      \/ (eq_position p = 1 /\ eq_cash p = 0%float))
       (res_equity_curve (_execute_bnf_backtest self c data)).
Proof.
  intros _. cbv zeta.
  destruct (exposure_fold self (iterrows data) (init_state c)) as [Hi Hp].
  - left. cbn. auto.
  - constructor.
  - split.
    + unfold run_loop.
      destruct Hi as [(H0 & Hs & _) | (H1 & Hc & _)]; auto.
    + unfold _execute_bnf_backtest. destruct (settle _ _) as [ts cash].
      exact Hp.
Qed.

Lemma all_in_or_all_out_on_slide :
  truthy 10000 = true
  /\ Forall (fun p => eq_position p = 0
                      \/ (eq_position p = 1 /\ eq_cash p = 0%float))
       (res_equity_curve (_execute_bnf_backtest balanced 10000 slide_frame)).
Proof.
  assert (H : truthy 10000 = true) by reflexivity.
  split; [exact H|].
  exact (proj2 (all_in_or_all_out balanced 10000 slide_frame H)).
Defined.

(** ** The shape of the ledger *)

Inductive LedgerState := Flat | Open | Settled | Broken.

(** The ledger read as a word: a BUY opens, a strategy sell closes, the
    final settlement closes for good. *)
Definition ledger_step (s : LedgerState) (a : Action) : LedgerState :=
  match s, a with
  | Flat, BUY => Open
  | Open, SELL_SIGNAL | Open, SELL_TIME => Flat
  | Open, SELL_FINAL => Settled
  | _, _ => Broken
  end.

Definition ledger_state (ledger : list Trade) : LedgerState :=
  fold_left ledger_step (map t_action ledger) Flat.

Definition strategy_sell (t : Trade) : bool :=
  Action_eqb (t_action t) SELL_SIGNAL || Action_eqb (t_action t) SELL_TIME.

Definition is_buy (t : Trade) : bool := Action_eqb (t_action t) BUY.

Definition shape_inv (st : SimState) : Prop :=
  let a := fold_left analyze_step (trades st) (None, []) in
  length (snd a) = length (filter strategy_sell (trades st))
  /\ ((position st = 0 /\ shares st = 0%float /\ ledger_state (trades st) = Flat
       /\ length (filter is_buy (trades st)) = length (snd a))
      \/ (position st = 1 /\ ledger_state (trades st) = Open
          /\ (exists b, fst a = Some b)
          /\ length (filter is_buy (trades st)) = S (length (snd a)))).

Lemma shape_inv_step self st row : shape_inv st -> shape_inv (step self st row).
Proof.
  unfold shape_inv. cbv zeta. intros [Hn H].
  destruct (step_cases self st row) as
    [_ -> | _ _ Hp0 Hp' _ Htr Hsh _ | e t _ Hp1 _ Hp' _ Hsh' _ Htr _ Ha
     | t _ Hp1 _ Hp' _ Hsh' Htr _ Ha | _ Hp' _ Htr Hsh' _ _ _ _].
  - now split.
  - destruct H as [(_ & _ & Hl & Hb) | (Hp1 & _)]; [|lia].
    rewrite Htr, fold_left_app, !filter_app, !length_app. cbn [fold_left].
    unfold ledger_state in *. rewrite map_app, fold_left_app, Hl.
    destruct (fold_left analyze_step (trades st) (None, [])) as [b cs].
    cbn in *. split; [lia|]. right. repeat split; eauto; lia.
  - destruct H as [(Hp0 & _) | (_ & Hl & (b & Hb) & Hc)]; [lia|].
    assert (Hact : t_action t = SELL_TIME \/ t_action t = SELL_SIGNAL)
      by (rewrite Ha; destruct (_ <=? _); auto).
    rewrite Htr, fold_left_app, !filter_app, !length_app. cbn [fold_left].
    unfold ledger_state in *. rewrite map_app, fold_left_app, Hl.
    destruct (fold_left analyze_step (trades st) (None, [])) as [b0 cs].
    cbn [fst snd] in *. subst b0.
    assert (Hss : strategy_sell t = true)
      by (unfold strategy_sell; destruct Hact as [-> | ->]; reflexivity).
    assert (Hib : is_buy t = false)
      by (unfold is_buy; destruct Hact as [-> | ->]; reflexivity).
    cbn [filter map fold_left]. rewrite Hss, Hib. unfold analyze_step.
    destruct Hact as [-> | ->]; cbn; rewrite ?length_app; cbn;
      (split; [lia|]); left; repeat split; auto; lia.
  - destruct H as [(Hp0 & _) | (_ & Hl & (b & Hb) & Hc)]; [lia|].
    rewrite Htr, fold_left_app, !filter_app, !length_app. cbn [fold_left].
    unfold ledger_state in *. rewrite map_app, fold_left_app, Hl.
    destruct (fold_left analyze_step (trades st) (None, [])) as [b0 cs].
    cbn [fst snd] in *. subst b0.
    assert (Hss : strategy_sell t = true)
      by (unfold strategy_sell; now rewrite Ha).
    assert (Hib : is_buy t = false) by (unfold is_buy; now rewrite Ha).
    cbn [filter map fold_left]. rewrite Hss, Hib. unfold analyze_step.
    rewrite Ha. cbn. rewrite ?length_app. cbn.
    split; [lia|]. left. repeat split; auto; lia.
  - rewrite Htr, Hp', Hsh'. now split.
Qed.

Lemma shape_inv_run self c rows : shape_inv (run_loop self c rows).
Proof.
  unfold run_loop.
  assert (H : shape_inv (init_state c)).
  { split; [reflexivity|]. left. cbn. auto. }
  revert H. generalize (init_state c).
  induction rows as [|r rs IH]; intros st H; [exact H|].
  cbn [fold_left]. apply IH. now apply shape_inv_step.
Qed.

(** X6: the ledger of a single-asset run (the capital not being zero) is
    a strict alternation: it starts with a BUY, every BUY is followed by one
    sell and every sell by a BUY; SELL_FINAL occurs at most once, as the
    last record, closing an open BUY.  Every strategy sell is paired, so the
    number of completed trades is the number of SELL_SIGNAL and SELL_TIME
    records, and the BUY records are one more exactly when the last BUY is
    still open or was settled at the end. *)
Theorem ledger_alternates self c data :
  truthy c = true ->
  let res := _execute_bnf_backtest self c data in
  let buys := length (filter is_buy (res_trades res)) in
  let sells := length (filter strategy_sell (res_trades res)) in
  total_trades (res_metrics res) = sells
  /\ ((ledger_state (res_trades res) = Flat /\ buys = sells)
      \/ ((ledger_state (res_trades res) = Open
           \/ ledger_state (res_trades res) = Settled)
          /\ buys = S sells)).
Proof.
  intros _. cbv zeta.
  pose proof (completed_of_run self c data) as Hcomp.
  pose proof (shape_inv_run self c (iterrows data)) as [Hn H].
  unfold _execute_bnf_backtest in *.
  set (st := run_loop self c (iterrows data)) in *.
  unfold settle in *.
  destruct (0 <? shares st)%float eqn:Hsh;
    cbn [res_trades res_metrics total_trades _calculate_bnf_metrics completed_trades] in *;
    unfold _analyze_bnf_trades in *.
  - rewrite Hcomp, !filter_app, !length_app. cbn.
    destruct H as [(_ & H0 & _) | (_ & Hl & _ & Hb)].
    + rewrite H0 in Hsh. discriminate Hsh.
    + split; [lia|].
      right. unfold ledger_state in *. rewrite map_app, fold_left_app, Hl.
      split; [now right | lia].
  - split; [exact Hn|].
    destruct H as [(_ & _ & Hl & Hb) | (_ & Hl & _ & Hb)].
    + left. split; [exact Hl | lia].
    + right. split; [now left | lia].
Qed.

Lemma ledger_alternates_on_slide :
  truthy 10000 = true
  /\ map t_action (res_trades (_execute_bnf_backtest balanced 10000 slide_frame))
     = [BUY; SELL_TIME; BUY; SELL_FINAL]
  /\ total_trades (res_metrics (_execute_bnf_backtest balanced 10000 slide_frame))
     = length (filter strategy_sell
                 (res_trades (_execute_bnf_backtest balanced 10000 slide_frame))).
Proof.
  assert (H : truthy 10000 = true) by reflexivity.
  split; [exact H|]. split; [vm_compute; reflexivity|].
  exact (proj1 (ledger_alternates balanced 10000 slide_frame H)).
Defined.

(** ** The exit tag of a completed pair *)

Definition tag_ok (self : Params) (ct : CompletedTrade) : Prop :=
  (c_exit_reason ct = SELL_TIME /\ max_holding_days self <= c_holding_days ct)
  \/ (c_exit_reason ct = SELL_SIGNAL /\ c_holding_days ct < max_holding_days self).

Definition tag_inv (self : Params) (st : SimState) : Prop :=
  let a := fold_left analyze_step (trades st) (None, []) in
  Forall (tag_ok self) (snd a)
  /\ (position st = 1 ->
      exists e b, entry_date st = Some e /\ fst a = Some b /\ t_date b = e).

Lemma tag_inv_step self st row : tag_inv self st -> tag_inv self (step self st row).
Proof.
  unfold tag_inv. cbv zeta. intros [Hc Hp].
  destruct (step_cases self st row) as
    [_ -> | _ _ _ Hp' He' Htr _ _ | e t _ Hp1 He Hp0 _ _ _ Htr Hd Ha
     | t _ Hp1 He _ _ _ Htr _ _ | _ Hp' He' Htr _ _ _ _ _].
  - now split.
  - rewrite Htr, fold_left_app. cbn [fold_left].
    destruct (fold_left analyze_step (trades st) (None, [])) as [b cs].
    cbn [analyze_step t_action snd fst] in *. split; [exact Hc|].
    intros _. eexists _, _. split; [exact He'|]. split; reflexivity.
  - destruct (Hp Hp1) as (e0 & b & He0 & Hb & Hdb).
    assert (e0 = e) by congruence. subst e0.
    rewrite Htr, fold_left_app. cbn [fold_left].
    destruct (fold_left analyze_step (trades st) (None, [])) as [b0 cs].
    cbn [fst snd] in *. subst b0. unfold analyze_step.
    split; [|intros Hq; rewrite Hp0 in Hq; discriminate Hq].
    destruct (Z.leb_spec (max_holding_days self) (r_date row - e)) as [Hge | Hlt];
      rewrite Ha; cbn [snd]; apply Forall_app; (split; [exact Hc|]);
      (constructor; [|constructor]); unfold tag_ok; cbn [c_exit_reason c_holding_days];
      [left | right]; (split; [reflexivity | lia]).
  - destruct (Hp Hp1) as (e0 & b & He0 & _). congruence.
  - rewrite Htr, Hp', He'. now split.
Qed.

Lemma tag_inv_run self c rows : tag_inv self (run_loop self c rows).
Proof.
  unfold run_loop.
  assert (H : tag_inv self (init_state c))
    by (split; [constructor | cbn; discriminate]).
  revert H. generalize (init_state c).
  induction rows as [|r rs IH]; intros st H; [exact H|].
  cbn [fold_left]. apply IH. now apply tag_inv_step.
Qed.

(** X7: in the trade analysis of a single-asset run (the capital not being
    zero) the exit reason of a completed pair says how long it was held: it
    is SELL_TIME exactly when the pair was held for at least
    [max_holding_days], and SELL_SIGNAL exactly when it was held for fewer
    days (the time exit has precedence over a sell flag of the same row). *)
Theorem exit_reason_by_holding_days self c data :
  truthy c = true ->
  Forall (fun ct =>
            (c_exit_reason ct = SELL_TIME
             /\ max_holding_days self <= c_holding_days ct)
            \/ (c_exit_reason ct = SELL_SIGNAL
                /\ c_holding_days ct < max_holding_days self))
         (completed_trades (res_metrics (_execute_bnf_backtest self c data))).
Proof.
  intros _. rewrite completed_of_run.
  exact (proj1 (tag_inv_run self c (iterrows data))).
Qed.

Lemma exit_reason_on_slide :
  truthy 10000 = true
  /\ Forall (fun ct =>
               (c_exit_reason ct = SELL_TIME
                /\ max_holding_days balanced <= c_holding_days ct)
               \/ (c_exit_reason ct = SELL_SIGNAL
                   /\ c_holding_days ct < max_holding_days balanced))
       (completed_trades
          (res_metrics (_execute_bnf_backtest balanced 10000 slide_frame))).
Proof.
  assert (H : truthy 10000 = true) by reflexivity.
  split; [exact H|].
  exact (exit_reason_by_holding_days balanced 10000 slide_frame H).
Defined.

(** ** The sell records and the pairs of the analysis *)

(** A sell record [t] and the completed pair [ct] the analysis makes of it. *)
Definition record_matches (t : Trade) (ct : CompletedTrade) : Prop :=
  t_date t = c_exit_date ct
  /\ t_action t = c_exit_reason ct
  /\ t_price t = c_exit_price ct
  /\ t_entry_price t = Some (c_entry_price ct)
  /\ t_value t = (t_shares t * t_price t)%float
  /\ t_profit_pct t
     = Some (if truthy (c_entry_price ct) then c_profit_pct ct else 0%float).

Definition match_inv (st : SimState) : Prop :=
  let a := fold_left analyze_step (trades st) (None, []) in
  Forall2 record_matches (filter strategy_sell (trades st)) (snd a)
  /\ (position st = 1 ->
      exists b, fst a = Some b /\ entry_price st = Some (t_price b)
                /\ shares st = t_shares b).

Lemma match_inv_step self st row : match_inv st -> match_inv (step self st row).
Proof.
  unfold match_inv. cbv zeta. intros [Hc Hp]. unfold step.
  destruct (skipped row); [now split|].
  destruct (r_Buy row && (position st =? 0) && (0 <? cash st)%float) eqn:Hb.
  - cbn [trades position entry_price shares].
    rewrite fold_left_app, filter_app. cbn [fold_left filter].
    destruct (fold_left analyze_step (trades st) (None, [])) as [b cs].
    cbn [analyze_step t_action strategy_sell Action_eqb orb snd fst] in *.
    rewrite app_nil_r. split; [exact Hc|]. intros _. eexists. repeat split.
  - destruct ((position st =? 1) && (r_Sell row || force_exit_of self st (r_date row)))
      eqn:Hsell.
    + apply andb_prop in Hsell as [Hp1 _]. apply Z.eqb_eq in Hp1.
      destruct (Hp Hp1) as (b & Hfst & Hep & Hsh).
      cbn [trades position entry_price shares].
      rewrite fold_left_app, filter_app. cbn [fold_left filter].
      destruct (fold_left analyze_step (trades st) (None, [])) as [b0 cs].
      cbn [fst snd] in *. subst b0.
      split; [|intros Hq; discriminate Hq].
      assert (Hss : forall a, a = SELL_TIME \/ a = SELL_SIGNAL ->
                Action_eqb a SELL_SIGNAL || Action_eqb a SELL_TIME = true)
        by (intros a [-> | ->]; reflexivity).
      unfold strategy_sell at 2. cbn [t_action].
      rewrite Hss by (destruct (force_exit_of _ _ _); auto).
      unfold analyze_step. cbn [t_action].
      destruct (force_exit_of self st (r_date row)); cbn [snd];
        (apply Forall2_app; [exact Hc|]); (constructor; [|constructor]);
        unfold record_matches; cbn; rewrite Hep; cbn [profit_pct_of];
        destruct (truthy (t_price b)); repeat split.
    + cbn [trades position entry_price shares]. now split.
Qed.

Lemma match_inv_run self c rows : match_inv (run_loop self c rows).
Proof.
  unfold run_loop.
  assert (H : match_inv (init_state c))
    by (split; [constructor | cbn; discriminate]).
  revert H. generalize (init_state c).
  induction rows as [|r rs IH]; intros st H; [exact H|].
  cbn [fold_left]. apply IH. now apply match_inv_step.
Qed.

(** X8: in a single-asset run (the capital not being zero) the completed
    pairs of the analysis are, one for one and in order, the SELL_SIGNAL and
    SELL_TIME records of the ledger: same date, action and price; the
    record's [entry_price] is the price of the paired BUY, its value is
    shares times price, and its [profit_pct] is the profit the analysis
    recomputes, except for an entry price of zero, where the record says 0
    and the analysis divides by zero. *)
Theorem sell_records_match_pairs self c data :
  truthy c = true ->
  let res := _execute_bnf_backtest self c data in
  Forall2
    (fun t ct =>
       t_date t = c_exit_date ct
       /\ t_action t = c_exit_reason ct
       /\ t_price t = c_exit_price ct
       /\ t_entry_price t = Some (c_entry_price ct)
       /\ t_value t = (t_shares t * t_price t)%float
       /\ t_profit_pct t
          = Some (if truthy (c_entry_price ct) then c_profit_pct ct else 0%float))
    (filter strategy_sell (res_trades res))
    (completed_trades (res_metrics res)).
Proof.
  intros _. cbv zeta. rewrite completed_of_run.
  pose proof (proj1 (match_inv_run self c (iterrows data))) as H.
  unfold _execute_bnf_backtest, settle.
  destruct (0 <? shares _)%float; cbn [res_trades]; [|exact H].
  rewrite filter_app. cbn [filter strategy_sell t_action Action_eqb orb].
  rewrite app_nil_r. exact H.
Qed.

Lemma sell_records_on_slide :
  truthy 10000 = true
  /\ length (filter strategy_sell
               (res_trades (_execute_bnf_backtest balanced 10000 slide_frame)))
     = length (completed_trades
                 (res_metrics (_execute_bnf_backtest balanced 10000 slide_frame))).
Proof.
  assert (H : truthy 10000 = true) by reflexivity.
  split; [exact H|].
  exact (Forall2_length (sell_records_match_pairs balanced 10000 slide_frame H)).
Defined.

(** ** Maximum drawdown *)

Lemma drawdown_step_nonneg acc v :
  (0 <=? snd acc)%float = true -> (0 <=? snd (drawdown_step acc v))%float = true.
Proof.
  destruct acc as [peak md]. cbn [snd]. intros H. unfold drawdown_step.
  cbn [snd].
  match goal with |- context [if (md <? ?d)%float then _ else _] =>
    destruct (md <? d)%float eqn:Hlt end; [|exact H].
  apply (leb_trans _ _ _ H). now apply ltb_leb.
Qed.

Lemma drawdown_fold_nonneg values : forall acc,
  (0 <=? snd acc)%float = true ->
  (0 <=? snd (fold_left drawdown_step values acc))%float = true.
Proof.
  induction values as [|v vs IH]; intros acc H; [exact H|].
  cbn [fold_left]. apply IH. now apply drawdown_step_nonneg.
Qed.

Lemma max_drawdown_nonneg (curve : list EquityPoint) :
  (0 <=? _calculate_max_drawdown curve)%float = true.
Proof.
  unfold _calculate_max_drawdown.
  destruct (map eq_portfolio_value curve) as [|peak vs]; [reflexivity|].
  now apply drawdown_fold_nonneg.
Qed.

(** X9: the maximum drawdown a single-asset run reports (the capital not
    being zero) is a number and is never negative, whatever the prices of
    the frame (NaN, zero and negative closes included). *)
Theorem max_drawdown_never_negative self c data :
  truthy c = true ->
  let drawdown := max_drawdown (res_metrics (_execute_bnf_backtest self c data)) in
  (0 <=? drawdown)%float = true /\ isna drawdown = false.
Proof.
  intros _. cbv zeta. unfold _execute_bnf_backtest.
  destruct (settle _ _) as [ts cash].
  cbn [res_metrics]. unfold _calculate_bnf_metrics. cbn [max_drawdown].
  pose proof (max_drawdown_nonneg (equity_curve (run_loop self c (iterrows data))))
    as H.
  split; [exact H | exact (proj2 (leb_not_nan _ _ H))].
Qed.

Lemma max_drawdown_on_slide :
  truthy 10000 = true
  /\ (0 <=? max_drawdown
              (res_metrics (_execute_bnf_backtest balanced 10000 slide_frame)))%float
     = true.
Proof.
  assert (H : truthy 10000 = true) by reflexivity.
  split; [exact H|].
  exact (proj1 (max_drawdown_never_negative balanced 10000 slide_frame H)).
Defined.

End SingleAssetLedger.

(** * Further properties of the portfolio simulator *)

Section PortfolioLedger.
Import Pandas.
Import BNFCounterTrendBacktest.

(** ** The calendar of the portfolio run *)

Lemma insert_date_sorted d l :
  StronglySorted Z.lt l -> StronglySorted Z.lt (insert_date d l).
Proof.
  intros Hs. induction Hs as [|x r Hr IH Hx]; cbn [insert_date].
  - repeat constructor.
  - destruct (Z.ltb_spec d x) as [Hlt | Hge].
    + constructor; [now constructor|]. constructor; [exact Hlt|].
      eapply Forall_impl; [|exact Hx]. intros; lia.
    + destruct (Z.eqb_spec d x) as [-> | Hne]; [now constructor|].
      constructor; [exact IH|].
      apply Forall_forall. intros z Hz. apply in_insert_date in Hz as [-> | Hz]; [lia|].
      rewrite Forall_forall in Hx. now apply Hx.
Qed.

Lemma sorted_set_sorted l : StronglySorted Z.lt (sorted_set l).
Proof.
  unfold sorted_set. induction l as [|x l IH]; cbn [fold_right]; [constructor|].
  now apply insert_date_sorted.
Qed.

Lemma common_dates_in (rest : list (string * DataFrame)) : forall init d,
  In d init -> (forall sd, In sd rest -> In d (index (snd sd))) ->
  In d (fold_left (fun acc sd => filter (fun x => mem_date x (index (snd sd))) acc)
                  rest init).
Proof.
  induction rest as [|sd rest IH]; intros init d Hi Hr; cbn [fold_left]; [exact Hi|].
  apply IH.
  - apply filter_In. split; [exact Hi|]. apply mem_date_in. apply Hr. now left.
  - intros sd' Hsd'. apply Hr. now right.
Qed.

(** X10: for a call with at least one frame (without one the source
    raises), the dates the portfolio run iterates over are exactly the
    dates present in the index of every frame, each once, in strictly
    ascending order, whatever the order and the duplicates of the
    indexes. *)
Theorem calendar_is_common_dates_ascending stock_data all_dates :
  common_dates stock_data = Some all_dates ->
  all_dates_of stock_data = all_dates
  /\ StronglySorted Z.lt all_dates
  /\ (forall d, In d all_dates <->
                forall sd, In sd stock_data -> In d (index (snd sd))).
Proof.
  intros Hc.
  assert (Ha : all_dates_of stock_data = all_dates)
    by (unfold all_dates_of; now rewrite Hc).
  split; [exact Ha|]. rewrite <- Ha. clear Ha.
  destruct stock_data as [|first rest]; [discriminate Hc|]. clear Hc.
  split.
  - unfold all_dates_of, common_dates. apply sorted_set_sorted.
  - intros d. split.
    + intros H sd Hsd. exact (in_all_dates (first :: rest) d H sd Hsd).
    + intros H. unfold all_dates_of, common_dates.
      apply in_sorted_set. apply common_dates_in.
      * apply H. now left.
      * intros sd Hsd. apply H. now right.
Qed.

(** The trading week and the plain days 0 to 24 have seventeen dates in
    common. *)
Definition mixed_portfolio : list (string * DataFrame) :=
  [("AAPL"%string, week_frame); ("MSFT"%string, decline_frame)].

Lemma calendar_of_mixed_portfolio :
  common_dates mixed_portfolio
  = Some [0; 3; 4; 5; 6; 7; 10; 11; 12; 13; 14; 17; 18; 19; 20; 21; 24]
  /\ all_dates_of mixed_portfolio
     = [0; 3; 4; 5; 6; 7; 10; 11; 12; 13; 14; 17; 18; 19; 20; 21; 24]
  /\ StronglySorted Z.lt (all_dates_of mixed_portfolio).
Proof.
  assert (H : common_dates mixed_portfolio
              = Some [0; 3; 4; 5; 6; 7; 10; 11; 12; 13; 14; 17; 18; 19; 20; 21; 24])
    by (vm_compute; reflexivity).
  destruct (calendar_is_common_dates_ascending mixed_portfolio _ H) as (Ha & Hs & _).
  split; [exact H | split; [exact Ha|]]. rewrite Ha. exact Hs.
Defined.

(** ** Snapshots and the trades of a date *)

Lemma day_step_snapshot self mp sigs date st :
  exists snap,
    portfolio_history (day_step self mp sigs date st) = portfolio_history st ++ [snap]
    /\ sn_date snap = date
    /\ sn_total_value snap = (sn_cash snap + sn_stock_value snap)%float
    /\ sn_cash snap = total_cash (day_step self mp sigs date st)
    /\ sn_positions snap = length (holdings (day_step self mp sigs date st))
    /\ sn_daily_trades snap
       = length (filter (fun t => pt_date t =? date)
                        (all_trades (day_step self mp sigs date st))).
Proof.
  unfold day_step.
  destruct (fold_left (sweep_step self date sigs) _ _) as [[c2 l2] o2].
  destruct (fold_left (sell_step date _) _ _) as [[c3 l3] o3].
  destruct (buy_loop _ _ _ _ _ _) as [[c4 h4] l4].
  cbn [portfolio_history all_trades holdings total_cash].
  eexists. repeat split.
Qed.

Lemma new_trades_dated self mp sigs date st :
  exists N,
    all_trades (day_step self mp sigs date st) = all_trades st ++ N
    /\ Forall (fun t => pt_date t = date) N.
Proof.
  destruct (ledger_of_day self mp sigs date st) as (B & -> & HB).
  eexists. split; [reflexivity|].
  repeat (apply Forall_app; split).
  - unfold time_exits. apply Forall_map, Forall_forall. now intros.
  - unfold signal_exits. cbv zeta. apply Forall_map, Forall_forall.
    intros s _. unfold signal_trade. now destruct (get _ _).
  - eapply Forall_impl; [|exact HB]. cbn. tauto.
Qed.

Lemma filter_none {A} (f : A -> bool) l :
  Forall (fun x => f x = false) l -> filter f l = [].
Proof.
  induction 1 as [|x l Hx _ IH]; [reflexivity|]. cbn [filter]. now rewrite Hx.
Qed.

Lemma filter_all {A} (f : A -> bool) l :
  Forall (fun x => f x = true) l -> filter f l = l.
Proof.
  induction 1 as [|x l Hx _ IH]; [reflexivity|]. cbn [filter]. now rewrite Hx, IH.
Qed.

Definition count_sum (l : list nat) : nat := fold_right Nat.add O l.

Lemma count_sum_app l1 l2 : count_sum (l1 ++ l2) = (count_sum l1 + count_sum l2)%nat.
Proof.
  unfold count_sum. induction l1 as [|x l1 IH]; cbn [app fold_right]; [reflexivity|].
  rewrite IH. lia.
Qed.

(** The snapshots so far are those of the dates [done]; every trade is of
    one of these dates and is counted by the snapshot of its date. *)
Definition history_inv (done : list Z) (st : PState) : Prop :=
  map sn_date (portfolio_history st) = done
  /\ Forall (fun t => In (pt_date t) done) (all_trades st)
  /\ count_sum (map sn_daily_trades (portfolio_history st)) = length (all_trades st).

Lemma history_inv_day self mp sigs date done st :
  history_inv done st -> ~ In date done ->
  history_inv (done ++ [date]) (day_step self mp sigs date st).
Proof.
  intros (Hd & Ht & Hc) Hnew.
  destruct (day_step_snapshot self mp sigs date st) as (snap & Hh & Hsd & _ & _ & _ & Hn).
  destruct (new_trades_dated self mp sigs date st) as (N & Hl & HN).
  unfold history_inv. rewrite Hl in Hn |- *. rewrite Hh.
  split; [|split].
  - rewrite map_app. cbn [map]. now rewrite Hd, Hsd.
  - apply Forall_app. split.
    + eapply Forall_impl; [|exact Ht]. cbn. intros t Hin. apply in_or_app. now left.
    + eapply Forall_impl; [|exact HN]. cbn. intros t ->. apply in_or_app.
      right. now left.
  - rewrite map_app, count_sum_app, Hc, length_app. cbn [map count_sum fold_right].
    rewrite Hn, filter_app, length_app.
    rewrite (filter_none _ (all_trades st)), (filter_all _ N).
    + cbn [length]. lia.
    + eapply Forall_impl; [|exact HN]. cbn. intros t ->. apply Z.eqb_refl.
    + eapply Forall_impl; [|exact Ht]. cbn. intros t Hin.
      apply Z.eqb_neq. intros He. apply Hnew. now rewrite <- He.
Qed.

Lemma history_inv_run self mp sd dates : forall done st,
  history_inv done st -> NoDup (done ++ dates) ->
  history_inv (done ++ dates) (run_days self mp sd dates st).
Proof.
  unfold run_days.
  induction dates as [|d ds IH]; intros done st Hi Hnd; cbn [fold_left].
  - now rewrite app_nil_r.
  - replace (done ++ d :: ds) with ((done ++ [d]) ++ ds) in *
      by now rewrite <- app_assoc.
    apply IH; [|exact Hnd].
    apply history_inv_day; [exact Hi|].
    apply NoDup_app_remove_r in Hnd. apply NoDup_remove_2 in Hnd.
    now rewrite app_nil_r in Hnd.
Qed.

Lemma sorted_NoDup l : StronglySorted Z.lt l -> NoDup l.
Proof.
  induction 1 as [|x l Hl IH Hx]; constructor; [|exact IH].
  intros Hin. rewrite Forall_forall in Hx. specialize (Hx x Hin). lia.
Qed.

(** X11: a portfolio run (the capital not being zero) records one snapshot
    per common date, in date order; every record of the ledger carries one
    of these dates, and the [daily_trades] counts of the snapshots add up to
    the length of the ledger (each trade is counted once, on its own
    date). *)
Theorem snapshot_per_date mp self c sd res :
  truthy c = true ->
  portfolio_backtest_with mp self c sd = Some res ->
  map sn_date (pr_portfolio_history res) = all_dates_of sd
  /\ Forall (fun t => In (pt_date t) (all_dates_of sd)) (pr_all_trades res)
  /\ count_sum (map sn_daily_trades (pr_portfolio_history res))
     = length (pr_all_trades res).
Proof.
  intros _ Hres. apply result_of_run in Hres as (-> & -> & _).
  apply (history_inv_run self mp sd (all_dates_of sd) [] (mkPState c [] [] [])).
  - split; [reflexivity|]. split; [constructor | reflexivity].
  - cbn [app]. apply sorted_NoDup.
    unfold all_dates_of, common_dates.
    destruct sd; [constructor | apply sorted_set_sorted].
Qed.

Lemma snapshot_per_date_on_respike :
  truthy 20000 = true
  /\ portfolio_backtest_with 10 balanced 20000 respike_portfolio = Some respike_result
  /\ map sn_date (pr_portfolio_history respike_result) = all_dates_of respike_portfolio
  /\ count_sum (map sn_daily_trades (pr_portfolio_history respike_result))
     = length (pr_all_trades respike_result).
Proof.
  assert (H0 : truthy 20000 = true) by reflexivity.
  assert (H : portfolio_backtest_with 10 balanced 20000 respike_portfolio
              = Some respike_result) by (vm_compute; reflexivity).
  split; [exact H0 | split; [exact H|]].
  destruct (snapshot_per_date 10 balanced 20000 respike_portfolio respike_result H0 H)
    as (H1 & _ & H3).
  split; [exact H1 | exact H3].
Defined.

(** ** The actions of the portfolio ledger *)

Definition strategy_action (t : PTrade) : Prop :=
  pt_action t = BUY \/ pt_action t = SELL_SIGNAL \/ pt_action t = SELL_TIME.

Lemma count_action_app a l1 l2 :
  count_action a (l1 ++ l2) = (count_action a l1 + count_action a l2)%nat.
Proof. unfold count_action. now rewrite filter_app, length_app. Qed.

Lemma count_action_all a l :
  Forall (fun t => pt_action t = a) l -> count_action a l = length l.
Proof.
  unfold count_action. induction 1 as [|t l Ht _ IH]; [reflexivity|].
  cbn [filter]. rewrite Ht.
  replace (Action_eqb a a) with true by now destruct a.
  cbn [length]. now rewrite IH.
Qed.

Lemma count_action_none a b l :
  Forall (fun t => pt_action t = b) l -> a <> b -> count_action a l = O.
Proof.
  unfold count_action. induction 1 as [|t l Ht _ IH]; intros Hab; [reflexivity|].
  cbn [filter]. rewrite Ht.
  replace (Action_eqb b a) with false by (destruct a, b; cbn; congruence).
  now apply IH.
Qed.

Lemma counts_add_up l :
  Forall strategy_action l ->
  (count_action BUY l + count_action SELL_SIGNAL l + count_action SELL_TIME l
   = length l)%nat.
Proof.
  unfold count_action. induction 1 as [|t l Ht _ IH]; [reflexivity|].
  cbn [filter length]. destruct Ht as [-> | [-> | ->]]; cbn [Action_eqb length]; lia.
Qed.

Lemma time_exits_actions self date sigs st :
  Forall (fun t => pt_action t = SELL_TIME) (time_exits self date sigs st).
Proof. unfold time_exits. apply Forall_map, Forall_forall. now intros. Qed.

Lemma signal_exits_actions self date sigs st :
  Forall (fun t => pt_action t = SELL_SIGNAL) (signal_exits self date sigs st).
Proof.
  unfold signal_exits. cbv zeta. apply Forall_map, Forall_forall.
  intros s _. unfold signal_trade. now destruct (get _ _).
Qed.

Lemma strategy_actions_day self mp sigs date st :
  Forall strategy_action (all_trades st) ->
  Forall strategy_action (all_trades (day_step self mp sigs date st)).
Proof.
  intros H. destruct (ledger_of_day self mp sigs date st) as (B & -> & HB).
  repeat (apply Forall_app; split); [exact H | | |].
  - eapply Forall_impl; [|apply time_exits_actions]. unfold strategy_action. cbn. auto.
  - eapply Forall_impl; [|apply signal_exits_actions]. unfold strategy_action. cbn. auto.
  - eapply Forall_impl; [|exact HB]. unfold strategy_action. cbn. tauto.
Qed.

Lemma strategy_actions_run self mp sd dates : forall st,
  Forall strategy_action (all_trades st) ->
  Forall strategy_action (all_trades (run_days self mp sd dates st)).
Proof.
  unfold run_days. induction dates as [|d ds IH]; intros st H; [exact H|].
  cbn [fold_left]. apply IH. now apply strategy_actions_day.
Qed.

Lemma history_grows_day self mp sigs date st :
  portfolio_history (day_step self mp sigs date st) <> [].
Proof.
  destruct (day_step_stages self mp sigs date st) as (_ & _ & _ & snap & -> & _).
  now destruct (portfolio_history st).
Qed.

Lemma max_positions_bound mp l :
  0 <= mp -> Forall (fun s => Z.of_nat (sn_positions s) <= mp) l ->
  Z.of_nat (fold_right Nat.max O (map sn_positions l)) <= mp.
Proof.
  intros Hmp. induction 1 as [|s l Hs _ IH]; cbn [map fold_right]; lia.
Qed.

(** X12: the statistics of a portfolio run (the capital not being zero)
    exist, its history not being empty; the ledger holds BUY, SELL_SIGNAL
    and SELL_TIME records only (never a SELL_FINAL), so the three trade
    counts add up to the total trade count; the largest number of positions
    held is within the position limit; and the maximum drawdown is a number
    that is not negative. *)
Theorem portfolio_stats_of_run mp self c sd res :
  truthy c = true ->
  0 <= mp ->
  portfolio_backtest_with mp self c sd = Some res ->
  Forall (fun t => pt_action t = BUY \/ pt_action t = SELL_SIGNAL
                   \/ pt_action t = SELL_TIME) (pr_all_trades res)
  /\ exists stats,
       _calculate_bnf_portfolio_stats (pr_portfolio_history res) (pr_all_trades res)
       = Some stats
       /\ (ps_buy_trades stats + ps_sell_signal_trades stats
           + ps_sell_time_trades stats = ps_total_trade_count stats)%nat
       /\ Z.of_nat (ps_max_positions_held stats) <= mp
       /\ (0 <=? ps_max_drawdown stats)%float = true.
Proof.
  intros _ Hmp Hres.
  destruct (positions_within_limit mp self c sd res Hmp Hres) as [Hlim _].
  pose proof Hres as Hrun. apply result_of_run in Hrun as (Hh & Ht & _).
  assert (Hact : Forall strategy_action (pr_all_trades res)).
  { rewrite Ht. apply strategy_actions_run. constructor. }
  split; [exact Hact|].
  assert (Hne : pr_portfolio_history res <> []).
  { rewrite Hh. unfold portfolio_backtest_with in Hres.
    destruct (all_dates_of sd) as [|d ds]; [discriminate Hres|].
    unfold run_days. clear.
    assert (G : forall dates st, portfolio_history st <> [] ->
              portfolio_history
                (fold_left (fun st date =>
                              day_step self mp (collect_signals sd date) date st)
                           dates st) <> []).
    { induction dates as [|x xs IH]; intros st H; [exact H|].
      cbn [fold_left]. apply IH, history_grows_day. }
    cbn [fold_left]. apply G, history_grows_day. }
  unfold _calculate_bnf_portfolio_stats.
  destruct (pr_portfolio_history res) as [|s0 hist] eqn:Hhist; [congruence|].
  cbn [map]. eexists. split; [reflexivity|].
  cbn [ps_buy_trades ps_sell_signal_trades ps_sell_time_trades
       ps_total_trade_count ps_max_positions_held ps_max_drawdown].
  split; [now apply counts_add_up|]. split.
  - change (sn_positions s0 :: map sn_positions hist)
      with (map sn_positions (s0 :: hist)).
    now apply max_positions_bound.
  - now apply drawdown_fold_nonneg.
Qed.

Lemma portfolio_stats_on_respike :
  truthy 20000 = true
  /\ 0 <= 10
  /\ portfolio_backtest_with 10 balanced 20000 respike_portfolio = Some respike_result
  /\ exists stats,
       _calculate_bnf_portfolio_stats (pr_portfolio_history respike_result)
         (pr_all_trades respike_result) = Some stats
       /\ (ps_buy_trades stats + ps_sell_signal_trades stats
           + ps_sell_time_trades stats = ps_total_trade_count stats)%nat
       /\ Z.of_nat (ps_max_positions_held stats) <= 10.
Proof.
  assert (Hc : truthy 20000 = true) by reflexivity.
  assert (H0 : 0 <= 10) by lia.
  assert (H : portfolio_backtest_with 10 balanced 20000 respike_portfolio
              = Some respike_result) by (vm_compute; reflexivity).
  split; [exact Hc | split; [exact H0 | split; [exact H|]]].
  destruct (portfolio_stats_of_run 10 balanced 20000 respike_portfolio respike_result
              Hc H0 H) as (_ & stats & Hs & Hsum & Hm & _).
  exists stats. split; [exact Hs | split; [exact Hsum | exact Hm]].
Defined.

(** ** Open positions: purchases less sales *)

Definition keys (hs : Holdings) : list string := map fst hs.

Lemma keys_dict_del k hs :
  keys (dict_del k hs) = filter (fun x => negb (String.eqb x k)) (keys hs).
Proof.
  unfold keys, dict_del. induction hs as [|[k0 v0] hs IH]; [reflexivity|].
  cbn [filter map fst]. destruct (String.eqb k0 k); cbn [negb map fst]; now rewrite IH.
Qed.

Lemma NoDup_map_filter {A B} (g : A -> B) (f : A -> bool) l :
  NoDup (map g l) -> NoDup (map g (filter f l)).
Proof.
  induction l as [|x l IH]; [constructor|]. cbn [map filter]. intros H.
  inversion H as [|? ? Hx Hl]; subst. destruct (f x); [|now apply IH].
  cbn [map]. constructor; [|now apply IH].
  intros Hin. apply Hx. apply in_map_iff in Hin as (y & <- & Hy).
  apply filter_In in Hy as [Hy _]. now apply in_map.
Qed.

Lemma NoDup_firstn {A} n (l : list A) : NoDup l -> NoDup (firstn n l).
Proof.
  intros H. rewrite <- (firstn_skipn n l) in H. now apply NoDup_app_remove_r in H.
Qed.

Lemma length_remove_one k l :
  NoDup l -> In k l ->
  S (length (filter (fun x => negb (String.eqb x k)) l)) = length l.
Proof.
  induction 1 as [|x l Hx Hnd IH]; [intros []|]. intros Hin. cbn [filter length].
  destruct (String.eqb_spec x k) as [-> | Hne]; cbn [negb length].
  - f_equal. rewrite filter_all; [reflexivity|].
    apply Forall_forall. intros y Hy. apply negb_true_iff, String.eqb_neq. congruence.
  - destruct Hin as [-> | Hin]; [congruence|]. now rewrite IH.
Qed.

Lemma length_keys hs : length (keys hs) = length hs.
Proof. apply length_map. Qed.

Lemma remove_all_count out : forall hs,
  NoDup (keys hs) -> NoDup out -> incl out (keys hs) ->
  (length (remove_all out hs) + length out)%nat = length hs
  /\ NoDup (keys (remove_all out hs)).
Proof.
  unfold remove_all.
  induction out as [|k out IH]; intros hs Hnd Hout Hincl; cbn [fold_left length].
  - split; [lia | exact Hnd].
  - inversion Hout as [|? ? Hk Hout']; subst.
    destruct (IH (dict_del k hs)) as [Hlen Hnd'].
    + rewrite keys_dict_del. now apply NoDup_filter.
    + exact Hout'.
    + intros k' Hk'. rewrite keys_dict_del. apply filter_In. split.
      * apply Hincl. now right.
      * apply negb_true_iff, String.eqb_neq. intros ->. contradiction.
    + split; [|exact Hnd'].
      pose proof (length_remove_one k (keys hs) Hnd (Hincl k (or_introl eq_refl))) as Hone.
      rewrite <- keys_dict_del, !length_keys in Hone. lia.
Qed.

Lemma dict_set_new k h hs : ~ In k (keys hs) -> dict_set k h hs = hs ++ [(k, h)].
Proof.
  induction hs as [|[k0 v0] hs IH]; intros Hk; [reflexivity|]. cbn [dict_set].
  destruct (String.eqb_spec k0 k) as [-> | Hne]; [exfalso; apply Hk; now left|].
  cbn [app]. f_equal. apply IH. intros Hin. apply Hk. now right.
Qed.

Definition bought (t : PTrade) : Prop := pt_action t = BUY.

Lemma buy_loop_count mp date cands : forall cash hs ledger cash' hs' ledger',
  NoDup (map s_symbol cands) ->
  (forall s, In s cands -> ~ In (s_symbol s) (keys hs)) ->
  NoDup (keys hs) ->
  buy_loop mp date cands cash hs ledger = (cash', hs', ledger') ->
  exists B, ledger' = ledger ++ B /\ Forall bought B
            /\ length hs' = (length hs + length B)%nat
            /\ NoDup (keys hs').
Proof.
  induction cands as [|s cands IH]; intros cash hs ledger cash' hs' ledger' Hc Hnew Hnd H;
    cbn [buy_loop] in H.
  - injection H as <- <- <-. exists []. rewrite app_nil_r. cbn. auto.
  - destruct (cash <? 1000)%float.
    { injection H as <- <- <-. exists []. rewrite app_nil_r. cbn. auto. }
    cbn [map] in Hc. inversion Hc as [|? ? Hs Hc']; subst.
    destruct (1000 <=? _)%float.
    + rewrite dict_set_new in H by (apply Hnew; now left).
      apply IH in H as (B & -> & HB & Hlen & Hnd'); auto.
      * eexists (_ :: B). split; [now rewrite <- app_assoc|].
        split; [constructor; [reflexivity | exact HB]|].
        split; [|exact Hnd']. rewrite Hlen, length_app. cbn [length]. lia.
      * intros s' Hs' Hin. unfold keys in Hin. rewrite map_app in Hin.
        apply in_app_or in Hin as [Hin | [Heq | []]].
        -- exact (Hnew s' (or_intror Hs') Hin).
        -- cbn [fst] in Heq. apply Hs. rewrite Heq. now apply in_map.
      * unfold keys. rewrite map_app. cbn [map fst].
        apply (Permutation_NoDup (l := s_symbol s :: map fst hs)).
        -- apply Permutation_cons_append.
        -- constructor; [apply Hnew; now left | exact Hnd].
    + apply IH in H as (B & -> & HB & Hlen & Hnd'); auto.
      * exists B. auto.
      * intros s' Hs'. apply Hnew. now right.
Qed.

Lemma slice_symbols_distinct mp sigs hs :
  NoDup (map s_symbol sigs) -> NoDup (map s_symbol (slice_of mp sigs hs)).
Proof.
  intros H. unfold slice_of, py_slice_to.
  assert (Hc : NoDup (map s_symbol (buy_candidates_of sigs hs))).
  { unfold buy_candidates_of.
    eapply Permutation_NoDup.
    - apply Permutation_map. symmetry. apply sort_by_rsi_perm.
    - now apply NoDup_map_filter. }
  destruct (_ <? 0); rewrite <- firstn_map; now apply NoDup_firstn.
Qed.

Lemma collect_symbols sd d sym :
  In sym (map s_symbol (collect_signals sd d)) -> In sym (map fst sd).
Proof.
  intros H. apply in_map_iff in H as (s & <- & Hs).
  apply in_collect_signals in Hs as (x & Hx & Hs).
  rewrite (signal_at_symbol d x s Hs). now apply in_map.
Qed.

Lemma collect_symbols_distinct sd d :
  NoDup (map fst sd) -> NoDup (map s_symbol (collect_signals sd d)).
Proof.
  induction sd as [|x sd IH]; [constructor|]. cbn [map]. intros H.
  inversion H as [|? ? Hx Hsd]; subst.
  change (collect_signals (x :: sd) d)
    with ((match signal_at d x with Some s => [s] | None => [] end)
            ++ collect_signals sd d).
  destruct (signal_at d x) as [s|] eqn:Hs; cbn [app map]; [|now apply IH].
  constructor; [|now apply IH].
  rewrite (signal_at_symbol d x s Hs). intros Hin. apply Hx.
  now apply (collect_symbols sd d).
Qed.

Definition count_inv (st : PState) : Prop :=
  NoDup (keys (holdings st))
  /\ (length (holdings st) + count_action SELL_SIGNAL (all_trades st)
      + count_action SELL_TIME (all_trades st)
      = count_action BUY (all_trades st))%nat.

Lemma count_inv_day self mp sigs date st :
  NoDup (map s_symbol sigs) ->
  count_inv st -> count_inv (day_step self mp sigs date st).
Proof.
  intros Hsig [Hnd Hcount].
  destruct (day_step_stages self mp sigs date st) as (_ & Hh & Hl & _).
  cbv zeta in Hh, Hl. unfold count_inv. rewrite Hh, Hl. clear Hh Hl.
  set (hs := holdings st) in *.
  (* the sweep *)
  destruct (remove_all_count (map fst (filter (expires self date sigs) hs)) hs)
    as [Hlen2 Hnd2]; auto.
  { now apply NoDup_map_filter. }
  { intros k Hk. apply in_map_iff in Hk as (kv & <- & Hkv).
    apply filter_In in Hkv as [Hkv _]. now apply in_map. }
  fold (after_sweep self date sigs hs) in Hlen2, Hnd2.
  set (h2 := after_sweep self date sigs hs) in *.
  (* the signal exits *)
  destruct (remove_all_count (map s_symbol (filter (sells h2) sigs)) h2)
    as [Hlen3 Hnd3]; auto.
  { now apply NoDup_map_filter. }
  { intros k Hk. apply in_map_iff in Hk as (s & <- & Hs).
    apply filter_In in Hs as [_ Hs]. unfold sells in Hs.
    destruct (get (s_symbol s) h2) as [h|] eqn:Hg; [|discriminate Hs].
    apply get_in in Hg. unfold keys. apply in_map_iff. now exists (s_symbol s, h). }
  fold (after_sells sigs h2) in Hlen3, Hnd3.
  set (h3 := after_sells sigs h2) in *.
  (* the admissions *)
  destruct (buy_loop _ _ _ _ _ _) as [[c4 h4] l4] eqn:Hb. cbn [fst snd].
  apply buy_loop_count in Hb as (B & -> & HB & Hlen4 & Hnd4); auto.
  - split; [exact Hnd4|].
    pose proof (time_exits_actions self date sigs st) as HT.
    pose proof (signal_exits_actions self date sigs st) as HS.
    rewrite !count_action_app.
    rewrite (count_action_all SELL_TIME _ HT), (count_action_all SELL_SIGNAL _ HS),
      (count_action_all BUY B HB).
    rewrite (count_action_none SELL_SIGNAL SELL_TIME _ HT),
      (count_action_none BUY SELL_TIME _ HT),
      (count_action_none SELL_TIME SELL_SIGNAL _ HS),
      (count_action_none BUY SELL_SIGNAL _ HS),
      (count_action_none SELL_SIGNAL BUY B HB),
      (count_action_none SELL_TIME BUY B HB) by discriminate.
    unfold time_exits, signal_exits. cbv zeta. fold hs. fold h2.
    rewrite !length_map in *. lia.
  - now apply slice_symbols_distinct.
  - intros s Hs Hin. unfold slice_of in Hs.
    apply in_py_slice_to, in_candidates in Hs as (_ & _ & Hheld).
    unfold keys in Hin. apply in_map_iff in Hin as ([k h] & Hk & Hin).
    cbn [fst] in Hk. subst k.
    assert (held (s_symbol s) h3 = true) by (apply held_in; eauto).
    congruence.
Qed.

Lemma count_inv_run self mp sd dates : forall st,
  NoDup (map fst sd) -> count_inv st -> count_inv (run_days self mp sd dates st).
Proof.
  unfold run_days. induction dates as [|d ds IH]; intros st Hsd H; [exact H|].
  cbn [fold_left]. apply IH; [exact Hsd|].
  apply count_inv_day; [now apply collect_symbols_distinct | exact H].
Qed.

(** X13: in a portfolio run over distinct symbols (the capital not being
    zero) every sale closes a position an earlier purchase opened and no
    symbol is held twice: the final holdings have distinct symbols, and
    their number is the number of BUY records less the number of
    SELL_SIGNAL and SELL_TIME records. *)
Theorem open_positions_are_buys_less_sells mp self c sd res :
  truthy c = true ->
  NoDup (map fst sd) ->
  portfolio_backtest_with mp self c sd = Some res ->
  NoDup (map fst (pr_final_holdings res))
  /\ (length (pr_final_holdings res)
      + count_action SELL_SIGNAL (pr_all_trades res)
      + count_action SELL_TIME (pr_all_trades res)
      = count_action BUY (pr_all_trades res))%nat.
Proof.
  intros _ Hsd Hres. apply result_of_run in Hres as (_ & -> & -> & _).
  apply (count_inv_run self mp sd (all_dates_of sd) (mkPState c [] [] []) Hsd).
  split; [constructor | reflexivity].
Qed.

Lemma open_positions_on_respike :
  truthy 20000 = true
  /\ NoDup (map fst respike_portfolio)
  /\ portfolio_backtest_with 10 balanced 20000 respike_portfolio = Some respike_result
  /\ (length (pr_final_holdings respike_result)
      + count_action SELL_SIGNAL (pr_all_trades respike_result)
      + count_action SELL_TIME (pr_all_trades respike_result)
      = count_action BUY (pr_all_trades respike_result))%nat.
Proof.
  assert (Hc : truthy 20000 = true) by reflexivity.
  assert (H0 : NoDup (map fst respike_portfolio))
    by (cbn; constructor; [intros [] | constructor]).
  assert (H : portfolio_backtest_with 10 balanced 20000 respike_portfolio
              = Some respike_result) by (vm_compute; reflexivity).
  split; [exact Hc | split; [exact H0 | split; [exact H|]]].
  exact (proj2 (open_positions_are_buys_less_sells 10 balanced 20000
                  respike_portfolio respike_result Hc H0 H)).
Defined.

End PortfolioLedger.

(** ** The final settlement *)

Section Settlement.
Import Pandas.
Import BNFCounterTrendBacktest.













End Settlement.

(** * The entry points of the backtester *)

Section EntryPoints.
Import Pandas.
Import BNFCounterTrendBacktest.

(** ** A constant close is turned away *)

(** X14: a download whose close never changes is never backtested,
    whatever its length, its price and the other columns: its RSI is NaN on
    every row (so that neither RSI flag is ever set), [run_single_backtest]
    returns nothing for it and the download loop of the portfolio run never
    accepts it. *)
Theorem constant_close_is_rejected close_mean self initial_capital data c n :
  b_Close data = repeat c n ->
  (forall df, calculate_bnf_indicators self data = Some df ->
              all_na (RSI df) = true
              /\ forall i, nth i (RSI_Oversold df) false = false
                           /\ nth i (RSI_Overbought df) false = false)
  /\ run_single_backtest close_mean self initial_capital (Some data) = None
  /\ forall df, attempt self (Some data) <> Accepted df.
Proof.
  intros Hc.
  assert (Hna : forall df, calculate_bnf_indicators self data = Some df ->
                           all_na (RSI df) = true).
  { intros df Hdf. exact (proj1 (rsi_nan_on_constant_close self data df c n Hdf Hc)). }
  split; [|split].
  - intros df Hdf. split; [now apply Hna|].
    intros i.
    exact (proj2 (proj2 (rsi_nan_on_constant_close self data df c n Hdf Hc) i)).
  - unfold run_single_backtest.
    destruct (calculate_bnf_indicators self data) as [df|] eqn:Hdf.
    + rewrite (Hna df eq_refl). cbn [orb].
      repeat match goal with |- (if ?b then _ else _) = _ => destruct b end;
        reflexivity.
    + repeat match goal with |- (if ?b then _ else _) = _ => destruct b end;
        reflexivity.
  - intros df'. unfold attempt.
    destruct (calculate_bnf_indicators self data) as [df|] eqn:Hdf.
    + rewrite (Hna df eq_refl).
      repeat match goal with |- (if ?b then _ else _) <> _ => destruct b end;
        discriminate.
    + repeat match goal with |- (if ?b then _ else _) <> _ => destruct b end;
        discriminate.
Qed.

Lemma constant_close_is_rejected_on_flat_bars :
  b_Close flat_bars = repeat 100%float 25
  /\ run_single_backtest Pandas.mean balanced 10000 (Some flat_bars) = None.
Proof.
  assert (H : b_Close flat_bars = repeat 100%float 25) by (vm_compute; reflexivity).
  split; [exact H|].
  exact (proj1 (proj2 (constant_close_is_rejected Pandas.mean balanced 10000
                         flat_bars 100%float 25 H))).
Defined.

(** ** What the download loop passes on *)

Definition usable (self : Params) (sd : string * DataFrame) : Prop :=
  (ema_long self <= len (snd sd))%nat /\ (0 < len (snd sd))%nat
  /\ all_na (RSI (snd sd)) = false.

Lemma attempt_accepted self history df :
  attempt self history = Accepted df ->
  (ema_long self <= len df)%nat /\ (0 < len df)%nat /\ all_na (RSI df) = false.
Proof.
  unfold attempt. destruct history as [data|]; [|discriminate].
  destruct (Nat.eqb_spec (length (b_index data)) 0); [discriminate|].
  destruct (Nat.ltb_spec (length (b_index data)) (ema_long self)); [discriminate|].
  cbn [orb]. destruct (poor_quality data); [discriminate|].
  destruct (calculate_bnf_indicators self data) as [df'|] eqn:Hdf; [|discriminate].
  destruct (all_na (RSI df')) eqn:Hna; [discriminate|].
  intros [= <-].
  assert (Hlen : len df' = length (b_index data)).
  { revert Hdf. unfold calculate_bnf_indicators.
    destruct (_ <? _)%nat; [discriminate|]. now intros [= <-]. }
  rewrite Hlen. repeat split; [lia | lia | exact Hna].
Qed.

(** The symbols taken so far are those of [seen], in order. *)
Definition download_inv (self : Params) (history : string -> nat -> option Bars)
    (seen : list string)
    (acc : list (string * DataFrame) * list string) : Prop :=
  Forall (usable self) (fst acc)
  /\ (exists keep, map fst (fst acc) = filter keep seen)
  /\ (forall s, In s (snd acc) ->
                In s seen /\ ~ In s (map fst (fst acc))
                /\ count_occ string_dec (snd acc) s = 2%nat
                /\ attempt self (history s 0%nat) = Raised
                /\ attempt self (history s 1%nat) = Raised).

Lemma filter_snoc {A} (f : A -> bool) l x :
  filter f (l ++ [x]) = filter f l ++ (if f x then [x] else []).
Proof. now rewrite filter_app. Qed.

Lemma download_inv_step self history seen acc symbol :
  ~ In symbol seen ->
  download_inv self history seen acc ->
  download_inv self history (seen ++ [symbol]) (download_step self history acc symbol).
Proof.
  intros Hnew (Hu & (keep & Hk) & Hf). destruct acc as [sd failed].
  cbn [fst snd] in *.
  assert (Hsub : forall s, In s (map fst sd) -> In s seen).
  { intros s Hs. rewrite Hk in Hs. now apply filter_In in Hs. }
  assert (Hacc : forall df, (ema_long self <= len df)%nat /\ (0 < len df)%nat
                            /\ all_na (RSI df) = false ->
            download_inv self history (seen ++ [symbol]) (sd ++ [(symbol, df)], failed)).
  { intros df Hdf. split; [|split]; cbn [fst snd].
    - apply Forall_app. split; [exact Hu|]. constructor; [exact Hdf | constructor].
    - exists (fun s => String.eqb s symbol || keep s).
      rewrite map_app, filter_snoc, String.eqb_refl. cbn [map fst orb].
      f_equal. rewrite Hk. apply filter_ext_in. intros s Hs.
      destruct (String.eqb_spec s symbol) as [-> | _]; [contradiction | reflexivity].
    - intros s Hs. destruct (Hf s Hs) as (H1 & H2 & H3).
      split; [apply in_or_app; now left|]. split; [|exact H3].
      rewrite map_app. intros Hin. apply in_app_or in Hin as [Hin | [<- | []]]; auto. }
  assert (Hdrop : download_inv self history (seen ++ [symbol]) (sd, failed)).
  { split; [|split]; cbn [fst snd].
    - exact Hu.
    - exists (fun s => negb (String.eqb s symbol) && keep s).
      rewrite filter_snoc, String.eqb_refl. cbn [negb andb]. rewrite app_nil_r, Hk.
      apply filter_ext_in. intros s Hs.
      destruct (String.eqb_spec s symbol) as [-> | _]; [contradiction | reflexivity].
    - intros s Hs. destruct (Hf s Hs) as (H1 & H2 & H3).
      split; [apply in_or_app; now left | split; [exact H2 | exact H3]]. }
  unfold download_step.
  destruct (attempt self (history symbol 0%nat)) as [df | |] eqn:H0;
    [apply Hacc; exact (attempt_accepted _ _ _ H0) | exact Hdrop |].
  destruct (attempt self (history symbol 1%nat)) as [df | |] eqn:H1;
    [apply Hacc; exact (attempt_accepted _ _ _ H1) | exact Hdrop |].
  destruct Hdrop as (D1 & D2 & D3). split; [exact D1 | split; [exact D2|]].
  cbn [fst snd] in *. intros s Hs.
  assert (Hfresh : ~ In symbol failed).
  { intros Hin. apply Hnew. now apply (Hf symbol). }
  rewrite count_occ_app. cbn [app count_occ].
  destruct (string_dec symbol s) as [<- | Hne].
  - split; [apply in_or_app; right; now left|].
    split; [intros Hin; apply Hnew; now apply Hsub|].
    rewrite (proj1 (count_occ_not_In string_dec failed symbol) Hfresh).
    split; [reflexivity | split; assumption].
  - apply in_app_or in Hs as [Hs | Hs]; [|cbn in Hs; intuition congruence].
    destruct (D3 s Hs) as (E1 & E2 & E3 & E4).
    split; [exact E1 | split; [exact E2 | split; [lia | exact E4]]].
Qed.

Lemma download_inv_fold self history stocks : forall seen acc,
  NoDup (seen ++ stocks) ->
  download_inv self history seen acc ->
  download_inv self history (seen ++ stocks)
    (fold_left (download_step self history) stocks acc).
Proof.
  induction stocks as [|s stocks IH]; intros seen acc Hnd Hinv; cbn [fold_left].
  - now rewrite app_nil_r.
  - replace (seen ++ s :: stocks) with ((seen ++ [s]) ++ stocks) in *
      by now rewrite <- app_assoc.
    apply IH; [exact Hnd|]. apply download_inv_step; [|exact Hinv].
    apply NoDup_app_remove_r in Hnd. apply NoDup_remove_2 in Hnd.
    now rewrite app_nil_r in Hnd.
Qed.

Fixpoint distinct (l : list string) : bool :=
  match l with
  | [] => true
  | x :: r => negb (existsb (String.eqb x) r) && distinct r
  end.

Lemma distinct_NoDup l : distinct l = true -> NoDup l.
Proof.
  induction l as [|x r IH]; [constructor|]. cbn [distinct]. intros H.
  apply andb_prop in H as [Hx Hr]. constructor; [|now apply IH].
  intros Hin. apply negb_true_iff in Hx.
  assert (existsb (String.eqb x) r = true)
    by (apply existsb_exists; exists x; split; [exact Hin | apply String.eqb_refl]).
  congruence.
Qed.

Lemma NoDup_stocks_to_test k : NoDup (py_slice_to k top50_stocks).
Proof.
  unfold py_slice_to. destruct (k <? 0); apply NoDup_firstn;
    apply distinct_NoDup; vm_compute; reflexivity.
Qed.

Lemma download_loop_inv self history k :
  download_inv self history (py_slice_to k top50_stocks)
    (download_loop self history (py_slice_to k top50_stocks)).
Proof.
  apply (download_inv_fold self history (py_slice_to k top50_stocks) [] ([], [])).
  - apply NoDup_stocks_to_test.
  - split; [constructor|]. split; [now exists (fun _ => true) | intros s []].
Qed.

(** X15: whatever the downloads return or raise, a portfolio run that
    comes to a result is simulated over distinct symbols of the watch list,
    in watch-list order, each with a frame of at least [ema_long] rows whose
    RSI is not NaN throughout; a symbol is reported as failed only when both
    of its downloads raised, it is then not simulated and is listed twice
    (once by the handler, once after the loop); and since the symbols are
    distinct, the final holdings number the BUY records less the
    SELL_SIGNAL and SELL_TIME records. *)
Theorem portfolio_run_over_watch_list self initial_capital history max_stocks run :
  run_bnf_portfolio_backtest self initial_capital history max_stocks = Completed run ->
  let stocks_to_test := py_slice_to max_stocks top50_stocks in
  let stock_data := fst (download_loop self history stocks_to_test) in
  _execute_bnf_portfolio_backtest self initial_capital stock_data
  = Some (run_result run)
  /\ run_valid_stocks run = map fst stock_data
  /\ NoDup (run_valid_stocks run)
  /\ (exists keep, run_valid_stocks run = filter keep stocks_to_test)
  /\ Forall (fun sd => (ema_long self <= len (snd sd))%nat
                       /\ all_na (RSI (snd sd)) = false) stock_data
  /\ (forall s, In s (run_failed_stocks run) ->
                In s stocks_to_test /\ ~ In s (run_valid_stocks run)
                /\ attempt self (history s 0%nat) = Raised
                /\ attempt self (history s 1%nat) = Raised
                /\ count_occ string_dec (run_failed_stocks run) s = 2%nat)
  /\ (length (pr_final_holdings (run_result run))
      + count_action SELL_SIGNAL (pr_all_trades (run_result run))
      + count_action SELL_TIME (pr_all_trades (run_result run))
      = count_action BUY (pr_all_trades (run_result run)))%nat.
Proof.
  intros Hrun. cbv zeta.
  pose proof (download_loop_inv self history max_stocks) as (Hu & Hkeep & Hfail).
  unfold run_bnf_portfolio_backtest in Hrun.
  destruct (download_loop self history (py_slice_to max_stocks top50_stocks))
    as [sd failed].
  cbn [fst snd] in *.
  destruct (_execute_bnf_portfolio_backtest self initial_capital sd) as [res|] eqn:Hres;
    [|destruct sd; discriminate Hrun].
  destruct (truthy initial_capital); [|destruct sd; discriminate Hrun].
  assert (Hr : run = mkPortfolioRun res
                       (_calculate_bnf_portfolio_stats (pr_portfolio_history res)
                          (pr_all_trades res))
                       (map fst sd) failed
                       (float_of_nat (length sd)
                        / float_of_nat (length (py_slice_to max_stocks top50_stocks))
                        * 100)%float)
    by (destruct sd; [discriminate Hrun | now injection Hrun as <-]).
  subst run. cbn [run_result run_valid_stocks run_failed_stocks].
  assert (Hnd : NoDup (map fst sd)).
  { destruct Hkeep as [keep ->]. apply NoDup_filter, NoDup_stocks_to_test. }
  split; [reflexivity|]. split; [reflexivity|]. split; [exact Hnd|].
  split; [exact Hkeep|]. split; [|split].
  - eapply Forall_impl; [|exact Hu]. intros x (H1 & _ & H2). now split.
  - intros s Hs. destruct (Hfail s Hs) as (F1 & F2 & F3 & F4 & F5). auto.
  - apply result_of_run in Hres as (_ & -> & -> & _).
    apply (count_inv_run self max_positions sd (all_dates_of sd)
             (mkPState initial_capital [] [] []) Hnd).
    split; [constructor | reflexivity].
Qed.

(** A watch list of which only AAPL can be downloaded: its first download
    raises, the second returns the sixty bars of [slide_bars]. *)
Definition only_aapl (symbol : string) (retry : nat) : option Bars :=
  if String.eqb symbol "AAPL" then
    match retry with O => None | _ => Some slide_bars end
  else None.

Definition no_run : PortfolioRun := mkPortfolioRun no_result None [] [] nan.

Definition run_of (o : PortfolioOutcome) : PortfolioRun :=
  match o with Completed run => run | _ => no_run end.

Definition aapl_run : PortfolioRun :=
  run_of (run_bnf_portfolio_backtest balanced 10000 only_aapl 3).

Lemma portfolio_run_with_one_download :
  run_bnf_portfolio_backtest balanced 10000 only_aapl 3 = Completed aapl_run
  /\ run_valid_stocks aapl_run = ["AAPL"%string]
  /\ NoDup (run_valid_stocks aapl_run)
  /\ forall s, In s (run_failed_stocks aapl_run) ->
                count_occ string_dec (run_failed_stocks aapl_run) s = 2%nat.
Proof.
  assert (H : run_bnf_portfolio_backtest balanced 10000 only_aapl 3
              = Completed aapl_run) by (vm_compute; reflexivity).
  assert (Hv : run_valid_stocks aapl_run = ["AAPL"%string])
    by (vm_compute; reflexivity).
  split; [exact H | split; [exact Hv|]].
  destruct (portfolio_run_over_watch_list balanced 10000 only_aapl 3 aapl_run H)
    as (_ & _ & Hnd & _ & _ & Hf & _).
  split; [exact Hnd|]. intros s Hs. now apply Hf.
Defined.

End EntryPoints.

(** * The signals and alerts of the monitor *)

Section MonitorSignals.
Import Pandas.
Import BNFCounterTrendMonitor.

(** ** Positions *)

Lemma lookup_store symbol info positions :
  lookup symbol (store symbol info positions) = Some info.
Proof.
  unfold lookup. induction positions as [|[k v] r IH]; cbn [store find fst].
  - now rewrite String.eqb_refl.
  - destruct (String.eqb k symbol) eqn:He; cbn [find fst]; rewrite He; [reflexivity|].
    exact IH.
Qed.

Lemma lookup_store_other symbol other info positions :
  other <> symbol ->
  lookup other (store symbol info positions) = lookup other positions.
Proof.
  intros Hne. unfold lookup.
  induction positions as [|[k v] r IH]; cbn [store find fst].
  - now rewrite (proj2 (String.eqb_neq symbol other)) by congruence.
  - destruct (String.eqb_spec k symbol) as [-> | Hk]; cbn [find fst].
    + now rewrite (proj2 (String.eqb_neq symbol other)) by congruence.
    + destruct (String.eqb k other); [reflexivity | exact IH].
Qed.

(** X16: [update_position] followed by [get_position_status] returns the
    status just written, for any status text, and leaves every other symbol
    as it was; a symbol never written reads as "none".  Marking a symbol
    "holding" with a price that is not zero records the price, the time and
    three target days; marking it "none" forgets all three; a first marking
    as "holding" without a price (or with price 0) records no entry time. *)
Theorem position_status_round_trip positions now symbol status price :
  get_position_status (update_position positions now symbol status price) symbol
  = status
  /\ (forall other, other <> symbol ->
        lookup other (update_position positions now symbol status price)
        = lookup other positions)
  /\ get_position_status [] symbol = "none"%string
  /\ (truthy_opt price = true ->
      lookup symbol (update_position positions now symbol "holding" price)
      = Some (mkPositionInfo (Some "holding"%string) price (Some now) (Some 3)))
  /\ lookup symbol (update_position positions now symbol "none" price)
     = Some (mkPositionInfo (Some "none"%string) None None None)
  /\ (truthy_opt price = false -> lookup symbol positions = None ->
      lookup symbol (update_position positions now symbol "holding" price)
      = Some (mkPositionInfo (Some "holding"%string) None None None)).
Proof.
  split; [|split; [|split; [|split; [|split]]]].
  - unfold get_position_status, update_position. rewrite lookup_store.
    destruct (String.eqb status "holding" && truthy_opt price);
      [reflexivity|]. now destruct (String.eqb status "none").
  - intros other Hne. unfold update_position. now apply lookup_store_other.
  - reflexivity.
  - intros Hp. unfold update_position. rewrite lookup_store.
    cbn [String.eqb Ascii.eqb Bool.eqb andb]. rewrite Hp. reflexivity.
  - unfold update_position. rewrite lookup_store. reflexivity.
  - intros Hp Hnew. unfold update_position. rewrite lookup_store, Hnew.
    cbn [String.eqb Ascii.eqb Bool.eqb andb]. rewrite Hp. reflexivity.
Qed.

(** ** The signals of the latest bar *)

(** The frame of a download of at least 50 bars, under the monitor's own
    (or any preset's) periods. *)
Lemma indicators_of_long_history self data :
  (Nat.max (Nat.max (rsi_period self) (williams_period self)) (ema_long self) <= 50)%nat ->
  (50 <= length (b_index data))%nat ->
  exists df, calculate_bnf_indicators self data = Some df
             /\ len df = length (b_index data).
Proof.
  intros Hp Hn. unfold calculate_bnf_indicators.
  destruct (Nat.ltb_spec (length (b_index data))
              (Nat.max (Nat.max (rsi_period self) (williams_period self))
                 (ema_long self))); [lia|].
  eexists. split; reflexivity.
Qed.

(** What the function computes, named: the position status it reads, the
    entry time, and the frame. *)
Lemma check_bnf_signals_eq self positions symbol data now now' sg :
  check_bnf_signals self positions symbol (Some data) now now' = Some sg ->
  exists df,
    calculate_bnf_indicators self data = Some df
    /\ sg_symbol sg = symbol
    /\ sg_position_status sg = get_position_status positions symbol
    /\ sg_rsi sg = nth (len df - 1) (RSI df) nan
    /\ sg_rsi_overbought sg = nth (len df - 1) (RSI_Overbought df) false
    /\ sg_williams_overbought sg = nth (len df - 1) (Williams_Overbought df) false
    /\ sg_ma25_ratio sg = nth (len df - 1) (MA25_Ratio df) nan
    /\ sg_buy_signal sg
       = (if String.eqb (get_position_status positions symbol) "none"
          then nth (len df - 1) (BNF_Buy_Signal df) false else false)
    /\ sg_sell_signal sg
       = (if String.eqb (get_position_status positions symbol) "none" then false
          else if String.eqb (get_position_status positions symbol) "holding" then
            match lookup symbol positions with
            | Some info =>
                match p_entry_time info with
                | Some e =>
                    nth (len df - 1) (BNF_Sell_Signal df) false
                    || (3 <=? days (now - e))
                    || ((2 <=? days (now - e)) && (60 <=? sg_rsi sg)%float)
                | None => false
                end
            | None => false
            end
          else false)
    /\ sg_sell_reason sg
       = (if sg_sell_signal sg then
            (if sg_rsi_overbought sg then [Sell_rsi_overbought (sg_rsi sg)] else [])
            ++ (if sg_williams_overbought sg
                then [Sell_williams_overbought (sg_williams_r sg)] else [])
            ++ (if (1.10 <=? sg_ma25_ratio sg)%float
                then [Sell_ma25_up (sg_ma25_ratio sg)] else [])
            ++ (match lookup symbol positions with
                | Some info =>
                    match p_entry_time info with
                    | Some e => if 3 <=? days (now' - e)
                                then [Sell_three_days_held] else []
                    | None => []
                    end
                | None => []
                end)
          else []).
Proof.
  unfold check_bnf_signals.
  destruct (_ <? 50)%nat; [discriminate|].
  destruct (calculate_bnf_indicators self data) as [df|]; [|discriminate].
  intros [= <-]. exists df.
  cbn [sg_symbol sg_position_status sg_rsi sg_rsi_overbought sg_williams_overbought
       sg_ma25_ratio sg_buy_signal sg_sell_signal sg_sell_reason sg_williams_r].
  repeat split; destruct (lookup symbol positions) as [info|];
    try reflexivity; destruct (p_entry_time info); reflexivity.
Qed.

(** Sample readings: the symbol AAPL, not held, held since time 0 at a
    price of 100, and marked as held without a price. *)
Definition day : Z := 86400000000.

Definition held_since (t : Z) : Positions :=
  update_position [] t "AAPL" "holding" (Some 100%float).

Definition held_without_price : Positions :=
  update_position [] 0 "AAPL" "holding" None.

Definition no_signals : Signals :=
  mkSignals "" nan nan nan nan nan nan nan false false false false false false false
    [] [] 0 "".

Definition signals_of (o : option Signals) : Signals :=
  match o with Some signals => signals | None => no_signals end.

(** The last bar of the slide, for a symbol that is not held. *)
Definition slide_signals : Signals :=
  signals_of (check_bnf_signals monitor_params [] "AAPL" (Some slide_bars) 0 1).

(** The last bar of the zigzag, two days after the entry. *)
Definition zigzag_signals : Signals :=
  signals_of (check_bnf_signals monitor_params (held_since 0) "AAPL"
                (Some zigzag_bars) (2 * day + 5) (2 * day + 6)).

(** The last bar of the slide, ten days after the symbol was marked. *)
Definition unpriced_signals : Signals :=
  signals_of (check_bnf_signals monitor_params held_without_price "AAPL"
                (Some slide_bars) (10 * day) (10 * day)).

(** X17: the monitor never raises a buy and a sell signal for the same
    symbol at once: a buy signal is raised only for a symbol whose status is
    "none", a sell signal only for a symbol whose status is "holding" and
    that has an entry time; with any other status neither is raised.  No
    result is produced from fewer than 50 bars. *)
Theorem buy_and_sell_signals_exclusive self positions symbol history now now' sg :
  check_bnf_signals self positions symbol history now now' = Some sg ->
  (exists data, history = Some data /\ (50 <= length (b_index data))%nat)
  /\ (sg_buy_signal sg = true ->
      get_position_status positions symbol = "none"%string
      /\ sg_sell_signal sg = false)
  /\ (sg_sell_signal sg = true ->
      get_position_status positions symbol = "holding"%string
      /\ sg_buy_signal sg = false
      /\ exists info e, lookup symbol positions = Some info
                        /\ p_entry_time info = Some e).
Proof.
  intros H. destruct history as [data|]; [|discriminate H].
  split.
  { exists data. split; [reflexivity|]. unfold check_bnf_signals in H.
    destruct (Nat.ltb_spec (length (b_index data)) 50); [discriminate H | lia]. }
  apply check_bnf_signals_eq in H
    as (df & _ & _ & _ & _ & _ & _ & _ & Hb & Hs & _).
  rewrite Hb, Hs.
  destruct (String.eqb_spec (get_position_status positions symbol) "none") as [E | E].
  - split; [now intros _ | discriminate].
  - split; [discriminate|].
    destruct (String.eqb_spec (get_position_status positions symbol) "holding")
      as [E' | E']; [|discriminate].
    destruct (lookup symbol positions) as [info|]; [|discriminate].
    destruct (p_entry_time info) as [e|] eqn:He; [|discriminate].
    intros _. split; [exact E'|]. split; [reflexivity|]. eauto.
Qed.

Lemma buy_signal_on_slide :
  check_bnf_signals monitor_params [] "AAPL" (Some slide_bars) 0 1 = Some slide_signals
  /\ sg_buy_signal slide_signals = true
  /\ sg_sell_signal slide_signals = false.
Proof.
  assert (H : check_bnf_signals monitor_params [] "AAPL" (Some slide_bars) 0 1
              = Some slide_signals) by (vm_compute; reflexivity).
  assert (Hb : sg_buy_signal slide_signals = true) by (vm_compute; reflexivity).
  split; [exact H | split; [exact Hb|]].
  destruct (buy_and_sell_signals_exclusive monitor_params [] "AAPL" (Some slide_bars)
              0 1 slide_signals H) as (_ & Hbuy & _).
  exact (proj2 (Hbuy Hb)).
Defined.

(** X18: under the monitor's parameters and with at least 50 bars, a symbol
    held for three days or more gets a sell signal whatever the indicators
    say, and the reason names the three days (the second clock reading being
    no earlier than the first). *)
Theorem sell_signal_forced_after_three_days positions symbol data now now' info e :
  (50 <= length (b_index data))%nat ->
  lookup symbol positions = Some info ->
  p_status info = Some "holding"%string ->
  p_entry_time info = Some e ->
  3 <= days (now - e) ->
  now <= now' ->
  exists sg,
    check_bnf_signals monitor_params positions symbol (Some data) now now' = Some sg
    /\ sg_sell_signal sg = true
    /\ sg_buy_signal sg = false
    /\ In Sell_three_days_held (sg_sell_reason sg).
Proof.
  intros Hn Hl Hst He Hd Hnow.
  destruct (check_bnf_signals monitor_params positions symbol (Some data) now now')
    as [sg|] eqn:H.
  2:{ exfalso. unfold check_bnf_signals in H.
      destruct (Nat.ltb_spec (length (b_index data)) 50); [lia|].
      destruct (indicators_of_long_history monitor_params data) as (df & Hdf & _);
        [cbn; lia | exact Hn |].
      rewrite Hdf in H. discriminate H. }
  exists sg. split; [reflexivity|].
  apply check_bnf_signals_eq in H
    as (df & _ & _ & _ & _ & _ & _ & _ & Hb & Hs & Hr).
  assert (Hstatus : get_position_status positions symbol = "holding"%string)
    by (unfold get_position_status; now rewrite Hl, Hst).
  rewrite Hstatus, Hl, He in *. cbn [String.eqb Ascii.eqb Bool.eqb] in Hb, Hs.
  assert (H3 : (3 <=? days (now - e)) = true) by (apply Z.leb_le; exact Hd).
  rewrite H3, orb_true_r in Hs. cbn [orb] in Hs.
  split; [exact Hs|]. split; [exact Hb|].
  rewrite Hr, Hs.
  assert (H3' : (3 <=? days (now' - e)) = true).
  { apply Z.leb_le. unfold days in *.
    etransitivity; [exact Hd|]. apply Z.div_le_mono; lia. }
  rewrite H3'. apply in_or_app; right. apply in_or_app; right.
  apply in_or_app; right. now left.
Qed.

Lemma forced_sell_on_zigzag :
  (50 <= length (b_index zigzag_bars))%nat
  /\ 3 <= days (3 * day + 5 - 0)
  /\ exists sg,
       check_bnf_signals monitor_params (held_since 0) "AAPL" (Some zigzag_bars)
         (3 * day + 5) (3 * day + 6) = Some sg
       /\ sg_sell_signal sg = true
       /\ In Sell_three_days_held (sg_sell_reason sg).
Proof.
  assert (H1 : (50 <= length (b_index zigzag_bars))%nat) by (vm_compute; lia).
  assert (H2 : lookup "AAPL" (held_since 0)
               = Some (mkPositionInfo (Some "holding"%string) (Some 100%float)
                         (Some 0) (Some 3))) by (vm_compute; reflexivity).
  assert (H3 : 3 <= days (3 * day + 5 - 0)) by (vm_compute; discriminate).
  assert (H4 : 3 * day + 5 <= 3 * day + 6) by lia.
  split; [exact H1 | split; [exact H3|]].
  destruct (sell_signal_forced_after_three_days (held_since 0) "AAPL" zigzag_bars
              (3 * day + 5) (3 * day + 6) _ 0 H1 H2 eq_refl eq_refl H3 H4)
    as (sg & Hsg & Hs & _ & Hr).
  exists sg. split; [exact Hsg | split; [exact Hs | exact Hr]].
Defined.

(** X19: a sell signal can come with an empty reason: this happens only
    for the two-day rule (held for two days, RSI at least 60) when none of
    the three overbought conditions holds, that is with an RSI of at least
    60 that is not at or above the overbought threshold. *)
Theorem sell_signal_without_reason self positions symbol history now now' sg :
  check_bnf_signals self positions symbol history now now' = Some sg ->
  now <= now' ->
  sg_sell_signal sg = true ->
  sg_sell_reason sg = [] ->
  (exists info e, lookup symbol positions = Some info
                  /\ p_entry_time info = Some e
                  /\ days (now - e) = 2)
  /\ (60 <=? sg_rsi sg)%float = true
  /\ (rsi_overbought self <=? sg_rsi sg)%float = false
  /\ sg_williams_overbought sg = false
  /\ (1.10 <=? sg_ma25_ratio sg)%float = false.
Proof.
  intros H Hnow Hsell Hreason. destruct history as [data|]; [|discriminate H].
  apply check_bnf_signals_eq in H
    as (df & Hdf & _ & _ & Hrsi & Hrob & Hwob & Hma & _ & Hs & Hr).
  rewrite Hsell in Hr. rewrite Hreason in Hr. symmetry in Hr.
  apply app_eq_nil in Hr as [R1 Hr]. apply app_eq_nil in Hr as [R2 Hr].
  apply app_eq_nil in Hr as [R3 R4].
  assert (Hrob' : sg_rsi_overbought sg = false)
    by (destruct (sg_rsi_overbought sg); [discriminate R1 | reflexivity]).
  assert (Hwob' : sg_williams_overbought sg = false)
    by (destruct (sg_williams_overbought sg); [discriminate R2 | reflexivity]).
  assert (Hma' : (1.10 <=? sg_ma25_ratio sg)%float = false)
    by (destruct (1.10 <=? sg_ma25_ratio sg)%float; [discriminate R3 | reflexivity]).
  (* the sell flag of the row is off *)
  assert (Hflag : nth (len df - 1) (BNF_Sell_Signal df) false = false).
  { destruct (Nat.lt_ge_cases (len df - 1) (length (BNF_Sell_Signal df))) as [Hlt | Hge];
      [|now apply nth_overflow].
    rewrite (sell_column_rule self data df _ Hdf Hlt). unfold sell_rule.
    rewrite <- Hma, Hma'.
    assert (Hc1 : nth (len df - 1) (RSI_Overbought df) false
                  = (rsi_overbought self <=? nth (len df - 1) (RSI df) nan)%float).
    { revert Hdf. unfold calculate_bnf_indicators.
      destruct (_ <? _)%nat; [discriminate|]. intros [= <-].
      cbn [RSI_Overbought RSI].
      apply (nth_map_default (fun x => (rsi_overbought self <=? x)%float)).
      apply leb_nan_r. }
    assert (Hc2 : nth (len df - 1) (Williams_Overbought df) false
                  = (williams_overbought self
                     <=? nth (len df - 1) (Williams_R df) nan)%float).
    { revert Hdf. unfold calculate_bnf_indicators.
      destruct (_ <? _)%nat; [discriminate|]. intros [= <-].
      cbn [Williams_Overbought Williams_R].
      apply (nth_map_default (fun x => (williams_overbought self <=? x)%float)).
      apply leb_nan_r. }
    rewrite <- Hc1, <- Hc2, <- Hrob, <- Hwob, Hrob', Hwob'. reflexivity. }
  rewrite Hsell, Hflag in Hs. symmetry in Hs.
  destruct (String.eqb (get_position_status positions symbol) "none");
    [discriminate Hs|].
  destruct (String.eqb (get_position_status positions symbol) "holding");
    [|discriminate Hs].
  destruct (lookup symbol positions) as [info|]; [|discriminate Hs].
  destruct (p_entry_time info) as [e|] eqn:He; [|discriminate Hs].
  cbn [orb] in Hs.
  assert (Hlt3 : (3 <=? days (now' - e)) = false)
    by (destruct (3 <=? days (now' - e)); [discriminate R4 | reflexivity]).
  apply Z.leb_gt in Hlt3.
  assert (Hmono : days (now - e) <= days (now' - e))
    by (unfold days; apply Z.div_le_mono; lia).
  destruct (Z.leb_spec 3 (days (now - e))) as [H3 | H3]; [lia|].
  cbn [orb] in Hs. apply andb_prop in Hs as [H2 H60]. apply Z.leb_le in H2.
  split; [exists info, e; repeat split; [exact He | lia]|].
  split; [exact H60|]. split; [|split; [exact Hwob' | exact Hma']].
  rewrite <- Hrob'. rewrite Hrob, Hrsi.
  revert Hdf. unfold calculate_bnf_indicators.
  destruct (_ <? _)%nat; [discriminate|]. intros [= <-].
  cbn [RSI_Overbought RSI]. symmetry.
  apply (nth_map_default (fun x => (rsi_overbought self <=? x)%float)).
  apply leb_nan_r.
Qed.

Lemma sell_without_reason_on_zigzag :
  check_bnf_signals monitor_params (held_since 0) "AAPL" (Some zigzag_bars)
    (2 * day + 5) (2 * day + 6) = Some zigzag_signals
  /\ sg_sell_signal zigzag_signals = true
  /\ sg_sell_reason zigzag_signals = []
  /\ (60 <=? sg_rsi zigzag_signals)%float = true
  /\ (rsi_overbought monitor_params <=? sg_rsi zigzag_signals)%float = false.
Proof.
  assert (H : check_bnf_signals monitor_params (held_since 0) "AAPL"
                (Some zigzag_bars) (2 * day + 5) (2 * day + 6) = Some zigzag_signals)
    by (vm_compute; reflexivity).
  assert (Hn : 2 * day + 5 <= 2 * day + 6) by lia.
  assert (Hs : sg_sell_signal zigzag_signals = true) by (vm_compute; reflexivity).
  assert (Hr : sg_sell_reason zigzag_signals = []) by (vm_compute; reflexivity).
  split; [exact H | split; [exact Hs | split; [exact Hr|]]].
  destruct (sell_signal_without_reason monitor_params (held_since 0) "AAPL"
              (Some zigzag_bars) (2 * day + 5) (2 * day + 6) zigzag_signals
              H Hn Hs Hr) as (_ & H60 & Hob & _).
  split; [exact H60 | exact Hob].
Defined.

(** ** The reasons of a buy signal *)

Lemma flag_column (f : float -> bool) (c : list float) i :
  f nan = false -> nth i (map f c) false = f (nth i c nan).
Proof. intros Hf. now apply nth_map_default. Qed.

Lemma check_buy_eq self positions symbol data now now' sg :
  check_bnf_signals self positions symbol (Some data) now now' = Some sg ->
  exists df,
    calculate_bnf_indicators self data = Some df
    /\ (50 <= len df)%nat
    /\ sg_buy_signal sg
       = (if String.eqb (get_position_status positions symbol) "none"
          then nth (len df - 1) (BNF_Buy_Signal df) false else false)
    /\ sg_buy_reason sg
       = (if sg_buy_signal sg then
            (if nth (len df - 1) (RSI_Oversold df) false
                && (volume_threshold self <? nth (len df - 1) (Volume_Ratio df) nan)%float
             then [Buy_rsi_oversold (nth (len df - 1) (RSI df) nan)] else [])
            ++ (if nth (len df - 1) (Williams_Oversold df) false
                   && (volume_threshold self
                       <? nth (len df - 1) (Volume_Ratio df) nan)%float
                then [Buy_williams_oversold (nth (len df - 1) (Williams_R df) nan)]
                else [])
            ++ (if nth (len df - 1) (MA25_Oversold df) false
                   && (nth (len df - 2) (Close df) nan
                       <? nth (len df - 1) (Close df) nan)%float
                then [Buy_ma25_rebound (nth (len df - 1) (MA25_Ratio df) nan)] else [])
          else []).
Proof.
  unfold check_bnf_signals.
  destruct (Nat.ltb_spec (length (b_index data)) 50) as [|Hn]; [discriminate|].
  destruct (calculate_bnf_indicators self data) as [df|] eqn:Hdf; [|discriminate].
  assert (Hlen : len df = length (b_index data)).
  { revert Hdf. unfold calculate_bnf_indicators.
    destruct (_ <? _)%nat; [discriminate|]. now intros [= <-]. }
  intros [= <-]. exists df. cbn [sg_buy_signal sg_buy_reason].
  destruct (Nat.ltb_spec 1 (len df)); [|lia].
  split; [reflexivity|]. split; [lia|]. split; reflexivity.
Qed.

(** X20: a buy signal of the monitor always comes with a reason: when the
    signal is raised, at least one of the three reason parts (RSI oversold
    with volume, Williams oversold with volume, rebound below the 25-day
    average) is listed.  The third part is listed without its volume
    condition, which the signal requires. *)
Theorem buy_signal_has_reason self positions symbol history now now' sg :
  check_bnf_signals self positions symbol history now now' = Some sg ->
  sg_buy_signal sg = true ->
  sg_buy_reason sg <> [].
Proof.
  intros H Hbuy. destruct history as [data|]; [|discriminate H].
  apply check_buy_eq in H as (df & Hdf & Hn & Hb & Hr).
  rewrite Hbuy in Hr. rewrite Hbuy in Hb. symmetry in Hb.
  destruct (String.eqb (get_position_status positions symbol) "none");
    [|discriminate Hb].
  set (i := (len df - 1)%nat) in *.
  assert (Hi : (i < length (BNF_Buy_Signal df))%nat).
  { destruct (Nat.lt_ge_cases i (length (BNF_Buy_Signal df))) as [Hlt | Hge];
      [exact Hlt|]. rewrite nth_overflow in Hb by exact Hge. discriminate Hb. }
  rewrite monitor_same in Hdf.
  destruct (buy_column_rule self data df i Hdf Hi) as [Hrule Hma].
  rewrite Hb in Hrule. symmetry in Hrule.
  assert (Hprev : match i with O => nan | S j => nth j (Close df) nan end
                  = nth (len df - 2) (Close df) nan).
  { subst i. destruct (len df - 1)%nat as [|j] eqn:E; [lia|].
    replace (len df - 2)%nat with j by lia. reflexivity. }
  rewrite Hprev in Hrule.
  assert (Hcols :
    nth i (RSI_Oversold df) false = (nth i (RSI df) nan <=? rsi_oversold self)%float
    /\ nth i (Williams_Oversold df) false
       = (nth i (Williams_R df) nan <=? williams_oversold self)%float
    /\ nth i (MA25_Oversold df) false
       = (nth i (MA25_Ratio df) nan <=? ma_oversold_threshold self)%float).
  { revert Hdf. unfold BNFCounterTrendBacktest.calculate_bnf_indicators.
    destruct (_ <? _)%nat; [discriminate|]. intros [= <-].
    cbn [RSI_Oversold RSI Williams_Oversold Williams_R MA25_Oversold MA25_Ratio].
    repeat split;
      match goal with |- nth _ (map ?f _) false = _ => apply (flag_column f) end;
      apply leb_nan_l. }
  destruct Hcols as (C1 & C2 & C3). rewrite Hr, C1, C2, C3.
  unfold buy_rule in Hrule.
  intros Hnil. apply app_eq_nil in Hnil as [N1 Hnil].
  apply app_eq_nil in Hnil as [N2 N3].
  apply orb_prop in Hrule as [Hrule | Hrule];
    [apply orb_prop in Hrule as [Hrule | Hrule]|].
  - rewrite Hrule in N1. discriminate N1.
  - rewrite Hrule in N2. discriminate N2.
  - apply andb_prop in Hrule as [Hrule _]. rewrite Hrule in N3. discriminate N3.
Qed.

Lemma buy_reason_on_slide :
  check_bnf_signals monitor_params [] "AAPL" (Some slide_bars) 0 1 = Some slide_signals
  /\ sg_buy_signal slide_signals = true
  /\ sg_buy_reason slide_signals <> [].
Proof.
  assert (H : check_bnf_signals monitor_params [] "AAPL" (Some slide_bars) 0 1
              = Some slide_signals) by (vm_compute; reflexivity).
  assert (Hb : sg_buy_signal slide_signals = true) by (vm_compute; reflexivity).
  split; [exact H | split; [exact Hb|]].
  exact (buy_signal_has_reason monitor_params [] "AAPL" (Some slide_bars) 0 1
           slide_signals H Hb).
Defined.

(** X21: a symbol marked "holding" without a price (a first [update_position]
    with no price or with price 0) has no entry time, and the monitor then
    raises neither a buy nor a sell signal for it, whatever the bars and
    however long it is held. *)
Theorem holding_without_price_is_never_sold self positions symbol price t
    history now now' sg :
  lookup symbol positions = None ->
  truthy_opt price = false ->
  check_bnf_signals self (update_position positions t symbol "holding" price)
    symbol history now now' = Some sg ->
  sg_position_status sg = "holding"%string
  /\ sg_buy_signal sg = false /\ sg_sell_signal sg = false.
Proof.
  intros Hnew Hp H. destruct history as [data|]; [|discriminate H].
  pose proof H as H'.
  apply check_bnf_signals_eq in H
    as (df & _ & _ & Hst & _ & _ & _ & _ & Hb & Hs & _).
  assert (Hl : lookup symbol (update_position positions t symbol "holding" price)
               = Some (mkPositionInfo (Some "holding"%string) None None None)).
  { unfold update_position. rewrite lookup_store, Hnew.
    cbn [String.eqb Ascii.eqb Bool.eqb andb]. rewrite Hp. reflexivity. }
  assert (Hstatus : get_position_status
                      (update_position positions t symbol "holding" price) symbol
                    = "holding"%string)
    by (unfold get_position_status; now rewrite Hl).
  rewrite Hstatus in *. rewrite Hl in Hs. cbn in Hb, Hs. auto.
Qed.

Lemma no_signal_without_price_on_slide :
  lookup "AAPL" [] = None
  /\ truthy_opt None = false
  /\ check_bnf_signals monitor_params held_without_price "AAPL" (Some slide_bars)
       (10 * day) (10 * day) = Some unpriced_signals
  /\ sg_buy_signal unpriced_signals = false
  /\ sg_sell_signal unpriced_signals = false.
Proof.
  assert (H1 : lookup "AAPL" [] = None) by reflexivity.
  assert (H2 : truthy_opt None = false) by reflexivity.
  assert (H : check_bnf_signals monitor_params held_without_price "AAPL"
                (Some slide_bars) (10 * day) (10 * day) = Some unpriced_signals)
    by (vm_compute; reflexivity).
  split; [exact H1 | split; [exact H2 | split; [exact H|]]].
  exact (proj2 (holding_without_price_is_never_sold monitor_params [] "AAPL" None 0
                  (Some slide_bars) (10 * day) (10 * day) unpriced_signals H1 H2 H)).
Defined.

(** ** Alerts *)

Lemma last_alert_set key t alerts : last_alert key (set_alert key t alerts) = Some t.
Proof.
  unfold last_alert. induction alerts as [|[k v] r IH]; cbn [set_alert find fst].
  - now rewrite String.eqb_refl.
  - destruct (String.eqb k key) eqn:He; cbn [find fst]; rewrite He; [reflexivity|].
    exact IH.
Qed.

(** A granted request records its time and starts the cooldown. *)
Lemma alert_granted last_alerts symbol signal_type t :
  let key := (symbol ++ "_" ++ signal_type)%string in
  let r := should_send_alert last_alerts symbol signal_type t in
  fst r = true ->
  last_alert key (snd r) = Some t
  /\ forall t', (t' - t <? alert_cooldown)%float = true ->
                should_send_alert (snd r) symbol signal_type t' = (false, snd r).
Proof.
  cbv zeta. unfold should_send_alert.
  destruct (last_alert _ last_alerts) as [last|] eqn:Hl.
  - destruct (t - last <? alert_cooldown)%float eqn:Hc; cbn [fst snd];
      [discriminate|].
    intros _. rewrite last_alert_set. split; [reflexivity|]. intros t' ->. reflexivity.
  - cbn [fst snd]. intros _. rewrite last_alert_set.
    split; [reflexivity|]. intros t' ->. reflexivity.
Qed.

(** X22: the alert cooldown: a request is refused exactly when an alert of
    the same symbol and type was granted less than 3600 seconds before, and
    a refusal changes nothing (it does not extend the cooldown); a granted
    request records its time, so that every request of the same key less
    than 3600 seconds later is refused. *)
Theorem alert_cooldown_rule last_alerts symbol signal_type t :
  let key := (symbol ++ "_" ++ signal_type)%string in
  let r := should_send_alert last_alerts symbol signal_type t in
  (fst r = false <->
   exists last, last_alert key last_alerts = Some last
                /\ (t - last <? alert_cooldown)%float = true)
  /\ (fst r = false -> snd r = last_alerts)
  /\ (fst r = true ->
      last_alert key (snd r) = Some t
      /\ forall t', (t' - t <? alert_cooldown)%float = true ->
                    should_send_alert (snd r) symbol signal_type t' = (false, snd r)).
Proof.
  cbv zeta. split; [|split].
  - unfold should_send_alert.
    destruct (last_alert _ last_alerts) as [last|] eqn:Hl.
    + destruct (t - last <? alert_cooldown)%float eqn:Hc; cbn [fst].
      * split; [eauto | reflexivity].
      * split; [discriminate|]. intros (l & [= <-] & Hl'). congruence.
    + cbn [fst]. split; [discriminate|]. intros (l & Hl' & _). discriminate Hl'.
  - unfold should_send_alert.
    destruct (last_alert _ last_alerts) as [last|];
      [destruct (t - last <? alert_cooldown)%float|]; cbn [fst snd];
      (reflexivity || discriminate).
  - exact (alert_granted last_alerts symbol signal_type t).
Qed.

(** X23: an alert that cannot be delivered still starts the cooldown: when
    a buy alert is due but [send_telegram_alert] fails, the position is not
    changed and nothing is counted, yet the time of the attempt is recorded,
    and a second handling of the same signal less than 3600 seconds later
    sends nothing and changes nothing, even if sending would now succeed. *)
Theorem failed_alert_starts_cooldown m signals on_buy on_sell on_buy' on_sell' :
  sg_buy_signal signals = true ->
  sg_sell_signal signals = false ->
  fst (should_send_alert (last_alerts m) (sg_symbol signals) "buy" (o_time on_buy))
  = true ->
  o_sent on_buy = false ->
  (o_time on_buy' - o_time on_buy <? alert_cooldown)%float = true ->
  let r := process_signals m (Some signals) on_buy on_sell in
  fst r = false
  /\ positions (snd r) = positions m
  /\ total_signals_sent (snd r) = total_signals_sent m
  /\ last_alert (sg_symbol signals ++ "_" ++ "buy")%string (last_alerts (snd r))
     = Some (o_time on_buy)
  /\ process_signals (snd r) (Some signals) on_buy' on_sell' = (false, snd r).
Proof.
  intros Hbuy Hsell Hdue Hfail Hsoon. cbv zeta.
  destruct (alert_granted (last_alerts m) (sg_symbol signals) "buy"
              (o_time on_buy) Hdue) as [Hrec Hblock].
  specialize (Hblock (o_time on_buy') Hsoon).
  unfold process_signals. rewrite Hbuy, Hsell.
  destruct (should_send_alert (last_alerts m) (sg_symbol signals) "buy"
              (o_time on_buy)) as [granted alerts] eqn:Hs.
  cbn [fst snd] in *. subst granted. rewrite Hfail. cbn [andb fst snd].
  cbn [positions last_alerts total_signals_sent last_signal_time].
  repeat split; auto.
  rewrite Hblock. reflexivity.
Qed.

(** A monitor that has sent nothing; a first handling of the buy signal of
    the slide at second 1000, when sending fails, and a second one at
    second 2000, when sending would succeed. *)
Definition fresh_monitor : Monitor := mkMonitor [] [] 0 None.
Definition send_fails : Outside := mkOutside 1000 false 0 0.
Definition send_works : Outside := mkOutside 2000 true 1 1.

Lemma failed_alert_on_slide :
  sg_buy_signal slide_signals = true
  /\ sg_sell_signal slide_signals = false
  /\ o_sent send_fails = false
  /\ (o_time send_works - o_time send_fails <? alert_cooldown)%float = true
  /\ process_signals
       (snd (process_signals fresh_monitor (Some slide_signals) send_fails send_fails))
       (Some slide_signals) send_works send_works
     = (false,
        snd (process_signals fresh_monitor (Some slide_signals) send_fails send_fails)).
Proof.
  assert (H1 : sg_buy_signal slide_signals = true) by (vm_compute; reflexivity).
  assert (H2 : sg_sell_signal slide_signals = false) by (vm_compute; reflexivity).
  assert (H3 : fst (should_send_alert (last_alerts fresh_monitor)
                      (sg_symbol slide_signals) "buy" (o_time send_fails)) = true)
    by (vm_compute; reflexivity).
  assert (H4 : o_sent send_fails = false) by reflexivity.
  assert (H5 : (o_time send_works - o_time send_fails <? alert_cooldown)%float = true)
    by (vm_compute; reflexivity).
  split; [exact H1 | split; [exact H2 | split; [exact H4 | split; [exact H5|]]]].
  destruct (failed_alert_starts_cooldown fresh_monitor slide_signals send_fails
              send_fails send_works send_works H1 H2 H3 H4 H5)
    as (_ & _ & _ & _ & H).
  exact H.
Defined.

End MonitorSignals.

(** * The market calendar of the monitor *)

Section MarketCalendar.
Import BNFCounterTrendMonitor.

(** ** The holidays *)

Definition fixed_holiday (d : DateTime) : Prop :=
  (dt_month d = 1 /\ dt_day d = 1) \/ (dt_month d = 7 /\ dt_day d = 4)
  \/ (dt_month d = 12 /\ dt_day d = 25).

Lemma weekday_of_first d :
  weekday d = (weekday (replace_day d 1) + (dt_day d - 1)) mod 7.
Proof.
  unfold weekday, toordinal, replace_day. cbn [dt_year dt_month dt_day].
  rewrite Zplus_mod_idemp_l. f_equal. lia.
Qed.

Lemma fixed_holiday_spec d :
  existsb (fun h => (fst h =? dt_month d) && (snd h =? dt_day d))
          [(1, 1); (7, 4); (12, 25)] = true
  <-> fixed_holiday d.
Proof.
  unfold fixed_holiday. cbn [existsb fst snd]. rewrite !orb_true_iff, !andb_true_iff.
  rewrite !Z.eqb_eq. intuition (try lia; try discriminate).
Qed.

Lemma holiday_spec (d : DateTime) :
  1 <= dt_day d <= days_in_month (dt_year d) (dt_month d) ->
  _is_us_holiday d = true
  <-> (dt_month d = 1 /\ dt_day d = 1) \/ (dt_month d = 7 /\ dt_day d = 4)
      \/ (dt_month d = 12 /\ dt_day d = 25)
      \/ (dt_month d = 11 /\ weekday d = 3 /\ 22 <= dt_day d <= 28).
Proof.
  intros Hday. unfold _is_us_holiday. cbv zeta.
  destruct (existsb _ _) eqn:Hfix.
  - apply fixed_holiday_spec in Hfix. unfold fixed_holiday in Hfix. tauto.
  - assert (Hnf : ~ fixed_holiday d).
    { intros H. apply fixed_holiday_spec in H. congruence. }
    unfold fixed_holiday in Hnf.
    destruct (Z.eqb_spec (dt_month d) 11) as [Hm | Hm]; cbn [andb].
    2:{ split; [discriminate | intros H; exfalso; tauto]. }
    destruct (Z.eqb_spec (weekday d) 3) as [Hw | Hw].
    2:{ split; [discriminate | intros H; exfalso; tauto]. }
    assert (Hd30 : dt_day d <= 30)
      by (unfold days_in_month in Hday; rewrite Hm in Hday; cbn in Hday; lia).
    pose proof (weekday_of_first d) as Hf. rewrite Hw in Hf.
    set (wf := weekday (replace_day d 1)) in *.
    assert (Hwf : 0 <= wf < 7) by (apply Z.mod_pos_bound; lia).
    destruct (Z.eqb_spec (dt_day d) (1 + (3 - wf) mod 7 + 21)) as [He | He].
    + split; [intros _|reflexivity]. right; right; right.
      split; [exact Hm|]. split; [exact Hw|].
      pose proof (Z.mod_pos_bound (3 - wf) 7 ltac:(lia)). lia.
    + split; [discriminate|]. intros H. exfalso. apply He.
      assert (H22 : 22 <= dt_day d <= 28) by tauto.
      clear - Hf Hwf H22. Z.div_mod_to_equations. lia.
Qed.

(** X24: the days the monitor treats as market holidays are January 1,
    July 4, December 25 and the fourth Thursday of November, which it
    recognises as the Thursday falling on the 22nd to the 28th; no other
    day (no other federal holiday, no observed Monday or Friday) is one. *)
Theorem holidays_recognised (d : DateTime) :
  1 <= dt_day d <= days_in_month (dt_year d) (dt_month d) ->
  _is_us_holiday d = true
  <-> (dt_month d = 1 /\ dt_day d = 1) \/ (dt_month d = 7 /\ dt_day d = 4)
      \/ (dt_month d = 12 /\ dt_day d = 25)
      \/ (dt_month d = 11 /\ weekday d = 3 /\ 22 <= dt_day d <= 28).
Proof. exact (holiday_spec d). Qed.

Lemma thanksgiving_2026_recognised :
  let d := mkDateTime 2026 11 26 12 0 0 0 in
  1 <= dt_day d <= days_in_month (dt_year d) (dt_month d)
  /\ weekday d = 3
  /\ _is_us_holiday d = true.
Proof.
  cbv zeta.
  assert (H : 1 <= dt_day (mkDateTime 2026 11 26 12 0 0 0)
              <= days_in_month (dt_year (mkDateTime 2026 11 26 12 0 0 0))
                   (dt_month (mkDateTime 2026 11 26 12 0 0 0)))
    by (vm_compute; split; discriminate).
  assert (Hw : weekday (mkDateTime 2026 11 26 12 0 0 0) = 3)
    by (vm_compute; reflexivity).
  split; [exact H | split; [exact Hw|]].
  apply (proj2 (holidays_recognised (mkDateTime 2026 11 26 12 0 0 0) H)).
  right; right; right. split; [reflexivity|]. split; [exact Hw|].
  cbn [dt_day]. lia.
Defined.

(** ** The next day *)

Lemma month_cases m : 1 <= m <= 12 ->
  m = 1 \/ m = 2 \/ m = 3 \/ m = 4 \/ m = 5 \/ m = 6 \/ m = 7 \/ m = 8 \/ m = 9
  \/ m = 10 \/ m = 11 \/ m = 12.
Proof. lia. Qed.

Lemma days_in_month_bounds y m : 28 <= days_in_month y m <= 31.
Proof.
  unfold days_in_month. destruct (m =? 2); [destruct (is_leap y); lia|].
  destruct (_ || _); lia.
Qed.

Lemma days_before_next_month y m :
  1 <= m < 12 ->
  days_before_month y (m + 1) = days_before_month y m + days_in_month y m.
Proof.
  intros Hm. assert (H : 1 <= m <= 12) by lia.
  destruct (month_cases m H) as [-> | [-> | [-> | [-> | [-> | [-> | [-> | [-> | [-> |
    [-> | [-> | ->]]]]]]]]]]]; try lia;
    unfold days_before_month, days_in_month;
    destruct (is_leap y); vm_compute; reflexivity.
Qed.

Lemma days_before_december y :
  days_before_month y 12 + 31 = 365 + (if is_leap y then 1 else 0).
Proof.
  unfold days_before_month, days_in_month.
  destruct (is_leap y); vm_compute; reflexivity.
Qed.

Lemma days_before_next_year y :
  days_before_year (y + 1)
  = days_before_year y + 365 + (if is_leap y then 1 else 0).
Proof.
  unfold days_before_year, is_leap. cbv zeta.
  replace (y + 1 - 1) with y by lia.
  destruct (Z.eqb_spec (y mod 4) 0) as [H4 | H4];
    destruct (Z.eqb_spec (y mod 100) 0) as [H100 | H100];
    destruct (Z.eqb_spec (y mod 400) 0) as [H400 | H400];
    cbn [andb orb negb]; Z.div_mod_to_equations; lia.
Qed.

Lemma toordinal_tomorrow d :
  1 <= dt_month d <= 12 ->
  1 <= dt_day d <= days_in_month (dt_year d) (dt_month d) ->
  toordinal (tomorrow d) = toordinal d + 1.
Proof.
  intros Hm Hd. unfold tomorrow, toordinal.
  destruct (Z.ltb_spec (dt_day d) (days_in_month (dt_year d) (dt_month d)));
    cbn [dt_year dt_month dt_day]; [lia|].
  destruct (Z.ltb_spec (dt_month d) 12); cbn [dt_year dt_month dt_day].
  - rewrite days_before_next_month by lia. lia.
  - assert (E : dt_month d = 12) by lia. rewrite E in *.
    assert (E' : dt_day d = 31) by (unfold days_in_month in *; cbn in *; lia).
    rewrite days_before_next_year.
    pose proof (days_before_december (dt_year d)).
    change (days_before_month (dt_year d + 1) 1) with 0. lia.
Qed.

Lemma weekday_tomorrow d :
  1 <= dt_month d <= 12 ->
  1 <= dt_day d <= days_in_month (dt_year d) (dt_month d) ->
  weekday (tomorrow d) = (weekday d + 1) mod 7.
Proof.
  intros Hm Hd. unfold weekday. rewrite toordinal_tomorrow by assumption.
  rewrite Zplus_mod_idemp_l. f_equal. lia.
Qed.

(** A date from which [k] further days stay within year 9999. *)
Definition in_range (k : Z) (d : DateTime) : Prop :=
  1 <= dt_year d /\ 1 <= dt_month d <= 12
  /\ 1 <= dt_day d <= days_in_month (dt_year d) (dt_month d)
  /\ (dt_year d <= 9998
      \/ (dt_year d = 9999 /\ dt_month d = 1 /\ dt_day d + k <= 31)).

Lemma in_range_tomorrow k d :
  0 < k <= 31 -> in_range k d ->
  in_range (k - 1) (tomorrow d) /\ dt_year (tomorrow d) <= 9999.
Proof.
  intros Hk (Hy & Hm & Hd & Hr). unfold tomorrow, in_range.
  pose proof (days_in_month_bounds (dt_year d) (dt_month d)).
  destruct (Z.ltb_spec (dt_day d) (days_in_month (dt_year d) (dt_month d)));
    cbn [dt_year dt_month dt_day].
  - split; [|lia]. repeat split; try lia.
  - destruct (Z.ltb_spec (dt_month d) 12); cbn [dt_year dt_month dt_day].
    + pose proof (days_in_month_bounds (dt_year d) (dt_month d + 1)).
      assert (dt_year d <= 9998).
      { destruct Hr as [? | (_ & E & ?)]; [assumption|].
        rewrite E in *. unfold days_in_month in *. cbn in *. lia. }
      split; [|lia]. repeat split; try lia.
    + assert (dt_year d <= 9998).
      { destruct Hr as [? | (_ & E & ?)]; [assumption | lia]. }
      change (days_in_month (dt_year d + 1) 1) with 31.
      split; [|lia]. repeat split; try lia.
Qed.

(** The date [n] days later. *)
Fixpoint days_later (d : DateTime) (n : nat) : DateTime :=
  match n with
  | O => d
  | S n' => days_later (tomorrow d) n'
  end.

Lemma add_days_in_range n : forall k d,
  Z.of_nat n <= k <= 31 -> in_range k d ->
  add_days d n = Some (days_later d n)
  /\ in_range (k - Z.of_nat n) (days_later d n).
Proof.
  induction n as [|n IH]; intros k d Hn Hr.
  - cbn [add_days days_later]. split; [reflexivity|].
    now replace (k - Z.of_nat 0) with k by lia.
  - cbn [add_days days_later].
    destruct (in_range_tomorrow k d ltac:(lia) Hr) as [Hr' Hy].
    destruct (Z.ltb_spec 9999 (dt_year (tomorrow d))); [lia|].
    destruct (IH (k - 1) (tomorrow d) ltac:(lia) Hr') as [E R].
    split; [exact E|]. now replace (k - Z.of_nat (S n)) with (k - 1 - Z.of_nat n) by lia.
Qed.

Lemma weekday_days_later n : forall k d,
  Z.of_nat n <= k <= 31 -> in_range k d ->
  weekday (days_later d n) = (weekday d + Z.of_nat n) mod 7.
Proof.
  induction n as [|n IH]; intros k d Hn Hr.
  - cbn [days_later]. rewrite Z.add_0_r. symmetry. apply Z.mod_small.
    apply Z.mod_pos_bound. lia.
  - cbn [days_later].
    destruct (in_range_tomorrow k d ltac:(lia) Hr) as [Hr' _].
    rewrite (IH (k - 1) (tomorrow d)) by (assumption || lia).
    destruct Hr as (_ & Hm & Hd & _).
    rewrite weekday_tomorrow by assumption.
    rewrite Zplus_mod_idemp_l. f_equal. lia.
Qed.

Lemma toordinal_days_later n : forall k d,
  Z.of_nat n <= k <= 31 -> in_range k d ->
  toordinal (days_later d n) = toordinal d + Z.of_nat n.
Proof.
  induction n as [|n IH]; intros k d Hn Hr.
  - cbn [days_later]. lia.
  - cbn [days_later].
    destruct (in_range_tomorrow k d ltac:(lia) Hr) as [Hr' _].
    rewrite (IH (k - 1) (tomorrow d)) by (assumption || lia).
    destruct Hr as (_ & Hm & Hd & _).
    rewrite toordinal_tomorrow by assumption. lia.
Qed.

Lemma days_later_add n : forall m d,
  days_later (days_later d n) m = days_later d (n + m).
Proof.
  induction n as [|n IH]; intros m d; [reflexivity|].
  cbn [days_later Nat.add]. apply IH.
Qed.

(** What [tomorrow] does to month and day, in linear form. *)
Lemma tomorrow_fields d :
  1 <= dt_month d <= 12 ->
  1 <= dt_day d <= days_in_month (dt_year d) (dt_month d) ->
  (dt_month (tomorrow d) = dt_month d /\ dt_day (tomorrow d) = dt_day d + 1
   /\ dt_day d < days_in_month (dt_year d) (dt_month d))
  \/ (dt_day (tomorrow d) = 1
      /\ dt_day d = days_in_month (dt_year d) (dt_month d)
      /\ ((dt_month d < 12 /\ dt_month (tomorrow d) = dt_month d + 1)
          \/ (dt_month d = 12 /\ dt_month (tomorrow d) = 1))).
Proof.
  intros Hm Hd. unfold tomorrow.
  destruct (Z.ltb_spec (dt_day d) (days_in_month (dt_year d) (dt_month d)));
    cbn [dt_month dt_day]; [left; lia|].
  right. destruct (Z.ltb_spec (dt_month d) 12); cbn [dt_month dt_day]; lia.
Qed.

Lemma month_lengths y m :
  (m = 1 -> days_in_month y m = 31) /\ (m = 7 -> days_in_month y m = 31)
  /\ (m = 11 -> days_in_month y m = 30) /\ (m = 12 -> days_in_month y m = 31).
Proof. repeat split; intros ->; reflexivity. Qed.

(** One step of the calendar, with all the facts about it. *)
Lemma calendar_step k d :
  0 < k <= 31 -> in_range k d ->
  in_range (k - 1) (tomorrow d)
  /\ weekday (tomorrow d) = (weekday d + 1) mod 7
  /\ ((dt_month (tomorrow d) = dt_month d /\ dt_day (tomorrow d) = dt_day d + 1
       /\ dt_day d < days_in_month (dt_year d) (dt_month d))
      \/ (dt_day (tomorrow d) = 1
          /\ dt_day d = days_in_month (dt_year d) (dt_month d)
          /\ ((dt_month d < 12 /\ dt_month (tomorrow d) = dt_month d + 1)
              \/ (dt_month d = 12 /\ dt_month (tomorrow d) = 1))))
  /\ (dt_month d = 1 -> days_in_month (dt_year d) (dt_month d) = 31)
  /\ (dt_month d = 7 -> days_in_month (dt_year d) (dt_month d) = 31)
  /\ (dt_month d = 11 -> days_in_month (dt_year d) (dt_month d) = 30)
  /\ (dt_month d = 12 -> days_in_month (dt_year d) (dt_month d) = 31).
Proof.
  intros Hk Hr. pose proof Hr as (_ & Hm & Hd & _).
  split; [exact (proj1 (in_range_tomorrow k d Hk Hr))|].
  split; [now apply weekday_tomorrow|].
  split; [now apply tomorrow_fields|].
  apply month_lengths.
Qed.

Lemma holiday_cases d :
  in_range 0 d ->
  (_is_us_holiday d = true ->
   (dt_month d = 1 /\ dt_day d = 1) \/ (dt_month d = 7 /\ dt_day d = 4)
   \/ (dt_month d = 12 /\ dt_day d = 25)
   \/ (dt_month d = 11 /\ weekday d = 3 /\ 22 <= dt_day d <= 28))
  /\ (_is_us_holiday d = false ->
      ~ ((dt_month d = 1 /\ dt_day d = 1) \/ (dt_month d = 7 /\ dt_day d = 4)
         \/ (dt_month d = 12 /\ dt_day d = 25)
         \/ (dt_month d = 11 /\ weekday d = 3 /\ 22 <= dt_day d <= 28))).
Proof.
  intros (_ & _ & Hd & _). pose proof (holiday_spec d Hd) as H.
  split; [apply H|]. intros Hf Hc. apply H in Hc. congruence.
Qed.

Lemma in_range_weaken k k' d : k' <= k -> in_range k d -> in_range k' d.
Proof. intros Hk (H1 & H2 & H3 & H4). repeat split; try tauto. lia. Qed.

Lemma weekday_range d : 0 <= weekday d < 7.
Proof. apply Z.mod_pos_bound. lia. Qed.

(** The day after a day that is not the last of its month. *)
Lemma next_in_month d m x len :
  dt_month d = m -> dt_day d = x -> days_in_month (dt_year d) m = len -> x < len ->
  (dt_month (tomorrow d) = dt_month d /\ dt_day (tomorrow d) = dt_day d + 1
   /\ dt_day d < days_in_month (dt_year d) (dt_month d))
  \/ (dt_day (tomorrow d) = 1
      /\ dt_day d = days_in_month (dt_year d) (dt_month d)
      /\ ((dt_month d < 12 /\ dt_month (tomorrow d) = dt_month d + 1)
          \/ (dt_month d = 12 /\ dt_month (tomorrow d) = 1))) ->
  dt_month (tomorrow d) = m /\ dt_day (tomorrow d) = x + 1.
Proof. intros Hm Hx Hl Hlt F. rewrite Hm in F. lia. Qed.

Definition not_a_holiday (d : DateTime) : Prop :=
  ~ ((dt_month d = 1 /\ dt_day d = 1) \/ (dt_month d = 7 /\ dt_day d = 4)
     \/ (dt_month d = 12 /\ dt_day d = 25)
     \/ (dt_month d = 11 /\ weekday d = 3 /\ 22 <= dt_day d <= 28)).

(** Three days on from the day [x] of a month [m] of [len] days, inside
    the month. *)
Lemma three_days_in_month d m x len :
  in_range 3 d -> dt_month d = m -> dt_day d = x ->
  (forall y, days_in_month y m = len) -> x + 3 <= len ->
  (dt_month (tomorrow d) = m /\ dt_day (tomorrow d) = x + 1)
  /\ (dt_month (tomorrow (tomorrow d)) = m
      /\ dt_day (tomorrow (tomorrow d)) = x + 2)
  /\ (dt_month (tomorrow (tomorrow (tomorrow d))) = m
      /\ dt_day (tomorrow (tomorrow (tomorrow d))) = x + 3).
Proof.
  intros Hr Hm Hx Hlen Hfit.
  destruct (calendar_step 3 d ltac:(lia) Hr) as (Hr1 & _ & F1 & _).
  destruct (calendar_step 2 (tomorrow d) ltac:(lia) Hr1) as (Hr2 & _ & F2 & _).
  destruct (calendar_step 1 (tomorrow (tomorrow d)) ltac:(lia) Hr2) as (_ & _ & F3 & _).
  assert (H1 : dt_month (tomorrow d) = m /\ dt_day (tomorrow d) = x + 1)
    by (apply (next_in_month d m x len); auto; lia).
  destruct H1 as [M1 D1].
  assert (H2 : dt_month (tomorrow (tomorrow d)) = m
               /\ dt_day (tomorrow (tomorrow d)) = x + 1 + 1)
    by (apply (next_in_month (tomorrow d) m (x + 1) len); auto; lia).
  destruct H2 as [M2 D2].
  assert (H3 : dt_month (tomorrow (tomorrow (tomorrow d))) = m
               /\ dt_day (tomorrow (tomorrow (tomorrow d))) = x + 1 + 1 + 1)
    by (apply (next_in_month (tomorrow (tomorrow d)) m (x + 1 + 1) len); auto; lia).
  destruct H3 as [M3 D3].
  repeat split; auto; lia.
Qed.

Lemma days_later_cases d (k : nat) (P : DateTime -> Prop) :
  (1 <= k <= 3)%nat ->
  P (tomorrow d) -> P (tomorrow (tomorrow d)) -> P (tomorrow (tomorrow (tomorrow d))) ->
  P (days_later d k).
Proof.
  intros Hk P1 P2 P3.
  assert (Hk' : k = 1%nat \/ k = 2%nat \/ k = 3%nat) by lia.
  destruct Hk' as [-> | [-> | ->]]; assumption.
Qed.

(** No holiday follows a holiday within three days. *)
Lemma no_holiday_after_holiday d (k : nat) :
  in_range 3 d -> (1 <= k <= 3)%nat ->
  _is_us_holiday d = true -> _is_us_holiday (days_later d k) = false.
Proof.
  intros Hr Hk Hh.
  assert (Hrk : in_range 0 (days_later d k)).
  { destruct (add_days_in_range k 3 d ltac:(lia) Hr) as [_ H].
    apply (in_range_weaken _ 0) in H; [exact H | lia]. }
  destruct (_is_us_holiday (days_later d k)) eqn:E; [exfalso|reflexivity].
  apply (proj1 (holiday_cases _ Hrk)) in E. revert E.
  change (not_a_holiday (days_later d k)). clear Hrk.
  apply (proj1 (holiday_cases d (in_range_weaken 3 0 d ltac:(lia) Hr))) in Hh.
  destruct Hh as [[Hm Hd] | [[Hm Hd] | [[Hm Hd] | (Hm & Hw & Hd)]]].
  - destruct (three_days_in_month d 1 1 31 Hr Hm Hd (fun _ => eq_refl) ltac:(lia))
      as ((M1 & D1) & (M2 & D2) & (M3 & D3)).
    apply days_later_cases; [exact Hk | | |]; unfold not_a_holiday; lia.
  - destruct (three_days_in_month d 7 4 31 Hr Hm Hd (fun _ => eq_refl) ltac:(lia))
      as ((M1 & D1) & (M2 & D2) & (M3 & D3)).
    apply days_later_cases; [exact Hk | | |]; unfold not_a_holiday; lia.
  - destruct (three_days_in_month d 12 25 31 Hr Hm Hd (fun _ => eq_refl) ltac:(lia))
      as ((M1 & D1) & (M2 & D2) & (M3 & D3)).
    apply days_later_cases; [exact Hk | | |]; unfold not_a_holiday; lia.
  - (* the Thursday: the next three days are Friday to Sunday *)
    destruct (calendar_step 3 d ltac:(lia) Hr) as (Hr1 & W1 & _).
    destruct (calendar_step 2 (tomorrow d) ltac:(lia) Hr1) as (Hr2 & W2 & _).
    destruct (calendar_step 1 (tomorrow (tomorrow d)) ltac:(lia) Hr2) as (_ & W3 & F3 & _).
    assert (V1 : weekday (tomorrow d) = 4) by (rewrite W1, Hw; reflexivity).
    assert (V2 : weekday (tomorrow (tomorrow d)) = 5) by (rewrite W2, V1; reflexivity).
    assert (V3 : weekday (tomorrow (tomorrow (tomorrow d))) = 6)
      by (rewrite W3, V2; reflexivity).
    assert (H2 : dt_month (tomorrow (tomorrow d)) = 11
                 /\ dt_day (tomorrow (tomorrow d)) = dt_day d + 2).
    { destruct (calendar_step 3 d ltac:(lia) Hr) as (_ & _ & F1 & _).
      destruct (calendar_step 2 (tomorrow d) ltac:(lia) Hr1) as (_ & _ & F2 & _).
      assert (H1 : dt_month (tomorrow d) = 11 /\ dt_day (tomorrow d) = dt_day d + 1)
        by (apply (next_in_month d 11 (dt_day d) 30); auto; lia).
      destruct H1 as [M1 D1].
      assert (H2 : dt_month (tomorrow (tomorrow d)) = 11
                   /\ dt_day (tomorrow (tomorrow d)) = dt_day d + 1 + 1)
        by (apply (next_in_month (tomorrow d) 11 (dt_day d + 1) 30); auto; lia).
      split; [tauto | lia]. }
    apply days_later_cases; [exact Hk | | |]; unfold not_a_holiday.
    + intros [[? ?] | [[? ?] | [[? ?] | (? & ? & ?)]]]; try lia.
      * destruct (calendar_step 3 d ltac:(lia) Hr) as (_ & _ & F1 & L1).
        rewrite Hm in F1, L1. lia.
      * destruct (calendar_step 3 d ltac:(lia) Hr) as (_ & _ & F1 & L1).
        rewrite Hm in F1, L1. lia.
      * destruct (calendar_step 3 d ltac:(lia) Hr) as (_ & _ & F1 & L1).
        rewrite Hm in F1, L1. lia.
    + destruct H2 as [M2 D2]. lia.
    + destruct H2 as [M2 D2]. rewrite M2 in F3.
      assert (L : days_in_month (dt_year (tomorrow (tomorrow d))) 11 = 30)
        by reflexivity.
      rewrite L in F3. lia.
Qed.

(** ** The next opening of the market *)

Definition is_trading_day (d : DateTime) : bool :=
  (weekday d <? 5) && negb (_is_us_holiday d).

Lemma weekday_replace_time d h m s us : weekday (replace_time d h m s us) = weekday d.
Proof. reflexivity. Qed.

Lemma holiday_replace_time d h m s us :
  _is_us_holiday (replace_time d h m s us) = _is_us_holiday d.
Proof. reflexivity. Qed.

Lemma toordinal_replace_time d h m s us :
  toordinal (replace_time d h m s us) = toordinal d.
Proof. reflexivity. Qed.

(** Among four consecutive days one is a trading day. *)
Lemma trading_day_within_four_days d :
  in_range 6 d ->
  is_trading_day d = true \/ is_trading_day (days_later d 1) = true
  \/ is_trading_day (days_later d 2) = true \/ is_trading_day (days_later d 3) = true.
Proof.
  intros Hr.
  pose proof (weekday_range d) as Hw.
  pose proof (weekday_days_later 1 6 d ltac:(lia) Hr) as W1.
  pose proof (weekday_days_later 2 6 d ltac:(lia) Hr) as W2.
  pose proof (weekday_days_later 3 6 d ltac:(lia) Hr) as W3.
  destruct (add_days_in_range 1 6 d ltac:(lia) Hr) as [_ R1].
  destruct (add_days_in_range 2 6 d ltac:(lia) Hr) as [_ R2].
  assert (G0 : forall k, (1 <= k <= 3)%nat -> _is_us_holiday d = true ->
                         _is_us_holiday (days_later d k) = false).
  { intros k Hk. apply no_holiday_after_holiday; [|exact Hk].
    apply (in_range_weaken 6); [lia | exact Hr]. }
  assert (G1 : _is_us_holiday (days_later d 1) = true ->
               _is_us_holiday (days_later d 2) = false).
  { intros H. change (days_later d 2) with (days_later (days_later d 1) 1).
    apply no_holiday_after_holiday; [|lia|exact H].
    apply (in_range_weaken (6 - Z.of_nat 1)); [lia | exact R1]. }
  assert (G2 : _is_us_holiday (days_later d 2) = true ->
               _is_us_holiday (days_later d 3) = false).
  { intros H. change (days_later d 3) with (days_later (days_later d 2) 1).
    apply no_holiday_after_holiday; [|lia|exact H].
    apply (in_range_weaken (6 - Z.of_nat 2)); [lia | exact R2]. }
  unfold is_trading_day.
  assert (Hc : weekday d = 0 \/ weekday d = 1 \/ weekday d = 2 \/ weekday d = 3
               \/ weekday d = 4 \/ weekday d = 5 \/ weekday d = 6) by lia.
  destruct (_is_us_holiday d) eqn:H0;
    destruct (_is_us_holiday (days_later d 1)) eqn:H1;
    destruct (_is_us_holiday (days_later d 2)) eqn:H2;
    destruct (_is_us_holiday (days_later d 3)) eqn:H3;
    try (specialize (G0 1%nat ltac:(lia) eq_refl); congruence);
    try (specialize (G0 2%nat ltac:(lia) eq_refl); congruence);
    try (specialize (G0 3%nat ltac:(lia) eq_refl); congruence);
    try (specialize (G1 eq_refl); congruence);
    try (specialize (G2 eq_refl); congruence);
    rewrite W1, W2, W3;
    destruct Hc as [-> | [-> | [-> | [-> | [-> | [-> | ->]]]]]]; cbn; tauto.
Qed.

Lemma first_open_step next_day i range check_date :
  add_days next_day i = Some check_date ->
  first_open_from next_day (i :: range)
  = if is_trading_day check_date then Some (replace_time check_date 9 30 0 0)
    else first_open_from next_day range.
Proof. intros H. cbn [first_open_from]. rewrite H. reflexivity. Qed.

Lemma first_open_found next_day :
  in_range 6 next_day ->
  exists i, (i <= 3)%nat
            /\ is_trading_day (days_later next_day i) = true
            /\ first_open_from next_day (seq 0 7)
               = Some (replace_time (days_later next_day i) 9 30 0 0).
Proof.
  intros Hr.
  destruct (add_days_in_range 0 6 next_day ltac:(lia) Hr) as [A0 _].
  destruct (add_days_in_range 1 6 next_day ltac:(lia) Hr) as [A1 _].
  destruct (add_days_in_range 2 6 next_day ltac:(lia) Hr) as [A2 _].
  destruct (add_days_in_range 3 6 next_day ltac:(lia) Hr) as [A3 _].
  pose proof (trading_day_within_four_days next_day Hr) as Hex.
  change (seq 0 7) with [0; 1; 2; 3; 4; 5; 6]%nat.
  rewrite (first_open_step _ _ _ _ A0).
  destruct (is_trading_day (days_later next_day 0)) eqn:T0;
    [exists 0%nat; repeat split; [lia | exact T0]|].
  rewrite (first_open_step _ _ _ _ A1).
  destruct (is_trading_day (days_later next_day 1)) eqn:T1;
    [exists 1%nat; repeat split; [lia | exact T1]|].
  rewrite (first_open_step _ _ _ _ A2).
  destruct (is_trading_day (days_later next_day 2)) eqn:T2;
    [exists 2%nat; repeat split; [lia | exact T2]|].
  rewrite (first_open_step _ _ _ _ A3).
  destruct (is_trading_day (days_later next_day 3)) eqn:T3;
    [exists 3%nat; repeat split; [lia | exact T3]|].
  exfalso. change (days_later next_day 0) with next_day in T0.
  destruct Hex as [H | [H | [H | H]]]; congruence.
Qed.

(** X25: for every date up to the year 9998 the monitor finds a next
    opening of the market: [_get_next_market_open] returns a time (never
    None); it is 09:30:00 on a day that is Monday to Friday and not one of
    the holidays; and it is either later on the same day or on one of the
    following four days. *)
Theorem next_market_open_is_found (current_us_time : DateTime) :
  1 <= dt_year current_us_time <= 9998 ->
  1 <= dt_month current_us_time <= 12 ->
  1 <= dt_day current_us_time
    <= days_in_month (dt_year current_us_time) (dt_month current_us_time) ->
  exists t,
    _get_next_market_open current_us_time = Some t
    /\ dt_hour t = 9 /\ dt_minute t = 30 /\ dt_second t = 0 /\ dt_microsecond t = 0
    /\ weekday t < 5
    /\ _is_us_holiday t = false
    /\ ((toordinal t = toordinal current_us_time
         /\ dt_ltb current_us_time t = true)
        \/ toordinal current_us_time < toordinal t <= toordinal current_us_time + 4).
Proof.
  intros Hy Hm Hd. set (d := current_us_time) in *.
  assert (Hr : in_range 7 d) by (repeat split; try lia).
  unfold _get_next_market_open. cbv zeta.
  destruct (dt_ltb d (replace_time d 9 30 0 0) && (weekday d <? 5)
            && negb (_is_us_holiday d)) eqn:Htoday.
  - apply andb_prop in Htoday as [Htoday Hh]. apply andb_prop in Htoday as [Hlt Hw].
    exists (replace_time d 9 30 0 0).
    rewrite weekday_replace_time, holiday_replace_time, toordinal_replace_time.
    cbn [dt_hour dt_minute dt_second dt_microsecond replace_time].
    repeat split; try reflexivity.
    + now apply Z.ltb_lt.
    + now apply negb_true_iff.
    + left. split; [reflexivity | exact Hlt].
  - clear Htoday.
    destruct (add_days_in_range 1 7 d ltac:(lia) Hr) as [A1 R1].
    rewrite A1. replace (7 - Z.of_nat 1) with 6 in R1 by lia.
    destruct (first_open_found (days_later d 1) R1) as (i & Hi & Ht & ->).
    eexists. split; [reflexivity|].
    rewrite weekday_replace_time, holiday_replace_time, toordinal_replace_time.
    cbn [dt_hour dt_minute dt_second dt_microsecond replace_time].
    unfold is_trading_day in Ht. apply andb_prop in Ht as [Hw Hh].
    repeat split; try reflexivity.
    + now apply Z.ltb_lt.
    + now apply negb_true_iff.
    + right. rewrite days_later_add.
      rewrite (toordinal_days_later (1 + i) 7 d) by (assumption || lia). lia.
Qed.

Lemma next_market_open_on_a_friday_evening :
  let now := mkDateTime 2026 7 3 18 0 0 0 in
  1 <= dt_year now <= 9998
  /\ 1 <= dt_month now <= 12
  /\ 1 <= dt_day now <= days_in_month (dt_year now) (dt_month now)
  /\ exists t, _get_next_market_open now = Some t /\ weekday t < 5.
Proof.
  cbv zeta.
  assert (H1 : 1 <= dt_year (mkDateTime 2026 7 3 18 0 0 0) <= 9998) by (cbn; lia).
  assert (H2 : 1 <= dt_month (mkDateTime 2026 7 3 18 0 0 0) <= 12) by (cbn; lia).
  assert (H3 : 1 <= dt_day (mkDateTime 2026 7 3 18 0 0 0)
               <= days_in_month (dt_year (mkDateTime 2026 7 3 18 0 0 0))
                    (dt_month (mkDateTime 2026 7 3 18 0 0 0)))
    by (vm_compute; split; discriminate).
  split; [exact H1 | split; [exact H2 | split; [exact H3 |]]].
  destruct (next_market_open_is_found (mkDateTime 2026 7 3 18 0 0 0) H1 H2 H3)
    as (t & Ht & _ & _ & _ & _ & Hw & _).
  exists t. split; [exact Ht | exact Hw].
Defined.

End MarketCalendar.
